(** * End-to-end encrypted messaging: message cipher, inbox transport and
      message store

    A shallow embedding of three parts of the application:

    - [utils/messageCrypto]: [toBase64], [fromBase64], [randomBytes],
      [encryptMessage] and [decryptMessage] (AES-256-GCM through Web Crypto);
    - [backend/routes/kx.js] and [backend/routes/messages.js]: the in-memory
      key-exchange inbox and the stored-ciphertext routes;
    - [components/Dashboard]: [handleCheckInbox], the dispatcher of incoming
      key-exchange messages.

    Conventions.  A JavaScript string is a Rocq [string] holding the UTF-8
    bytes of a well-formed text, so that [TextEncoder.encode] is the list of
    its bytes.  A [Uint8Array] is a [list Byte.byte].  Numbers are the integral
    ones, in [Z].  A call that may throw returns an [Outcome]. *)

From Stdlib Require Import ZArith String Ascii List DecimalString DecimalZ.
From stdpp Require Import base tactics option list strings gmap sorting.

Local Open Scope string_scope.
Local Open Scope list_scope.
Local Open Scope Z_scope.

(** ** JavaScript values and exceptions *)

#[warnings="-register-all"]
Inductive JSValue : Type :=
  | JUndefined
  | JNull
  | JBool (b : bool)
  | JNum (n : Z)
  | JStr (s : string)
  | JHandle (h : N)                        (* host object: CryptoKey, ... *)
  | JArr (items : list JSValue)
  | JObj (fields : list (string * JSValue)).

Inductive Exn : Type :=
  | OperationError          (* crypto.subtle: authentication failed *)
  | InvalidCharacterError   (* atob *)
  | SyntaxError             (* JSON.parse *)
  | TypeError               (* property read on null or undefined *)
  | HostError (what : string).

Inductive Outcome (A : Type) : Type :=
  | Ok (a : A)
  | Throw (e : Exn).
Arguments Ok {A} a.
Arguments Throw {A} e.

#[export] Instance Outcome_ret : MRet Outcome := fun _ a => Ok a.
#[export] Instance Outcome_bind : MBind Outcome := fun _ _ f m =>
  match m with Ok a => f a | Throw e => Throw e end.

Definition of_option {A} (e : Exn) (o : option A) : Outcome A :=
  match o with Some a => Ok a | None => Throw e end.

Definition returned {A} (o : Outcome A) : option A :=
  match o with Ok a => Some a | Throw _ => None end.

(** [!v], for the values of this development. *)
Definition falsy (v : JSValue) : bool :=
  match v with
  | JUndefined | JNull => true
  | JBool b => negb b
  | JNum n => n =? 0
  | JStr s => if decide (s = "") then true else false
  | JHandle _ | JArr _ | JObj _ => false
  end.

Definition truthy (v : JSValue) : bool := negb (falsy v).

(** [a || b] *)
Definition js_or (a b : JSValue) : JSValue := if truthy a then a else b.

Fixpoint assoc_last (k : string) (fs : list (string * JSValue)) : option JSValue :=
  match fs with
  | [] => None
  | (k', v) :: rest =>
      match assoc_last k rest with
      | Some w => Some w
      | None => if decide (k = k') then Some v else None
      end
  end.

(** [v.k]: throws on [null] and [undefined], is [undefined] where the
    property does not exist. *)
Definition get_prop (v : JSValue) (k : string) : Outcome JSValue :=
  match v with
  | JUndefined | JNull => Throw TypeError
  | JObj fs => Ok (default JUndefined (assoc_last k fs))
  | _ => Ok JUndefined
  end.

(** [v === s] for a string literal [s]. *)
Definition is_str (v : JSValue) (s : string) : bool :=
  match v with JStr s' => if decide (s' = s) then true else false | _ => false end.

(** [typeof v === 'number'] *)
Definition is_number (v : JSValue) : bool :=
  match v with JNum _ => true | _ => false end.

(** [String(n)] and [`${n}`] on an integral number. *)
Definition number_to_string (n : Z) : string :=
  NilEmpty.string_of_int (Z.to_int n).

(** ** Base64: [btoa], [atob], [toBase64], [fromBase64] *)

Module Base64.

(** Six bits, most significant first. *)
Definition sextet : Type := bool * bool * bool * bool * bool * bool.

Definition bit (b : bool) : nat := if b then 1%nat else 0%nat.

Definition sextet_index (s : sextet) : nat :=
  let '(b5, b4, b3, b2, b1, b0) := s in
  (32 * bit b5 + 16 * bit b4 + 8 * bit b3 + 4 * bit b2 + 2 * bit b1 + bit b0)%nat.

Definition sextet_of_index (n : nat) : sextet :=
  (Nat.testbit n 5, Nat.testbit n 4, Nat.testbit n 3,
   Nat.testbit n 2, Nat.testbit n 1, Nat.testbit n 0).

Definition alphabet : list ascii :=
  list_ascii_of_string
    "ABCDEFGHIJKLMNOPQRSTUVWXYZabcdefghijklmnopqrstuvwxyz0123456789+/".

Definition b64_char (s : sextet) : ascii :=
  nth (sextet_index s) alphabet "A"%char.

Definition b64_sextet (c : ascii) : option sextet :=
  let n := nat_of_ascii c in
  if (65 <=? n)%nat && (n <=? 90)%nat then Some (sextet_of_index (n - 65))
  else if (97 <=? n)%nat && (n <=? 122)%nat then Some (sextet_of_index (n - 71))
  else if (48 <=? n)%nat && (n <=? 57)%nat then Some (sextet_of_index (n + 4))
  else if (n =? 43)%nat then Some (sextet_of_index 62)
  else if (n =? 47)%nat then Some (sextet_of_index 63)
  else None.

Definition pad : ascii := "="%char.

(** Whole groups of three bytes give four characters; one or two bytes
    left over give two or three, the missing bits being zero. *)
Fixpoint encode_groups (l : list ascii) : list ascii :=
  match l with
  | [] => []
  | [Ascii a0 a1 a2 a3 a4 a5 a6 a7] =>
      [b64_char (a7, a6, a5, a4, a3, a2);
       b64_char (a1, a0, false, false, false, false)]
  | [Ascii a0 a1 a2 a3 a4 a5 a6 a7; Ascii b0 b1 b2 b3 b4 b5 b6 b7] =>
      [b64_char (a7, a6, a5, a4, a3, a2);
       b64_char (a1, a0, b7, b6, b5, b4);
       b64_char (b3, b2, b1, b0, false, false)]
  | Ascii a0 a1 a2 a3 a4 a5 a6 a7 :: Ascii b0 b1 b2 b3 b4 b5 b6 b7
      :: Ascii c0 c1 c2 c3 c4 c5 c6 c7 :: rest =>
      b64_char (a7, a6, a5, a4, a3, a2)
      :: b64_char (a1, a0, b7, b6, b5, b4)
      :: b64_char (b3, b2, b1, b0, c7, c6)
      :: b64_char (c5, c4, c3, c2, c1, c0)
      :: encode_groups rest
  end.

Definition padding (n : nat) : list ascii :=
  match (n mod 3)%nat with
  | 1%nat => [pad; pad]
  | 2%nat => [pad]
  | _ => []
  end.

(** [btoa]: a binary string (every char code below 256, as every [ascii]
    is) to its base64 text. *)
Definition btoa (bin : string) : string :=
  let l := list_ascii_of_string bin in
  string_of_list_ascii (encode_groups l ++ padding (length l)).

Definition is_ascii_whitespace (c : ascii) : bool :=
  let n := nat_of_ascii c in
  (n =? 9)%nat || (n =? 10)%nat || (n =? 12)%nat || (n =? 13)%nat || (n =? 32)%nat.

(** Remove one or two trailing [=] signs. *)
Definition strip_padding (l : list ascii) : list ascii :=
  match rev l with
  | c1 :: c2 :: r =>
      if decide (c1 = pad) then
        if decide (c2 = pad) then rev r else rev (c2 :: r)
      else l
  | [c1] => if decide (c1 = pad) then [] else l
  | [] => l
  end.

Fixpoint decode_groups (l : list ascii) : option (list ascii) :=
  match l with
  | [] => Some []
  | [_] => None
  | [a; b] =>
      '(a5, a4, a3, a2, a1, a0) ← b64_sextet a;
      '(b5, b4, _, _, _, _) ← b64_sextet b;
      Some [Ascii b4 b5 a0 a1 a2 a3 a4 a5]
  | [a; b; c] =>
      '(a5, a4, a3, a2, a1, a0) ← b64_sextet a;
      '(b5, b4, b3, b2, b1, b0) ← b64_sextet b;
      '(c5, c4, c3, c2, _, _) ← b64_sextet c;
      Some [Ascii b4 b5 a0 a1 a2 a3 a4 a5; Ascii c2 c3 c4 c5 b0 b1 b2 b3]
  | a :: b :: c :: d :: rest =>
      '(a5, a4, a3, a2, a1, a0) ← b64_sextet a;
      '(b5, b4, b3, b2, b1, b0) ← b64_sextet b;
      '(c5, c4, c3, c2, c1, c0) ← b64_sextet c;
      '(d5, d4, d3, d2, d1, d0) ← b64_sextet d;
      tl ← decode_groups rest;
      Some (Ascii b4 b5 a0 a1 a2 a3 a4 a5 :: Ascii c2 c3 c4 c5 b0 b1 b2 b3
            :: Ascii d0 d1 d2 d3 d4 d5 c0 c1 :: tl)
  end.

(** [atob], the forgiving base64 decoding of the HTML standard: ASCII
    whitespace is dropped, padding is removed when the length is a
    multiple of four, a length of 1 modulo 4 or a character outside the
    alphabet is an error. *)
Definition atob (data : string) : option string :=
  let d := filter (λ c, is_ascii_whitespace c = false) (list_ascii_of_string data) in
  let d := if (length d mod 4 =? 0)%nat then strip_padding d else d in
  string_of_list_ascii <$> decode_groups d.

(** [toBase64 = bytes => btoa(String.fromCharCode(...new Uint8Array(bytes)))] *)
Definition toBase64 (bytes : list Byte.byte) : string :=
  btoa (string_of_list_byte bytes).

(** [fromBase64]: [atob], then the char codes of the binary string. *)
Definition fromBase64 (b64 : string) : Outcome (list Byte.byte) :=
  bin ← of_option InvalidCharacterError (atob b64);
  mret (list_byte_of_string bin).

End Base64.

Example toBase64_hello :
  Base64.toBase64 (list_byte_of_string "hello") = "aGVsbG8=".
Proof. reflexivity. Qed.

Example fromBase64_hello :
  Base64.fromBase64 "aGVs bG8=" = Ok (list_byte_of_string "hello").
Proof. reflexivity. Qed.

Example fromBase64_nopad :
  Base64.fromBase64 "aGk" = Ok (list_byte_of_string "hi").
Proof. reflexivity. Qed.

Example fromBase64_bad :
  Base64.fromBase64 "a" = Throw InvalidCharacterError
  /\ Base64.fromBase64 "ab*d" = Throw InvalidCharacterError.
Proof. split; reflexivity. Qed.


(** *** Round trip of the base64 codec *)

Module Base64Facts.
Import Base64.

Lemma list_ind3 {A} (P : list A → Prop) :
  P [] → (∀ a, P [a]) → (∀ a b, P [a; b]) →
  (∀ a b c l, P l → P (a :: b :: c :: l)) →
  ∀ l, P l.
Proof.
  intros H0 H1 H2 H3 l.
  cut (P l ∧ (∀ a, P (a :: l)) ∧ (∀ a b, P (a :: b :: l))); [tauto |].
  induction l as [| x l (IHa & IHb & IHc)]; [by auto |].
  split_and!; auto.
Qed.

Lemma b64_sextet_char (s : sextet) : b64_sextet (b64_char s) = Some s.
Proof. by destruct s as [[[[[[] []] []] []] []] []]. Qed.

Lemma b64_char_not_pad (s : sextet) : b64_char s ≠ pad.
Proof. by destruct s as [[[[[[] []] []] []] []] []]. Qed.

Lemma b64_char_not_whitespace (s : sextet) :
  is_ascii_whitespace (b64_char s) = false.
Proof. by destruct s as [[[[[[] []] []] []] []] []]. Qed.

Lemma pad_not_whitespace : is_ascii_whitespace pad = false.
Proof. reflexivity. Qed.

(** Every character of the text [btoa] writes is a letter of the alphabet
    or the padding sign. *)
Definition b64_letter (c : ascii) : Prop := ∃ s, c = b64_char s.

Lemma encode_groups_letters (l : list ascii) :
  Forall b64_letter (encode_groups l).
Proof.
  induction l as [| a | a b | a b c l IH] using list_ind3.
  - constructor.
  - destruct a; repeat constructor; by eexists.
  - destruct a, b; repeat constructor; by eexists.
  - destruct a, b, c; cbn [encode_groups].
    repeat (constructor; [by eexists |]). exact IH.
Qed.

Lemma decode_encode_groups (l : list ascii) :
  decode_groups (encode_groups l) = Some l.
Proof.
  induction l as [| a | a b | a b c l IH] using list_ind3.
  - reflexivity.
  - destruct a; cbn [encode_groups decode_groups].
    by rewrite !b64_sextet_char.
  - destruct a, b; cbn [encode_groups decode_groups].
    by rewrite !b64_sextet_char.
  - destruct a, b, c; cbn [encode_groups decode_groups].
    rewrite !b64_sextet_char; cbn. by rewrite IH.
Qed.

Lemma padding_cases (n : nat) :
  padding n = [] ∨ padding n = [pad] ∨ padding n = [pad; pad].
Proof.
  unfold padding. destruct (n mod 3)%nat as [| [| [| ?]]]; auto.
Qed.

Lemma padding_add3 (n : nat) : padding (S (S (S n))) = padding n.
Proof.
  unfold padding. replace (S (S (S n))) with (n + 1 * 3)%nat by lia.
  by rewrite Nat.Div0.mod_add.
Qed.

Lemma encoded_length (l : list ascii) :
  ∃ k, length (encode_groups l ++ padding (length l)) = (4 * k)%nat.
Proof.
  induction l as [| a | a b | a b c l [k IH]] using list_ind3.
  - by exists 0%nat.
  - destruct a. by exists 1%nat.
  - destruct a, b. by exists 1%nat.
  - destruct a, b, c. exists (S k).
    cbn [encode_groups length app]. rewrite padding_add3.
    cbn [length] in IH. lia.
Qed.

Lemma strip_padding_encoded (core : list ascii) (n : nat) :
  Forall b64_letter core →
  strip_padding (core ++ padding n) = core.
Proof.
  intros Hcore. unfold strip_padding.
  assert (Hlast : ∀ c r, rev core = c :: r → c ≠ pad).
  { intros c r Hr. assert (Hin : c ∈ core).
    { apply list_elem_of_In, in_rev. rewrite Hr. by left. }
    rewrite Forall_forall in Hcore. destruct (Hcore c Hin) as [s ->].
    apply b64_char_not_pad. }
  destruct (padding_cases n) as [-> | [-> | ->]]; rewrite rev_app_distr;
    cbn [rev app].
  - rewrite app_nil_r. destruct (rev core) as [| c1 [| c2 r]] eqn:Hr; [done | |].
    + by rewrite decide_False by eauto.
    + by rewrite decide_False by eauto.
  - destruct (rev core) as [| c2 r] eqn:Hr.
    + rewrite decide_True by done.
      apply (f_equal (@rev _)) in Hr. by rewrite rev_involutive in Hr.
    + rewrite decide_True by done. rewrite decide_False by eauto.
      change (rev r ++ [c2]) with (rev (c2 :: r)).
      by rewrite <- Hr, rev_involutive.
  - rewrite !decide_True by done. apply rev_involutive.
Qed.

Lemma filter_all {A} (P : A → Prop) `{∀ x, Decision (P x)} (l : list A) :
  Forall P l → filter P l = l.
Proof.
  induction 1 as [| x l Hx _ IH]; [done |].
  by rewrite filter_cons_True, IH.
Qed.

Lemma filter_whitespace_encoded (l : list ascii) (n : nat) :
  filter (λ c, is_ascii_whitespace c = false) (encode_groups l ++ padding n)
  = encode_groups l ++ padding n.
Proof.
  apply filter_all, Forall_app. split.
  - eapply Forall_impl; [apply encode_groups_letters |].
    intros c [s ->]. apply b64_char_not_whitespace.
  - destruct (padding_cases n) as [-> | [-> | ->]]; by repeat constructor.
Qed.

(** [atob] undoes [btoa]. *)
Lemma atob_btoa (bin : string) : atob (btoa bin) = Some bin.
Proof.
  unfold atob, btoa. rewrite list_ascii_of_string_of_list_ascii.
  rewrite filter_whitespace_encoded.
  destruct (encoded_length (list_ascii_of_string bin)) as [k ->].
  replace (4 * k)%nat with (k * 4)%nat by lia.
  rewrite Nat.Div0.mod_mul. cbn [Nat.eqb].
  rewrite strip_padding_encoded by apply encode_groups_letters.
  rewrite decode_encode_groups. cbn.
  by rewrite string_of_list_ascii_of_string.
Qed.

(** [fromBase64] undoes [toBase64]. *)
Lemma fromBase64_toBase64 (bytes : list Byte.byte) :
  fromBase64 (toBase64 bytes) = Ok bytes.
Proof.
  unfold fromBase64, toBase64. rewrite atob_btoa. cbn.
  by rewrite list_byte_of_string_of_list_byte.
Qed.

End Base64Facts.


(** ** The platform: Web Crypto, JSON, the clock and the random generator *)

(** The [AesGcmParams] dictionary handed to [crypto.subtle]. *)
Record AesGcmParams : Type := {
  name : string;
  iv : list Byte.byte;
  additionalData : list Byte.byte;
}.

(** What the code takes from the browser: AES-GCM under a [CryptoKey], and
    the JSON codec.  [subtle_decrypt] is [None] where [crypto.subtle.decrypt]
    rejects with an [OperationError], [JSON_parse] is [None] where
    [JSON.parse] throws a [SyntaxError]. *)
Class Platform : Type := {
  CryptoKey : Type;
  subtle_encrypt : AesGcmParams → CryptoKey → list Byte.byte → list Byte.byte;
  subtle_decrypt : AesGcmParams → CryptoKey → list Byte.byte → option (list Byte.byte);
  JSON_stringify : JSValue → string;
  JSON_parse : string → option JSValue;
}.

Definition aes_gcm (ivBytes aad : list Byte.byte) : AesGcmParams :=
  {| name := "AES-GCM"; iv := ivBytes; additionalData := aad |}.

(** A value that is a string or a number, and a property name that is no
    array index: an object of such properties keeps their order. *)
Definition scalar (v : JSValue) : Prop :=
  match v with JStr _ | JNum _ => True | _ => False end.

Definition is_digit (c : ascii) : bool :=
  let n := nat_of_ascii c in (48 <=? n)%nat && (n <=? 57)%nat.

Definition plain_key (k : string) : Prop :=
  match k with
  | EmptyString => True
  | String c _ => is_digit c = false
  end.

Definition flat_record (fields : list (string * JSValue)) : Prop :=
  NoDup fields.*1 ∧ Forall (λ kv, plain_key kv.1 ∧ scalar kv.2) fields.

(** What the proofs assume of the platform: AES-GCM decrypts what it
    encrypted under the same key, 96-bit IV and associated data, and
    [JSON.parse] reads back a flat record that [JSON.stringify] wrote. *)
Class PlatformLaws (P : Platform) : Prop := {
  decrypt_encrypt :
    ∀ (key : CryptoKey) (ivBytes aad data : list Byte.byte),
      length ivBytes = 12%nat →
      subtle_decrypt (aes_gcm ivBytes aad) key
        (subtle_encrypt (aes_gcm ivBytes aad) key data) = Some data;
  parse_stringify :
    ∀ fields, flat_record fields →
      JSON_parse (JSON_stringify (JObj fields)) = Some (JObj fields);
}.


(** A call of [crypto.subtle], as the world records it. *)
Inductive SubtleCall : Type :=
  | CallEncrypt (params : AesGcmParams)
  | CallDecrypt (params : AesGcmParams).

Definition call_params (c : SubtleCall) : AesGcmParams :=
  match c with CallEncrypt p | CallDecrypt p => p end.

(** The world outside the code: the clock [Date.now()] reads, the bytes
    [crypto.getRandomValues] will hand out with the count of those already
    drawn, and the calls of [crypto.subtle] made so far, latest first. *)
Record World : Type := {
  clock : Z;
  entropy : nat → Byte.byte;
  drawn : nat;
  subtle_calls : list SubtleCall;
}.

(** Code that reads and changes a state and may throw; what it did before
    it threw stays done. *)
Definition Eff (S A : Type) : Type := S → Outcome A * S.

#[export] Instance Eff_ret {S} : MRet (Eff S) := λ _ a s, (Ok a, s).
#[export] Instance Eff_bind {S} : MBind (Eff S) := λ _ _ f m s,
  match m s with
  | (Ok a, s') => f a s'
  | (Throw e, s') => (Throw e, s')
  end.

Definition lift {S A} (o : Outcome A) : Eff S A := λ s, (o, s).

(** The code of the browser modules runs on the [World]. *)
Abbreviation JS := (Eff World).

Definition Date_now : JS Z := λ w, (Ok (clock w), w).

(** [crypto.getRandomValues(arr)] on a [Uint8Array] of [len] bytes. *)
Definition getRandomValues (len : nat) : JS (list Byte.byte) := λ w,
  (Ok (entropy w <$> seq (drawn w) len),
   {| clock := clock w; entropy := entropy w; drawn := (drawn w + len)%nat;
      subtle_calls := subtle_calls w |}).

Definition record_call (c : SubtleCall) : JS () := λ w,
  (Ok (),
   {| clock := clock w; entropy := entropy w; drawn := drawn w;
      subtle_calls := c :: subtle_calls w |}).

(** [new TextEncoder().encode(s)] and [new TextDecoder().decode(bytes)]. *)
Definition TextEncoder_encode (s : string) : list Byte.byte := list_byte_of_string s.
Definition TextDecoder_decode (bytes : list Byte.byte) : string := string_of_list_byte bytes.

(** ** [utils/messageCrypto] *)

Module MessageCrypto.
Import Base64.

(** What [encryptMessage] returns. *)
Record Encrypted : Type := {
  e_ciphertext : string;
  e_iv : string;
  e_timestamp : Z;
  e_msgSeq : Z;
}.

(** The [message] argument of [decryptMessage]. *)
Record Envelope : Type := {
  m_from : string;
  m_to : string;
  m_sessionId : string;
  m_ciphertext : string;
  m_iv : string;
  m_msgSeq : Z;
  m_timestamp : JSValue;
}.

(** What [decryptMessage] returns. *)
Record Decrypted : Type := {
  d_from : string;
  d_to : string;
  d_sessionId : string;
  d_msgSeq : Z;
  d_timestamp : JSValue;
  d_content : JSValue;
}.

Definition randomBytes (len : nat) : JS (list Byte.byte) := getRandomValues len.

Section WithPlatform.
Context {P : Platform}.

Definition crypto_subtle_encrypt (params : AesGcmParams) (key : CryptoKey)
    (data : list Byte.byte) : JS (list Byte.byte) :=
  _ ← record_call (CallEncrypt params);
  mret (subtle_encrypt params key data).

Definition crypto_subtle_decrypt (params : AesGcmParams) (key : CryptoKey)
    (data : list Byte.byte) : JS (list Byte.byte) :=
  _ ← record_call (CallDecrypt params);
  lift (of_option OperationError (subtle_decrypt params key data)).

Definition encryptMessage (aesKey : CryptoKey) (sessionId from to : string)
    (msgSeq : Z) (content : string) : JS Encrypted :=
  timestamp ← Date_now;
  let plaintextObj :=
    JObj [("sessionId", JStr sessionId); ("from", JStr from); ("to", JStr to);
          ("msgSeq", JNum msgSeq); ("timestamp", JNum timestamp);
          ("content", JStr content)] in
  let plaintextBytes := TextEncoder_encode (JSON_stringify plaintextObj) in
  ivBytes ← randomBytes 12;
  let aad :=
    TextEncoder_encode
      (sessionId +:+ "|" +:+ from +:+ "|" +:+ to +:+ "|" +:+ number_to_string msgSeq) in
  ciphertext ← crypto_subtle_encrypt
    {| name := "AES-GCM"; iv := ivBytes; additionalData := aad |}
    aesKey plaintextBytes;
  mret {| e_ciphertext := toBase64 ciphertext; e_iv := toBase64 ivBytes;
          e_timestamp := timestamp; e_msgSeq := msgSeq |}.

Definition decryptMessage (aesKey : CryptoKey) (message : Envelope) : JS Decrypted :=
  let from := m_from message in
  let to := m_to message in
  let sessionId := m_sessionId message in
  let msgSeq := m_msgSeq message in
  let timestamp := m_timestamp message in
  ivBytes ← lift (fromBase64 (m_iv message));
  cipherBytes ← lift (fromBase64 (m_ciphertext message));
  let aad :=
    TextEncoder_encode
      (sessionId +:+ "|" +:+ from +:+ "|" +:+ to +:+ "|" +:+ number_to_string msgSeq) in
  plaintext ← crypto_subtle_decrypt
    {| name := "AES-GCM"; iv := ivBytes; additionalData := aad |}
    aesKey cipherBytes;
  obj ← lift (of_option SyntaxError (JSON_parse (TextDecoder_decode plaintext)));
  obj_timestamp ← lift (get_prop obj "timestamp");
  obj_content ← lift (get_prop obj "content");
  mret {| d_from := from; d_to := to; d_sessionId := sessionId; d_msgSeq := msgSeq;
          d_timestamp := js_or obj_timestamp timestamp; d_content := obj_content |}.

(** The envelope a caller assembles from the metadata it encrypted under
    and the result of [encryptMessage]. *)
Definition envelope (sessionId from to : string) (msgSeq : Z)
    (timestamp : JSValue) (enc : Encrypted) : Envelope :=
  {| m_from := from; m_to := to; m_sessionId := sessionId;
     m_ciphertext := e_ciphertext enc; m_iv := e_iv enc;
     m_msgSeq := msgSeq; m_timestamp := timestamp |}.

(** The loop of [handleLoadMessages]: every message is decrypted in turn, a
    failure is caught and the loop goes on. *)
Fixpoint decryptAll (aesKey : CryptoKey) (messages : list Envelope) (w : World)
    : list (Outcome Decrypted) * World :=
  match messages with
  | [] => ([], w)
  | msg :: rest =>
      let '(plain, w1) := decryptMessage aesKey msg w in
      let '(plains, w2) := decryptAll aesKey rest w1 in
      (plain :: plains, w2)
  end.

End WithPlatform.
End MessageCrypto.


(** *** Facts about [encryptMessage] and [decryptMessage] *)


Lemma decode_encode_text (s : string) :
  TextDecoder_decode (TextEncoder_encode s) = s.
Proof. apply string_of_list_byte_of_string. Qed.


Module MessageCryptoFacts.
Import Base64 Base64Facts MessageCrypto.

(** Unfold a computation of [JS] down to its matches on outcomes. *)
Create HintDb js discriminated.
#[export] Hint Unfold encryptMessage decryptMessage crypto_subtle_encrypt
  crypto_subtle_decrypt randomBytes getRandomValues record_call Date_now lift
  mbind mret Eff_bind Eff_ret Outcome_bind Outcome_ret : js.

Ltac js_unfold := autounfold with js.

(** The string whose UTF-8 bytes are the associated data. *)
Definition aad_string (sessionId from to : string) (msgSeq : Z) : string :=
  sessionId +:+ "|" +:+ from +:+ "|" +:+ to +:+ "|" +:+ number_to_string msgSeq.

(** The object [encryptMessage] serialises. *)
Definition plaintextObj (sessionId from to : string) (msgSeq timestamp : Z)
    (content : string) : JSValue :=
  JObj [("sessionId", JStr sessionId); ("from", JStr from); ("to", JStr to);
        ("msgSeq", JNum msgSeq); ("timestamp", JNum timestamp);
        ("content", JStr content)].

Definition log_call (c : SubtleCall) (w : World) : World :=
  {| clock := clock w; entropy := entropy w; drawn := drawn w;
     subtle_calls := c :: subtle_calls w |}.

Definition draw (len : nat) (w : World) : World :=
  {| clock := clock w; entropy := entropy w; drawn := (drawn w + len)%nat;
     subtle_calls := subtle_calls w |}.

Definition next_bytes (len : nat) (w : World) : list Byte.byte :=
  entropy w <$> seq (drawn w) len.

Lemma next_bytes_length (len : nat) (w : World) : length (next_bytes len w) = len.
Proof. unfold next_bytes. by rewrite length_fmap, length_seq. Qed.

Lemma plaintextObj_flat sessionId from to msgSeq timestamp content :
  flat_record
    [("sessionId", JStr sessionId); ("from", JStr from); ("to", JStr to);
     ("msgSeq", JNum msgSeq); ("timestamp", JNum timestamp);
     ("content", JStr content)].
Proof.
  split.
  - cbn. by apply (bool_decide_unpack _).
  - repeat constructor.
Qed.

Section WithPlatform.
Context {P : Platform}.

(** [encryptMessage] always returns, and this is what it returns. *)
Lemma encryptMessage_eq (aesKey : CryptoKey) sessionId from to msgSeq content w :
  let ivBytes := next_bytes 12 w in
  let params := aes_gcm ivBytes (TextEncoder_encode (aad_string sessionId from to msgSeq)) in
  let data :=
    TextEncoder_encode
      (JSON_stringify (plaintextObj sessionId from to msgSeq (clock w) content)) in
  encryptMessage aesKey sessionId from to msgSeq content w =
    (Ok {| e_ciphertext := toBase64 (subtle_encrypt params aesKey data);
           e_iv := toBase64 ivBytes;
           e_timestamp := clock w;
           e_msgSeq := msgSeq |},
     log_call (CallEncrypt params) (draw 12 w)).
Proof. reflexivity. Qed.

(** [decryptMessage] on an envelope whose two base64 fields decode. *)
Lemma decryptMessage_decoded (aesKey : CryptoKey) message ivBytes cipherBytes w :
  fromBase64 (m_iv message) = Ok ivBytes →
  fromBase64 (m_ciphertext message) = Ok cipherBytes →
  let params :=
    aes_gcm ivBytes
      (TextEncoder_encode
         (aad_string (m_sessionId message) (m_from message) (m_to message)
            (m_msgSeq message))) in
  decryptMessage aesKey message w =
    (plaintext ← of_option OperationError (subtle_decrypt params aesKey cipherBytes);
     obj ← of_option SyntaxError (JSON_parse (TextDecoder_decode plaintext));
     obj_timestamp ← get_prop obj "timestamp";
     obj_content ← get_prop obj "content";
     mret {| d_from := m_from message; d_to := m_to message;
             d_sessionId := m_sessionId message; d_msgSeq := m_msgSeq message;
             d_timestamp := js_or obj_timestamp (m_timestamp message);
             d_content := obj_content |},
     log_call (CallDecrypt params) w).
Proof.
  intros Hiv Hct params. js_unfold.
  rewrite Hiv, Hct. subst params. unfold aes_gcm, log_call, aad_string. cbn.
  destruct (subtle_decrypt _ _ _) as [plaintext |]; [| done].
  cbn. destruct (JSON_parse _) as [obj |]; [| done].
  cbn. destruct (get_prop obj "timestamp"); [| done].
  cbn. by destruct (get_prop obj "content").
Qed.

End WithPlatform.
End MessageCryptoFacts.


(** ** A model of the platform

    An instance of [Platform] on which the laws hold: a cipher that frames
    the key, the IV and the associated data in front of the data and checks
    them on opening, and the JSON codec for flat records.  It shows that the
    laws can be met and gives the theorems a platform to run on. *)

Module ModelPlatform.

#[export] Instance byte_eq_dec : EqDecision Byte.byte := Byte.byte_eq_dec.

(** *** The cipher *)

Definition frame (bs : list Byte.byte) : list Byte.byte :=
  concat ((λ b, [Byte.x01; b]) <$> bs) ++ [Byte.x00].

Fixpoint unframe (l : list Byte.byte) : option (list Byte.byte * list Byte.byte) :=
  match l with
  | [] => None
  | c :: r =>
      if decide (c = Byte.x00) then Some ([], r)
      else
        match r with
        | b :: r' => '(bs, rest) ← unframe r'; Some (b :: bs, rest)
        | [] => None
        end
  end.

Definition seal (params : AesGcmParams) (key data : list Byte.byte) : list Byte.byte :=
  frame key ++ frame (iv params) ++ frame (additionalData params) ++ data.

Definition unseal (params : AesGcmParams) (key data : list Byte.byte)
    : option (list Byte.byte) :=
  '(key', r1) ← unframe data;
  '(iv', r2) ← unframe r1;
  '(aad', r3) ← unframe r2;
  if decide (key' = key ∧ iv' = iv params ∧ aad' = additionalData params)
  then Some r3 else None.

(** *** The JSON codec for flat records *)

Definition dquote : ascii := "034"%char.
Definition backslash : ascii := "092"%char.

Fixpoint quote_body (l : list ascii) : list ascii :=
  match l with
  | [] => []
  | c :: r =>
      if decide (c = dquote ∨ c = backslash)
      then backslash :: c :: quote_body r
      else c :: quote_body r
  end.

Definition quote (s : string) : list ascii :=
  dquote :: quote_body (list_ascii_of_string s) ++ [dquote].

(** Reads a string literal after its opening quote. *)
Fixpoint unquote_body (l : list ascii) : option (list ascii * list ascii) :=
  match l with
  | [] => None
  | c :: r =>
      if decide (c = dquote) then Some ([], r)
      else if decide (c = backslash) then
        match r with
        | e :: r' => '(s, rest) ← unquote_body r'; Some (e :: s, rest)
        | [] => None
        end
      else '(s, rest) ← unquote_body r; Some (c :: s, rest)
  end.

Definition is_number_char (c : ascii) : bool :=
  is_digit c || bool_decide (c = "-"%char).

Fixpoint span_number (l : list ascii) : list ascii * list ascii :=
  match l with
  | [] => ([], [])
  | c :: r =>
      if is_number_char c
      then let '(d, rest) := span_number r in (c :: d, rest)
      else ([], l)
  end.

Definition read_number (l : list ascii) : option (Z * list ascii) :=
  let '(d, rest) := span_number l in
  n ← NilEmpty.int_of_string (string_of_list_ascii d);
  Some (Z.of_int n, rest).

Definition write_value (v : JSValue) : list ascii :=
  match v with
  | JStr s => quote s
  | JNum n => list_ascii_of_string (number_to_string n)
  | _ => list_ascii_of_string "null"
  end.

Definition read_value (l : list ascii) : option (JSValue * list ascii) :=
  match l with
  | [] => None
  | c :: r =>
      if decide (c = dquote)
      then '(s, rest) ← unquote_body r; Some (JStr (string_of_list_ascii s), rest)
      else '(n, rest) ← read_number l; Some (JNum n, rest)
  end.

Fixpoint write_members (fs : list (string * JSValue)) : list ascii :=
  match fs with
  | [] => ["}"%char]
  | (k, v) :: rest =>
      quote k ++ ":"%char :: write_value v ++
      match rest with
      | [] => ["}"%char]
      | _ :: _ => ","%char :: write_members rest
      end
  end.

Fixpoint read_members (fuel : nat) (l : list ascii) : option (list (string * JSValue)) :=
  match fuel with
  | O => None
  | S fuel' =>
      match l with
      | [] => None
      | q :: r =>
          if decide (q = dquote) then
            '(k, r1) ← unquote_body r;
            match r1 with
            | [] => None
            | c :: r2 =>
                if decide (c = ":"%char) then
                  '(v, r3) ← read_value r2;
                  match r3 with
                  | [] => None
                  | [d] =>
                      if decide (d = "}"%char)
                      then Some [(string_of_list_ascii k, v)] else None
                  | d :: r4 =>
                      if decide (d = ","%char)
                      then fs ← read_members fuel' r4;
                           Some ((string_of_list_ascii k, v) :: fs)
                      else None
                  end
                else None
            end
          else None
      end
  end.

Definition stringify (v : JSValue) : string :=
  match v with
  | JObj fs => string_of_list_ascii ("{"%char :: write_members fs)
  | _ => string_of_list_ascii (write_value v)
  end.

Definition parse (s : string) : option JSValue :=
  match list_ascii_of_string s with
  | c :: r =>
      if decide (c = "{"%char) then
        match r with
        | [d] => if decide (d = "}"%char) then Some (JObj []) else None
        | _ => JObj <$> read_members (length r) r
        end
      else None
  | [] => None
  end.

#[export] Instance model : Platform := {|
  CryptoKey := list Byte.byte;
  subtle_encrypt := seal;
  subtle_decrypt := unseal;
  JSON_stringify := stringify;
  JSON_parse := parse;
|}.

End ModelPlatform.

Example model_stringify :
  ModelPlatform.stringify (JObj [("from", JStr "alice"); ("msgSeq", JNum 7)])
  = String "{" (String ModelPlatform.dquote "from"
      +:+ String ModelPlatform.dquote ":"
      +:+ String ModelPlatform.dquote "alice"
      +:+ String ModelPlatform.dquote (",")
      +:+ String ModelPlatform.dquote "msgSeq"
      +:+ String ModelPlatform.dquote ":7}").
Proof. reflexivity. Qed.

Example model_parse :
  ModelPlatform.parse
    (ModelPlatform.stringify (JObj [("from", JStr "alice"); ("msgSeq", JNum (-7))]))
  = Some (JObj [("from", JStr "alice"); ("msgSeq", JNum (-7))]).
Proof. reflexivity. Qed.


(** *** The model meets the laws *)

Module ModelPlatformFacts.
Import ModelPlatform.

Lemma unframe_frame (bs rest : list Byte.byte) :
  unframe (frame bs ++ rest) = Some (bs, rest).
Proof.
  induction bs as [| b bs IH]; [done |].
  change (frame (b :: bs) ++ rest) with (Byte.x01 :: b :: (frame bs ++ rest)).
  cbn [unframe]. rewrite decide_False by done. by rewrite IH.
Qed.

Lemma unseal_seal (params : AesGcmParams) (key data : list Byte.byte) :
  unseal params key (seal params key data) = Some data.
Proof.
  unfold unseal, seal. rewrite unframe_frame. cbn [mbind option_bind].
  rewrite unframe_frame. cbn [mbind option_bind].
  rewrite unframe_frame. cbn [mbind option_bind].
  by rewrite decide_True.
Qed.


Lemma unquote_quote (l rest : list ascii) :
  unquote_body (quote_body l ++ dquote :: rest) = Some (l, rest).
Proof.
  induction l as [| c l IH]; cbn [quote_body app unquote_body].
  - by rewrite decide_True.
  - destruct (decide (c = dquote ∨ c = backslash)) as [Hc | Hc].
    + cbn [app unquote_body]. rewrite decide_False by done.
      rewrite decide_True by done. by rewrite IH.
    + cbn [app unquote_body].
      rewrite !decide_False by tauto. by rewrite IH.
Qed.

Lemma read_quote (s : string) (rest : list ascii) :
  unquote_body (quote_body (list_ascii_of_string s) ++ dquote :: rest)
  = Some (list_ascii_of_string s, rest).
Proof. apply unquote_quote. Qed.

Lemma uint_number_chars (d : Decimal.uint) :
  Forall (λ c, is_number_char c = true)
    (list_ascii_of_string (NilEmpty.string_of_uint d)).
Proof. induction d; cbn; by constructor. Qed.

Lemma number_chars (n : Z) :
  Forall (λ c, is_number_char c = true)
    (list_ascii_of_string (number_to_string n)).
Proof.
  unfold number_to_string. destruct (Z.to_int n) as [d | d]; cbn.
  - apply uint_number_chars.
  - constructor; [done | apply uint_number_chars].
Qed.

(** What may follow a value inside a record. *)
Definition closes (c : ascii) : Prop := c = ","%char ∨ c = "}"%char.

Lemma span_number_app (d rest : list ascii) (c : ascii) :
  Forall (λ c, is_number_char c = true) d → closes c →
  span_number (d ++ c :: rest) = (d, c :: rest).
Proof.
  intros Hd Hc. induction Hd as [| x d Hx _ IH]; cbn [app span_number].
  - by destruct Hc as [-> | ->].
  - by rewrite Hx, IH.
Qed.

Lemma read_write_value (v : JSValue) (c : ascii) (rest : list ascii) :
  scalar v → closes c →
  read_value (write_value v ++ c :: rest) = Some (v, c :: rest).
Proof.
  intros Hv Hc. destruct v as [| | | n | s | | |]; try done.
  - (* a number *)
    cbn [write_value]. unfold read_value.
    pose proof (number_chars n) as Hn.
    assert (Hread : read_number (list_ascii_of_string (number_to_string n) ++ c :: rest)
                    = Some (n, c :: rest)).
    { unfold read_number. rewrite (span_number_app _ _ _ Hn Hc).
      rewrite string_of_list_ascii_of_string. unfold number_to_string.
      rewrite NilEmpty.isi. cbn. by rewrite DecimalZ.of_to. }
    destruct (list_ascii_of_string (number_to_string n)) as [| x d] eqn:Hd.
    + cbn [app] in *. rewrite decide_False by (by destruct Hc as [-> | ->]).
      by rewrite Hread.
    + cbn [app] in *. apply Forall_cons_1 in Hn as [Hx _].
      rewrite decide_False by (by intros ->). by rewrite Hread.
  - (* a string *)
    cbn [write_value quote app read_value]. rewrite decide_True by done.
    rewrite <- app_assoc. cbn [app]. rewrite read_quote. cbn.
    by rewrite string_of_list_ascii_of_string.
Qed.

Lemma write_members_one (k : string) (v : JSValue) :
  write_members [(k, v)] = quote k ++ ":"%char :: write_value v ++ ["}"%char].
Proof. reflexivity. Qed.

Lemma write_members_cons (k : string) (v : JSValue) kv fs :
  write_members ((k, v) :: kv :: fs)
  = quote k ++ ":"%char :: write_value v ++ ","%char :: write_members (kv :: fs).
Proof. reflexivity. Qed.

Lemma write_members_nonempty (fs : list (string * JSValue)) :
  write_members fs ≠ [].
Proof. by destruct fs as [| [k v] fs]. Qed.

Lemma read_write_members (fs : list (string * JSValue)) (fuel : nat) :
  fs ≠ [] → Forall (λ kv, scalar kv.2) fs → (length fs ≤ fuel)%nat →
  read_members fuel (write_members fs) = Some fs.
Proof.
  revert fuel. induction fs as [| [k v] fs IH]; intros fuel Hne Hfs Hfuel; [done |].
  apply Forall_cons_1 in Hfs as [Hv Hfs]. cbn in Hv.
  destruct fuel as [| fuel]; [cbn in Hfuel; lia |].
  destruct fs as [| kv fs].
  - rewrite write_members_one. unfold quote. cbn [read_members app].
    rewrite decide_True by done.
    rewrite <- app_assoc. cbn [app]. rewrite read_quote. cbn [mbind option_bind].
    rewrite decide_True by done.
    rewrite read_write_value by (done || by right). cbn [mbind option_bind].
    rewrite decide_True by done. by rewrite string_of_list_ascii_of_string.
  - rewrite write_members_cons. unfold quote. cbn [read_members app].
    rewrite decide_True by done.
    rewrite <- app_assoc. cbn [app]. rewrite read_quote. cbn [mbind option_bind].
    rewrite decide_True by done.
    rewrite read_write_value by (done || by left). cbn [mbind option_bind].
    specialize (IH fuel).
    destruct (write_members (kv :: fs)) as [| x xs] eqn:Hw.
    { by apply write_members_nonempty in Hw. }
    rewrite decide_True by done.
    rewrite IH; [| done | done | cbn in *; lia]. cbn [mbind option_bind].
    by rewrite string_of_list_ascii_of_string.
Qed.

Lemma write_members_length (fs : list (string * JSValue)) :
  (length fs ≤ length (write_members fs))%nat.
Proof.
  induction fs as [| [k v] fs IH]; [cbn; lia |].
  cbn [write_members quote]. destruct fs as [| kv fs].
  - cbn. lia.
  - rewrite ?length_cons, ?length_app, ?length_cons, ?length_app in *.
    cbn [length] in *. lia.
Qed.

Lemma parse_stringify_flat (fields : list (string * JSValue)) :
  flat_record fields → parse (stringify (JObj fields)) = Some (JObj fields).
Proof.
  intros [_ Hfs]. unfold parse, stringify.
  rewrite list_ascii_of_string_of_list_ascii. rewrite decide_True by done.
  assert (Hsc : Forall (λ kv, scalar kv.2) fields).
  { eapply Forall_impl; [exact Hfs |]. by intros ? [_ ?]. }
  destruct fields as [| kv fs]; [by cbn; rewrite decide_True |].
  rewrite read_write_members; [| done | done | apply write_members_length].
  destruct (write_members (kv :: fs)) as [| x [| y ys]] eqn:Hw; try done.
  (* a one-character text cannot hold a member *)
  exfalso. destruct kv as [k v]. cbn [write_members quote app] in Hw.
  injection Hw as _ Hw. by destruct (quote_body _); destruct fs.
Qed.

#[export] Instance model_laws : PlatformLaws model.
Proof.
  split.
  - intros key ivBytes aad data _. apply unseal_seal.
  - apply parse_stringify_flat.
Qed.


End ModelPlatformFacts.


(** ** Properties of the message cipher *)



Module MessageCipher.
Import Base64 Base64Facts MessageCrypto MessageCryptoFacts.

(** The calls of [crypto.subtle] a computation makes from the world [w]. *)
Definition new_calls {A} (m : JS A) (w : World) : list SubtleCall :=
  let w' := (m w).2 in
  take (length (subtle_calls w') - length (subtle_calls w)) (subtle_calls w').

Lemma new_calls_log_call {A} (m : JS A) (w : World) (c : SubtleCall) (o : Outcome A) w0 :
  m w = (o, log_call c w0) → subtle_calls w0 = subtle_calls w →
  new_calls m w = [c].
Proof.
  intros Hm Hw. unfold new_calls. rewrite Hm. cbn. rewrite Hw.
  replace (S (length (subtle_calls w)) - length (subtle_calls w))%nat with 1%nat by lia.
  done.
Qed.

Lemma new_calls_none {A} (m : JS A) (w : World) (o : Outcome A) :
  m w = (o, w) → new_calls m w = [].
Proof.
  intros Hm. unfold new_calls. rewrite Hm. cbn.
  by rewrite Nat.sub_diag.
Qed.



Section WithPlatform.
Context {P : Platform}.

(** The result of [decryptMessage] does not depend on the world, which it
    leaves as it was but for the call it records. *)
Lemma decryptMessage_world (aesKey : CryptoKey) message (w w' : World) :
  (decryptMessage aesKey message w).1 = (decryptMessage aesKey message w').1.
Proof.
  destruct (fromBase64 (m_iv message)) as [ivBytes | e] eqn:Hiv.
  - destruct (fromBase64 (m_ciphertext message)) as [cipherBytes | e] eqn:Hct.
    + by rewrite !(decryptMessage_decoded _ _ _ _ _ Hiv Hct).
    + js_unfold. by rewrite Hiv, Hct.
  - js_unfold. by rewrite Hiv.
Qed.

Lemma decryptMessage_keeps (aesKey : CryptoKey) message (w : World) :
  let w' := (decryptMessage aesKey message w).2 in
  clock w' = clock w ∧ entropy w' = entropy w ∧ drawn w' = drawn w.
Proof.
  destruct (fromBase64 (m_iv message)) as [ivBytes | e] eqn:Hiv.
  - destruct (fromBase64 (m_ciphertext message)) as [cipherBytes | e] eqn:Hct.
    + by rewrite (decryptMessage_decoded _ _ _ _ _ Hiv Hct).
    + js_unfold. by rewrite Hiv, Hct.
  - js_unfold. by rewrite Hiv.
Qed.

Section WithLaws.
Context {L : PlatformLaws P}.

(** The heart of the round trip: what [encryptMessage] sealed under one
    tuple opens under every tuple that has the same associated data. *)
Lemma decrypt_sealed (aesKey : CryptoKey) sessionId from to msgSeq content
    sessionId' from' to' msgSeq' ts enc (w w1 w2 : World) :
  encryptMessage aesKey sessionId from to msgSeq content w = (Ok enc, w1) →
  aad_string sessionId' from' to' msgSeq' = aad_string sessionId from to msgSeq →
  (decryptMessage aesKey (envelope sessionId' from' to' msgSeq' ts enc) w2).1
  = Ok {| d_from := from'; d_to := to'; d_sessionId := sessionId';
          d_msgSeq := msgSeq';
          d_timestamp := js_or (JNum (clock w)) ts;
          d_content := JStr content |}.
Proof.
  rewrite encryptMessage_eq. intros [= <- _] Haad.
  erewrite decryptMessage_decoded; cycle 1.
  { cbn [envelope m_iv e_iv]. apply fromBase64_toBase64. }
  { cbn [envelope m_ciphertext e_ciphertext]. apply fromBase64_toBase64. }
  cbn [envelope m_sessionId m_from m_to m_msgSeq m_timestamp fst].
  rewrite Haad, decrypt_encrypt by apply next_bytes_length.
  cbn [of_option mbind Outcome_bind]. rewrite decode_encode_text.
  unfold plaintextObj. rewrite parse_stringify by apply plaintextObj_flat.
  reflexivity.
Qed.

End WithLaws.




End WithPlatform.
End MessageCipher.


(** *** The claims about the message cipher *)

Module MessageCipherClaims.
Import Base64 Base64Facts MessageCrypto MessageCryptoFacts MessageCipher.

Section WithPlatform.
Context {P : Platform}.

Lemma decryptAll_app (aesKey : CryptoKey) (l1 l2 : list Envelope) (w : World) :
  decryptAll aesKey (l1 ++ l2) w =
    let '(r1, w1) := decryptAll aesKey l1 w in
    let '(r2, w2) := decryptAll aesKey l2 w1 in
    (r1 ++ r2, w2).
Proof.
  revert w. induction l1 as [| msg l1 IH]; intros w; cbn [app decryptAll].
  - by destruct (decryptAll aesKey l2 w).
  - destruct (decryptMessage aesKey msg w) as [plain w1]. rewrite IH.
    destruct (decryptAll aesKey l1 w1) as [r1 w2].
    by destruct (decryptAll aesKey l2 w2).
Qed.

Lemma decryptAll_length (aesKey : CryptoKey) (l : list Envelope) (w : World) :
  length (decryptAll aesKey l w).1 = length l.
Proof.
  revert w. induction l as [| msg l IH]; intros w; cbn [decryptAll]; [done |].
  destruct (decryptMessage aesKey msg w) as [plain w1].
  specialize (IH w1). destruct (decryptAll aesKey l w1). cbn in *. by rewrite IH.
Qed.


(** C3.  The associated data handed to AES-GCM is the UTF-8 encoding of
    [sessionId + "|" + from + "|" + to + "|" + msgSeq]: [encryptMessage]
    makes one call of [crypto.subtle.encrypt], with that associated data
    over its arguments; [decryptMessage] makes one call of
    [crypto.subtle.decrypt] once its two base64 fields decode (none
    otherwise), with that associated data over the fields of the envelope
    itself; so over the same metadata the two are the same bytes. *)
Theorem associated_data_of_metadata (aesKey : CryptoKey)
    (sessionId from to : string) (msgSeq : Z) (content : string)
    (message : Envelope) (w w2 : World) :
  let aad_of (sessionId from to : string) (msgSeq : Z) :=
    TextEncoder_encode
      (sessionId +:+ "|" +:+ from +:+ "|" +:+ to +:+ "|" +:+ number_to_string msgSeq) in
  new_calls (encryptMessage aesKey sessionId from to msgSeq content) w
    = [CallEncrypt {| name := "AES-GCM"; iv := entropy w <$> seq (drawn w) 12;
                      additionalData := aad_of sessionId from to msgSeq |}]
  ∧ new_calls (decryptMessage aesKey message) w2
    = match fromBase64 (m_iv message), fromBase64 (m_ciphertext message) with
      | Ok ivBytes, Ok _ =>
          [CallDecrypt {| name := "AES-GCM"; iv := ivBytes;
                          additionalData :=
                            aad_of (m_sessionId message) (m_from message)
                              (m_to message) (m_msgSeq message) |}]
      | _, _ => []
      end
  ∧ ∀ ts enc,
      Forall (λ c, additionalData (call_params c) = aad_of sessionId from to msgSeq)
        (new_calls (encryptMessage aesKey sessionId from to msgSeq content) w
         ++ new_calls (decryptMessage aesKey (envelope sessionId from to msgSeq ts enc)) w2).
Proof.
  intros aad_of.
  assert (Henc : new_calls (encryptMessage aesKey sessionId from to msgSeq content) w
    = [CallEncrypt {| name := "AES-GCM"; iv := entropy w <$> seq (drawn w) 12;
                      additionalData := aad_of sessionId from to msgSeq |}]).
  { eapply new_calls_log_call; [apply encryptMessage_eq | done]. }
  assert (Hdec : ∀ m, new_calls (decryptMessage aesKey m) w2
    = match fromBase64 (m_iv m), fromBase64 (m_ciphertext m) with
      | Ok ivBytes, Ok _ =>
          [CallDecrypt {| name := "AES-GCM"; iv := ivBytes;
                          additionalData :=
                            aad_of (m_sessionId m) (m_from m) (m_to m) (m_msgSeq m) |}]
      | _, _ => []
      end).
  { intros m. destruct (fromBase64 (m_iv m)) as [ivBytes | e] eqn:Hiv.
    - destruct (fromBase64 (m_ciphertext m)) as [cipherBytes | e] eqn:Hct.
      + eapply new_calls_log_call; [by apply decryptMessage_decoded | done].
      + eapply new_calls_none. js_unfold. by rewrite Hiv, Hct.
    - eapply new_calls_none. js_unfold. by rewrite Hiv. }
  split_and!; [exact Henc | apply Hdec |].
  intros ts enc. rewrite Henc, Hdec. cbn [envelope m_iv m_ciphertext m_sessionId m_from m_to m_msgSeq].
  destruct (fromBase64 (e_iv enc)); [destruct (fromBase64 (e_ciphertext enc)) |];
    by repeat constructor.
Qed.


Section WithLaws.
Context {L : PlatformLaws P}.


(** C2, at the failing input.  A message sealed as sent by [ann|bob] to
    [carol] opens, under the same key, in the envelope that says it was sent
    by [ann] to [bob|carol]: the two tuples give the same associated data,
    and the plaintext is returned. *)
Theorem rebound_envelope_accepted (aesKey : CryptoKey) (sessionId : string)
    (msgSeq : Z) (content : string) (w : World) :
  ∃ enc w1,
    encryptMessage aesKey sessionId "ann|bob" "carol" msgSeq content w = (Ok enc, w1)
    ∧ ∀ ts w2,
        (decryptMessage aesKey (envelope sessionId "ann" "bob|carol" msgSeq ts enc) w2).1
        = Ok {| d_from := "ann"; d_to := "bob|carol"; d_sessionId := sessionId;
                d_msgSeq := msgSeq;
                d_timestamp := js_or (JNum (clock w)) ts;
                d_content := JStr content |}.
Proof.
  eexists _, _. split; [apply encryptMessage_eq |].
  intros ts w2. eapply decrypt_sealed; [apply encryptMessage_eq |].
  unfold aad_string. f_equal.
Qed.

(** C4, as amended.  Encrypting two plaintexts, one after the other, under
    the same key and the same [(sessionId, from, to, msgSeq)] gives two
    envelopes that both decrypt, each to its own plaintext: the reuse of a
    tuple is not detected. *)
Theorem tuple_reuse_not_detected (aesKey : CryptoKey)
    (sessionId from to : string) (msgSeq : Z) (content1 content2 : string)
    (w : World) :
  ∃ enc1 w1 enc2 w2,
    encryptMessage aesKey sessionId from to msgSeq content1 w = (Ok enc1, w1)
    ∧ encryptMessage aesKey sessionId from to msgSeq content2 w1 = (Ok enc2, w2)
    ∧ ∀ ts w3,
        d_content <$>
          returned (decryptMessage aesKey (envelope sessionId from to msgSeq ts enc1) w3).1
        = Some (JStr content1)
        ∧ d_content <$>
            returned (decryptMessage aesKey (envelope sessionId from to msgSeq ts enc2) w3).1
          = Some (JStr content2).
Proof.
  eexists _, _, _, _. split_and!; [apply encryptMessage_eq | apply encryptMessage_eq |].
  intros ts w3. split.
  - by erewrite decrypt_sealed; [| apply encryptMessage_eq |].
  - by erewrite decrypt_sealed; [| apply encryptMessage_eq |].
Qed.

(** C5.  [decryptMessage] keeps nothing from one call to the next: its
    result is the same from every world, and it leaves the clock and the
    random generator as they were.  So an envelope made by [encryptMessage]
    decrypts, to the same result, after any envelopes were decrypted before
    it, and again when it is replayed. *)
Theorem decryptMessage_stateless (aesKey : CryptoKey)
    (sessionId from to : string) (msgSeq : Z) (content : string) (ts : JSValue)
    (prior : list Envelope) (w w2 : World) :
  (∀ message w3 w4,
     (decryptMessage aesKey message w3).1 = (decryptMessage aesKey message w4).1
     ∧ clock (decryptMessage aesKey message w3).2 = clock w3
     ∧ entropy (decryptMessage aesKey message w3).2 = entropy w3
     ∧ drawn (decryptMessage aesKey message w3).2 = drawn w3)
  ∧ ∃ enc w1,
      encryptMessage aesKey sessionId from to msgSeq content w = (Ok enc, w1)
      ∧ let message := envelope sessionId from to msgSeq ts enc in
        let plain :=
          {| d_from := from; d_to := to; d_sessionId := sessionId;
             d_msgSeq := msgSeq;
             d_timestamp := js_or (JNum (clock w)) ts;
             d_content := JStr content |} in
        (decryptAll aesKey (prior ++ [message; message]) w2).1
        = (decryptAll aesKey prior w2).1 ++ [Ok plain; Ok plain].
Proof.
  split.
  - intros message w3 w4. split; [apply decryptMessage_world |].
    apply decryptMessage_keeps.
  - eexists _, _. split; [apply encryptMessage_eq |]. cbn zeta.
    rewrite decryptAll_app. destruct (decryptAll aesKey prior w2) as [r1 w3].
    cbn [decryptAll fst].
    set (message := envelope _ _ _ _ _ _).
    pose proof (decrypt_sealed aesKey sessionId from to msgSeq content
                  sessionId from to msgSeq ts _ w _ w3
                  (encryptMessage_eq _ _ _ _ _ _ _) eq_refl) as H1.
    fold message in H1.
    destruct (decryptMessage aesKey message w3) as [p1 w4] eqn:Hd1.
    pose proof (decrypt_sealed aesKey sessionId from to msgSeq content
                  sessionId from to msgSeq ts _ w _ w4
                  (encryptMessage_eq _ _ _ _ _ _ _) eq_refl) as H2.
    fold message in H2.
    destruct (decryptMessage aesKey message w4) as [p2 w5] eqn:Hd2.
    cbn in H1, H2. by rewrite H1, H2.
Qed.

End WithLaws.
End WithPlatform.
End MessageCipherClaims.


(** *** The cipher on the model platform *)

Module MessageCipherRuns.
Import Base64 MessageCrypto MessageCryptoFacts MessageCipher MessageCipherClaims.
Import ModelPlatform ModelPlatformFacts.

Definition key0 : list Byte.byte := [Byte.x6b; Byte.x30].

Definition world0 : World :=
  {| clock := 1700000000000;
     entropy := λ n, default Byte.x00 (Byte.of_nat (7 * n + 3));
     drawn := 0;
     subtle_calls := [] |}.

Definition sealed_hello : Encrypted :=
  default {| e_ciphertext := ""; e_iv := ""; e_timestamp := 0; e_msgSeq := 0 |}
    (returned (encryptMessage (P := model) key0 "s1" "alice" "bob" 1 "hello" world0).1).

Example model_iv : e_iv sealed_hello = "AwoRGB8mLTQ7QklQ".
Proof. reflexivity. Qed.

Example model_roundtrip :
  (decryptMessage (P := model) key0
     (envelope "s1" "alice" "bob" 1 JUndefined sealed_hello) world0).1
  = Ok {| d_from := "alice"; d_to := "bob"; d_sessionId := "s1"; d_msgSeq := 1;
          d_timestamp := JNum 1700000000000; d_content := JStr "hello" |}.
Proof. vm_compute. reflexivity. Qed.

Example model_msgSeq_mutated :
  (decryptMessage (P := model) key0
     (envelope "s1" "alice" "bob" 2 JUndefined sealed_hello) world0).1
  = Throw OperationError.
Proof. vm_compute. reflexivity. Qed.

Example model_bad_base64 :
  (decryptMessage (P := model) key0
     {| m_from := "alice"; m_to := "bob"; m_sessionId := "s1";
        m_ciphertext := "****"; m_iv := e_iv sealed_hello; m_msgSeq := 1;
        m_timestamp := JUndefined |} world0)
  = (Throw InvalidCharacterError, world0).
Proof. vm_compute. reflexivity. Qed.


Lemma rebound_envelope_accepted_witness :
  ∃ enc w1,
    encryptMessage (P := model) key0 "s1" "ann|bob" "carol" 1 "hello" world0 = (Ok enc, w1)
    ∧ ∀ ts w2,
        (decryptMessage key0 (envelope "s1" "ann" "bob|carol" 1 ts enc) w2).1
        = Ok {| d_from := "ann"; d_to := "bob|carol"; d_sessionId := "s1";
                d_msgSeq := 1;
                d_timestamp := js_or (JNum (clock world0)) ts;
                d_content := JStr "hello" |}.
Proof.
  exact (rebound_envelope_accepted (L := model_laws) key0 "s1" 1 "hello" world0).
Defined.



Lemma tuple_reuse_not_detected_witness :
  ∃ enc1 w1 enc2 w2,
    encryptMessage (P := model) key0 "s1" "alice" "bob" 1 "hello" world0 = (Ok enc1, w1)
    ∧ encryptMessage key0 "s1" "alice" "bob" 1 "world" w1 = (Ok enc2, w2)
    ∧ ∀ ts w3,
        d_content <$>
          returned (decryptMessage key0 (envelope "s1" "alice" "bob" 1 ts enc1) w3).1
        = Some (JStr "hello")
        ∧ d_content <$>
            returned (decryptMessage key0 (envelope "s1" "alice" "bob" 1 ts enc2) w3).1
          = Some (JStr "world").
Proof.
  exact (tuple_reuse_not_detected (L := model_laws) key0 "s1" "alice" "bob" 1
           "hello" "world" world0).
Defined.

(** C4 as stated fails: two different plaintexts sealed under one key and
    one tuple, on any platform that meets the laws, and both envelopes
    decrypt. *)
Lemma tuple_reuse_accepted :
  "hello" ≠ "world"
  ∧ ∀ (P : Platform) (L : PlatformLaws P) (aesKey : CryptoKey) (w : World),
      ∃ enc1 w1 enc2 w2,
        encryptMessage aesKey "s1" "alice" "bob" 1 "hello" w = (Ok enc1, w1)
        ∧ encryptMessage aesKey "s1" "alice" "bob" 1 "world" w1 = (Ok enc2, w2)
        ∧ d_content <$>
            returned (decryptMessage aesKey
                        (envelope "s1" "alice" "bob" 1 JUndefined enc1) w2).1
          = Some (JStr "hello")
        ∧ d_content <$>
            returned (decryptMessage aesKey
                        (envelope "s1" "alice" "bob" 1 JUndefined enc2) w2).1
          = Some (JStr "world").
Proof.
  split; [done |]. intros P L aesKey w.
  eexists _, _, _, _.
  split_and!; [apply encryptMessage_eq | apply encryptMessage_eq | |].
  - by erewrite decrypt_sealed; [| apply encryptMessage_eq |].
  - by erewrite decrypt_sealed; [| apply encryptMessage_eq |].
Qed.

Lemma decryptMessage_stateless_witness :
  (∀ message w3 w4,
     (decryptMessage (P := model) key0 message w3).1 = (decryptMessage key0 message w4).1
     ∧ clock (decryptMessage key0 message w3).2 = clock w3
     ∧ entropy (decryptMessage key0 message w3).2 = entropy w3
     ∧ drawn (decryptMessage key0 message w3).2 = drawn w3)
  ∧ ∃ enc w1,
      encryptMessage key0 "s1" "alice" "bob" 1 "hello" world0 = (Ok enc, w1)
      ∧ let message := envelope "s1" "alice" "bob" 1 JUndefined enc in
        let plain :=
          {| d_from := "alice"; d_to := "bob"; d_sessionId := "s1";
             d_msgSeq := 1;
             d_timestamp := js_or (JNum (clock world0)) JUndefined;
             d_content := JStr "hello" |} in
        (decryptAll key0 ([envelope "s1" "alice" "bob" 2 JUndefined sealed_hello]
                          ++ [message; message]) world0).1
        = (decryptAll key0 [envelope "s1" "alice" "bob" 2 JUndefined sealed_hello] world0).1
          ++ [Ok plain; Ok plain].
Proof.
  exact (decryptMessage_stateless (L := model_laws) key0 "s1" "alice" "bob" 1 "hello"
           JUndefined [envelope "s1" "alice" "bob" 2 JUndefined sealed_hello]
           world0 world0).
Defined.

End MessageCipherRuns.


(** ** The backend: requests, responses and the JWT middleware *)

(** What [/auth/login] signs into a token, and so what [jwt.verify] gives
    back for a token it accepts. *)
Record JwtPayload : Type := {
  userId : string;
  username : string;
}.

Record Response : Type := {
  status : Z;
  json : JSValue;
}.

(** What a handler reads from outside the request: the clock, the digits of
    [Math.random().toString(16).slice(2)], and the id the database gives a
    new document. *)
Record Env : Type := {
  env_now : Z;
  env_random : string;
  env_iso : string;
  env_objectId : string;
}.

Record Request : Type := {
  authorization : option string;
  params : gmap string string;
  body : JSValue;
}.

(** [s.split(sep)] for a one-character separator. *)
Fixpoint split_on (sep : ascii) (s : string) : list string :=
  match s with
  | EmptyString => [EmptyString]
  | String c rest =>
      if decide (c = sep) then EmptyString :: split_on sep rest
      else
        match split_on sep rest with
        | h :: t => String c h :: t
        | [] => [String c EmptyString]
        end
  end.

Definition error_body (msg : string) : JSValue := JObj [("error", JStr msg)].

Section Middleware.
(** [jwt.verify(token, secret)]: the payload, or [None] where it throws. *)
Variable jwt_verify : string → option JwtPayload.

(** [authenticateToken]: the response that ends the request, or the user
    that [next()] goes on with. *)
Definition authenticateToken (req : Request) : Response + JwtPayload :=
  match authorization req with
  | None => inl {| status := 401; json := error_body "Missing Authorization header" |}
  | Some authHeader =>
      if decide (authHeader = "")
      then inl {| status := 401; json := error_body "Missing Authorization header" |}
      else
        match split_on " " authHeader !! 1%nat with
        | None => inl {| status := 401; json := error_body "Invalid Authorization header" |}
        | Some token =>
            if decide (token = "")
            then inl {| status := 401; json := error_body "Invalid Authorization header" |}
            else
              match jwt_verify token with
              | Some decoded => inr decoded
              | None => inl {| status := 401; json := error_body "Invalid or expired token" |}
              end
        end
  end.

End Middleware.

Example split_bearer : split_on " " "Bearer abc.def" = ["Bearer"; "abc.def"].
Proof. reflexivity. Qed.

(** ** [routes/kx.js]: the key-exchange inbox *)

Module KxRoutes.

Record KxMessage : Type := {
  kx_id : string;
  kx_from : string;
  kx_to : JSValue;
  kx_messageType : JSValue;
  kx_payload : JSValue;
  kx_createdAt : string;
}.

(** [kxMessages], oldest first. *)
Abbreviation Store := (list KxMessage).

Definition message_json (m : KxMessage) : JSValue :=
  JObj [("id", JStr (kx_id m)); ("from", JStr (kx_from m)); ("to", kx_to m);
        ("messageType", kx_messageType m); ("payload", kx_payload m);
        ("createdAt", JStr (kx_createdAt m))].

(** [Date.now().toString() + Math.random().toString(16).slice(2)] *)
Definition fresh_id (env : Env) : string :=
  number_to_string (env_now env) +:+ env_random env.

(** The handler of [POST /kx/send], behind [authenticateToken]. *)
Definition send_handler (env : Env) (user : JwtPayload) (req : Request)
    (kxMessages : Store) : Response * Store :=
  let attempt : Outcome (Response * Store) :=
    to ← get_prop (body req) "to";
    messageType ← get_prop (body req) "messageType";
    payload ← get_prop (body req) "payload";
    if falsy to || falsy messageType || falsy payload then
      mret ({| status := 400;
               json := error_body "to, messageType, and payload are required" |},
            kxMessages)
    else
      let msg :=
        {| kx_id := fresh_id env; kx_from := username user; kx_to := to;
           kx_messageType := messageType; kx_payload := payload;
           kx_createdAt := env_iso env |} in
      mret ({| status := 200;
               json := JObj [("message", JStr "Message sent"); ("id", JStr (kx_id msg))] |},
            kxMessages ++ [msg]) in
  match attempt with
  | Ok r => r
  | Throw _ =>
      ({| status := 500; json := error_body "Internal server error in /kx/send" |},
       kxMessages)
  end.

(** [kxMessages.findIndex((m) => m.id === id)] followed, when the index is
    not [-1], by [kxMessages.splice(idx, 1)]. *)
Fixpoint remove_first (id : string) (kxMessages : Store) : Store :=
  match kxMessages with
  | [] => []
  | m :: rest => if decide (kx_id m = id) then rest else m :: remove_first id rest
  end.

Section Inbox.
(** [String.prototype.toLowerCase] *)
Variable toLowerCase : string → string.

(** The test of the filter in [GET /kx/inbox]. *)
Definition addressed_to (usernameLower : string) (m : KxMessage) : Prop :=
  match kx_to m with
  | JStr to => to ≠ "" ∧ toLowerCase to = usernameLower
  | _ => False
  end.

#[export] Instance addressed_to_dec usernameLower m :
  Decision (addressed_to usernameLower m).
Proof. unfold addressed_to. destruct (kx_to m); apply _. Defined.

(** The handler of [GET /kx/inbox], behind [authenticateToken]. *)
Definition inbox_handler (user : JwtPayload) (kxMessages : Store) : Response * Store :=
  let usernameLower := toLowerCase (username user) in
  let userMessages := filter (addressed_to usernameLower) kxMessages in
  let remaining :=
    foldl (λ store msg, remove_first (kx_id msg) store) kxMessages userMessages in
  ({| status := 200; json := JObj [("messages", JArr (message_json <$> userMessages))] |},
   remaining).

(** The messages an inbox fetch by [user] hands over. *)
Definition delivered (user : JwtPayload) (kxMessages : Store) : list KxMessage :=
  filter (addressed_to (toLowerCase (username user))) kxMessages.

Variable jwt_verify : string → option JwtPayload.

Inductive Route : Type := PostSend | GetInbox.

(** One request to the router. *)
Definition serve (route : Route) (env : Env) (req : Request) (kxMessages : Store)
    : Response * Store :=
  match authenticateToken jwt_verify req with
  | inl refused => (refused, kxMessages)
  | inr user =>
      match route with
      | PostSend => send_handler env user req kxMessages
      | GetInbox => inbox_handler user kxMessages
      end
  end.

(** A run of the server over a sequence of requests; with every response,
    the messages it handed over. *)
Fixpoint run (reqs : list (Route * Env * Request)) (kxMessages : Store)
    : list (Response * list KxMessage) * Store :=
  match reqs with
  | [] => ([], kxMessages)
  | (route, env, req) :: rest =>
      let '(resp, store') := serve route env req kxMessages in
      let handed :=
        match route, authenticateToken jwt_verify req with
        | GetInbox, inr user => delivered user kxMessages
        | _, _ => []
        end in
      let '(resps, final) := run rest store' in
      ((resp, handed) :: resps, final)
  end.

End Inbox.
End KxRoutes.


(** *** The inbox hands every message over at most once *)


Module KxInbox.
Import KxRoutes.

Definition ids (kxMessages : Store) : list string := kx_id <$> kxMessages.

Lemma remove_first_head (m : KxMessage) (rest : Store) :
  remove_first (kx_id m) (m :: rest) = rest.
Proof. cbn. by rewrite decide_True. Qed.

Lemma remove_first_elem (id : string) (kxMessages : Store) (m : KxMessage) :
  m ∈ remove_first id kxMessages → m ∈ kxMessages.
Proof.
  induction kxMessages as [| a l IH]; cbn; [done |].
  destruct (decide (kx_id a = id)); [by right |].
  intros [-> | Hm]%elem_of_cons; [by left | right; auto].
Qed.

(** Removing ids that the head does not bear leaves the head in place. *)
Lemma remove_all_skip (m : KxMessage) (store gone : Store) :
  kx_id m ∉ ids gone →
  foldl (λ store msg, remove_first (kx_id msg) store) (m :: store) gone
  = m :: foldl (λ store msg, remove_first (kx_id msg) store) store gone.
Proof.
  revert store. induction gone as [| x gone IH]; intros store Hm; [done |].
  unfold ids in Hm. rewrite fmap_cons, not_elem_of_cons in Hm. destruct Hm as [Hx Hm].
  cbn [foldl remove_first]. rewrite decide_False by done. by apply IH.
Qed.

Section Inbox.
Variable toLowerCase : string → string.
Variable jwt_verify : string → option JwtPayload.

(** With distinct ids in the store, the loop of [findIndex] and [splice]
    removes the messages that were filtered out for the user, and no other. *)
Lemma remove_delivered (usernameLower : string) (kxMessages : Store) :
  NoDup (ids kxMessages) →
  foldl (λ store msg, remove_first (kx_id msg) store) kxMessages
    (filter (addressed_to toLowerCase usernameLower) kxMessages)
  = filter (λ m, ¬ addressed_to toLowerCase usernameLower m) kxMessages.
Proof.
  induction kxMessages as [| m rest IH]; intros Hnd; [done |].
  unfold ids in Hnd. rewrite fmap_cons in Hnd. apply NoDup_cons in Hnd as [Hm Hnd].
  rewrite !filter_cons.
  destruct (decide (addressed_to toLowerCase usernameLower m)) as [Hyes | Hno].
  - rewrite decide_False by tauto.
    cbn [foldl]. rewrite remove_first_head. by apply IH.
  - rewrite decide_True by done. rewrite remove_all_skip.
    + f_equal. by apply IH.
    + intros Hin. apply Hm. unfold ids in Hin.
      apply list_elem_of_fmap in Hin as (x & -> & Hx).
      apply list_elem_of_fmap_2. by apply list_elem_of_filter in Hx as [_ Hx].
Qed.

Lemma inbox_handler_store_elem (user : JwtPayload) (kxMessages : Store) (m : KxMessage) :
  m ∈ (inbox_handler toLowerCase user kxMessages).2 → m ∈ kxMessages.
Proof.
  unfold inbox_handler. cbn [snd].
  generalize (filter (addressed_to toLowerCase (toLowerCase (username user))) kxMessages).
  intros gone. revert kxMessages.
  induction gone as [| x gone IH]; intros store; cbn [foldl]; [done |].
  intros Hm%IH. by eapply remove_first_elem.
Qed.

(** The ids that the [POST /kx/send] requests of a run would give. *)
Definition send_ids (reqs : list (Route * Env * Request)) : list string :=
  omap (λ r, match r.1.1 with PostSend => Some (fresh_id r.1.2) | GetInbox => None end) reqs.





End Inbox.
End KxInbox.


Module KxInboxClaims.
Import KxRoutes KxInbox.

Section Inbox.
Variable toLowerCase : string → string.
Variable jwt_verify : string → option JwtPayload.




End Inbox.
End KxInboxClaims.


(** ** [models/Message.js] and [routes/messages.js]: the stored ciphertexts *)

Module MessagesRoutes.

(** A document of the [Message] collection: the fields of the schema, the
    [_id] and [__v] every document has, and the two dates of
    [timestamps: true].  A [Date] is its time value in milliseconds. *)
Record MessageDoc : Type := {
  doc_id : string;
  doc_sessionId : string;
  doc_from : string;
  doc_to : string;
  doc_ciphertext : string;
  doc_iv : string;
  doc_msgSeq : Z;
  doc_timestamp : Z;
  doc_createdAt : Z;
  doc_updatedAt : Z;
  doc_v : Z;
}.

Abbreviation Collection := (list MessageDoc).

(** Mongoose's cast to the schema type [String]: a string is kept, a number
    or a boolean is printed, an object that has a string [_id] gives it, and
    anything else is a cast error.  [required: true] then refuses the empty
    string as it refuses [null] and [undefined]. *)
Definition castString (v : JSValue) : option string :=
  match v with
  | JStr s => Some s
  | JNum n => Some (number_to_string n)
  | JBool b => Some (if b then "true" else "false")
  | JObj fs =>
      match assoc_last "_id" fs with
      | Some (JStr s) => if decide (s = "") then None else Some s
      | _ => None
      end
  | _ => None
  end.

Definition required_string (v : JSValue) : option string :=
  s ← castString v; if decide (s = "") then None else Some s.

(** The schema type [Number] on a value that is a number already. *)
Definition required_number (v : JSValue) : option Z :=
  match v with JNum n => Some n | _ => None end.

(** The argument of [new Message(...)] in the send route. *)
Record MessageInput : Type := {
  in_sessionId : JSValue;
  in_from : JSValue;
  in_to : JSValue;
  in_ciphertext : JSValue;
  in_iv : JSValue;
  in_msgSeq : JSValue;
  in_timestamp : option Z;      (* a [Date]; [None] is the invalid date *)
}.

(** [new Message(input)] followed by [save()]: the document that joins the
    collection, or [None] where validation rejects. *)
Definition new_document (env : Env) (input : MessageInput) : option MessageDoc :=
  sessionId ← required_string (in_sessionId input);
  from ← required_string (in_from input);
  to ← required_string (in_to input);
  ciphertext ← required_string (in_ciphertext input);
  ivText ← required_string (in_iv input);
  msgSeq ← required_number (in_msgSeq input);
  timestamp ← in_timestamp input;
  Some {| doc_id := env_objectId env; doc_sessionId := sessionId; doc_from := from;
          doc_to := to; doc_ciphertext := ciphertext; doc_iv := ivText;
          doc_msgSeq := msgSeq; doc_timestamp := timestamp;
          doc_createdAt := env_now env; doc_updatedAt := env_now env; doc_v := 0 |}.

Section Routes.
Variable jwt_verify : string → option JwtPayload.
(** [new Date(v).getTime()], [None] where the date is invalid. *)
Variable Date_of_value : JSValue → option Z.

(** The handler of [POST /messages/send], behind [authenticateToken]. *)
Definition send_handler (env : Env) (user : JwtPayload) (req : Request)
    (messages : Collection) : Response * Collection :=
  let attempt : Outcome (Response * Collection) :=
    sessionId ← get_prop (body req) "sessionId";
    to ← get_prop (body req) "to";
    ciphertext ← get_prop (body req) "ciphertext";
    ivText ← get_prop (body req) "iv";
    msgSeq ← get_prop (body req) "msgSeq";
    timestamp ← get_prop (body req) "timestamp";
    if falsy sessionId || falsy to || falsy ciphertext || falsy ivText
       || negb (is_number msgSeq) then
      mret ({| status := 400;
               json := error_body
                 "sessionId, to, ciphertext, iv and numeric msgSeq are required" |},
            messages)
    else
      let from := username user in
      let input :=
        {| in_sessionId := sessionId; in_from := JStr from; in_to := to;
           in_ciphertext := ciphertext; in_iv := ivText; in_msgSeq := msgSeq;
           in_timestamp :=
             if truthy timestamp then Date_of_value timestamp else Some (env_now env) |} in
      message ← of_option (HostError "ValidationError") (new_document env input);
      mret ({| status := 201;
               json := JObj [("message", JStr "Encrypted message stored")] |},
            messages ++ [message]) in
  match attempt with
  | Ok r => r
  | Throw _ =>
      ({| status := 500; json := error_body "Internal server error in /messages/send" |},
       messages)
  end.

(** [POST /messages/send] *)
Definition post_send (env : Env) (req : Request) (messages : Collection)
    : Response * Collection :=
  match authenticateToken jwt_verify req with
  | inl refused => (refused, messages)
  | inr user => send_handler env user req messages
  end.

(** The query of the conversation route. *)
Definition in_conversation (me peer sessionId : string) (m : MessageDoc) : Prop :=
  doc_sessionId m = sessionId
  ∧ ((doc_from m = me ∧ doc_to m = peer) ∨ (doc_from m = peer ∧ doc_to m = me)).

#[export] Instance in_conversation_dec me peer sessionId m :
  Decision (in_conversation me peer sessionId m).
Proof. unfold in_conversation. apply _. Defined.

(** The order of [.sort({ msgSeq: 1, timestamp: 1 })]. *)
Definition seq_then_time (a b : MessageDoc) : Prop :=
  doc_msgSeq a < doc_msgSeq b
  ∨ (doc_msgSeq a = doc_msgSeq b ∧ doc_timestamp a <= doc_timestamp b).

#[export] Instance seq_then_time_dec a b : Decision (seq_then_time a b).
Proof. unfold seq_then_time. apply _. Defined.

(** [Message.find(criteria).sort({ msgSeq: 1, timestamp: 1 }).lean()] *)
Definition find_sorted (me peer sessionId : string) (messages : Collection)
    : list MessageDoc :=
  merge_sort seq_then_time (filter (in_conversation me peer sessionId) messages).

(** The object the route builds from a document. *)
Definition safe_message (m : MessageDoc) : JSValue :=
  JObj [("from", JStr (doc_from m)); ("to", JStr (doc_to m));
        ("sessionId", JStr (doc_sessionId m));
        ("ciphertext", JStr (doc_ciphertext m)); ("iv", JStr (doc_iv m));
        ("msgSeq", JNum (doc_msgSeq m)); ("timestamp", JNum (doc_timestamp m))].

(** The handler of [GET /messages/conversation/:peerUsername/:sessionId]. *)
Definition conversation_handler (user : JwtPayload) (req : Request)
    (messages : Collection) : Response :=
  let me := username user in
  match params req !! "peerUsername", params req !! "sessionId" with
  | Some peer, Some sessionId =>
      if decide (peer = "" ∨ sessionId = "") then
        {| status := 400; json := error_body "peerUsername and sessionId are required" |}
      else
        let found := find_sorted me peer sessionId messages in
        {| status := 200; json := JArr (safe_message <$> found) |}
  | _, _ =>
      {| status := 400; json := error_body "peerUsername and sessionId are required" |}
  end.

(** [GET /messages/conversation/:peerUsername/:sessionId] *)
Definition get_conversation (req : Request) (messages : Collection) : Response :=
  match authenticateToken jwt_verify req with
  | inl refused => refused
  | inr user => conversation_handler user req messages
  end.

End Routes.

(** The property names of an object, in order. *)
Definition keys (v : JSValue) : list string :=
  match v with JObj fs => fs.*1 | _ => [] end.

End MessagesRoutes.


(** *** The claims about the stored ciphertexts *)


Module MessagesClaims.
Import MessagesRoutes.

#[export] Instance seq_then_time_total : Total seq_then_time.
Proof. intros a b. unfold seq_then_time. lia. Qed.

#[export] Instance seq_then_time_trans : Transitive seq_then_time.
Proof. intros a b c. unfold seq_then_time. lia. Qed.

Lemma required_string_cast (v : JSValue) (s : string) :
  required_string v = Some s → castString v = Some s.
Proof.
  unfold required_string. destruct (castString v) as [s' |]; [| done]. cbn.
  by destruct (decide (s' = "")).
Qed.

Lemma required_number_is (v : JSValue) (n : Z) :
  required_number v = Some n → v = JNum n.
Proof. destruct v; cbn; congruence. Qed.

Section Routes.
Variable jwt_verify : string → option JwtPayload.
Variable Date_of_value : JSValue → option Z.


(** C10.  On a request that passed [authenticateToken] as [me], with a peer
    and a session in its path, the conversation route answers 200 with the
    stored messages of that session that go from [me] to the peer or from
    the peer to [me], those and no other, each once, in ascending order of
    [msgSeq] and then of [timestamp], every one as an object of the seven
    properties [from], [to], [sessionId], [ciphertext], [iv], [msgSeq] and
    [timestamp]. *)
Theorem conversation_is_sorted_selection (req : Request) (messages : Collection)
    (user : JwtPayload) (peer sessionId : string) :
  authenticateToken jwt_verify req = inr user →
  params req !! "peerUsername" = Some peer →
  params req !! "sessionId" = Some sessionId →
  peer ≠ "" → sessionId ≠ "" →
  ∃ found,
    get_conversation jwt_verify req messages
      = {| status := 200; json := JArr (safe_message <$> found) |}
    ∧ found ≡ₚ filter (λ m, doc_sessionId m = sessionId
                            ∧ ((doc_from m = username user ∧ doc_to m = peer)
                               ∨ (doc_from m = peer ∧ doc_to m = username user)))
                 messages
    ∧ StronglySorted
        (λ a b, doc_msgSeq a < doc_msgSeq b
                ∨ (doc_msgSeq a = doc_msgSeq b ∧ doc_timestamp a <= doc_timestamp b))
        found
    ∧ Forall (λ obj, keys obj
                     = ["from"; "to"; "sessionId"; "ciphertext"; "iv"; "msgSeq"; "timestamp"])
        (safe_message <$> found)
    ∧ Forall2 (λ obj m,
                 obj = JObj [("from", JStr (doc_from m)); ("to", JStr (doc_to m));
                             ("sessionId", JStr (doc_sessionId m));
                             ("ciphertext", JStr (doc_ciphertext m));
                             ("iv", JStr (doc_iv m)); ("msgSeq", JNum (doc_msgSeq m));
                             ("timestamp", JNum (doc_timestamp m))])
        (safe_message <$> found) found.
Proof.
  intros Hauth Hpeer Hsession Hp Hs.
  exists (find_sorted (username user) peer sessionId messages).
  split_and!.
  - unfold get_conversation, conversation_handler. rewrite Hauth, Hpeer, Hsession.
    by rewrite decide_False by tauto.
  - unfold find_sorted. apply merge_sort_Permutation.
  - unfold find_sorted. apply (StronglySorted_merge_sort seq_then_time); apply _.
  - apply Forall_fmap, Forall_true. done.
  - apply Forall2_fmap_l, Forall2_same_length_lookup_2; [done |].
    intros i x y Hx Hy. by simplify_eq.
Qed.

End Routes.
End MessagesClaims.


(** ** [components/Dashboard]: the dispatcher of incoming key-exchange messages *)

(** [`${v}`] *)
Fixpoint js_to_string (v : JSValue) : string :=
  match v with
  | JUndefined => "undefined"
  | JNull => "null"
  | JBool b => if b then "true" else "false"
  | JNum n => number_to_string n
  | JStr s => s
  | JHandle _ | JObj _ => "[object Object]"
  | JArr items =>
      (fix join (l : list JSValue) : string :=
         match l with
         | [] => ""
         | [x] => match x with JUndefined | JNull => "" | _ => js_to_string x end
         | x :: rest =>
             match x with JUndefined | JNull => "" | _ => js_to_string x end
             +:+ "," +:+ join rest
         end) items
  end.

(** [error.message] *)
Definition exn_message (e : Exn) : string :=
  match e with
  | OperationError => "The operation failed for an operation-specific reason"
  | InvalidCharacterError => "The string to be decoded is not correctly encoded."
  | SyntaxError => "Unexpected token in JSON"
  | TypeError => "Cannot read properties of undefined"
  | HostError what => what
  end.

Module Dashboard.
Import KxRoutes.

(** The object held in the [kxContext] state; a property that an object
    does not have is [undefined] here. *)
Record KxContext : Type := {
  ctx_role : string;
  ctx_peer : string;
  ctx_keyInitBody : JSValue;
  ctx_initContext : JSValue;
  ctx_sessionId : JSValue;
  ctx_aesKey : JSValue;
  ctx_transcriptHash : JSValue;
  ctx_nonceA : JSValue;
  ctx_nonceB : JSValue;
}.

Section Component.
(** Everything outside the component: the server, the network, the keys
    and the randomness of the key-exchange module, the clock. *)
Variable Outside : Type.
(** [new Date().toLocaleTimeString()] *)
Variable toLocaleTimeString : Outside → string.
(** [kxAPI.getInbox], [kxAPI.sendMessage], [authAPI.getPublicKey]. *)
Variable getInbox : Eff Outside (list KxMessage).
Variable sendMessage : string → string → JSValue → Eff Outside JSValue.
Variable getPublicKey : string → Eff Outside JSValue.
(** [utils/keyExchange] *)
Variable processKeyInitAndCreateResp :
  JSValue → JSValue → JSValue → string → Eff Outside JSValue.
Variable processKeyRespAndDeriveKey :
  JSValue → JSValue → JSValue → JSValue → JSValue → Eff Outside JSValue.
Variable createKeyConfirm :
  string → JSValue → string → string → JSValue → JSValue → Eff Outside JSValue.
Variable decryptAndVerifyKeyConfirm : JSValue → JSValue → JSValue → Eff Outside JSValue.

(** The state a handler runs on: the outside, and the two pieces of React
    state it writes.  [kxContext] is the value the next render will show; a
    handler reads the value of the render it was made in. *)
Record Dash : Type := {
  outside : Outside;
  kxContext : option KxContext;
  kxLog : list string;
}.

Definition call {A} (m : Eff Outside A) : Eff Dash A := λ d,
  let '(o, s) := m (outside d) in
  (o, {| outside := s; kxContext := kxContext d; kxLog := kxLog d |}).

Definition setKxContext (c : KxContext) : Eff Dash () := λ d,
  (Ok (), {| outside := outside d; kxContext := Some c; kxLog := kxLog d |}).

(** [setKxLog((prev) => [`${time}: ${msg}`, ...prev].slice(0, 20))] *)
Definition addLog (msg : string) : Eff Dash () := λ d,
  (Ok (),
   {| outside := outside d; kxContext := kxContext d;
      kxLog := take 20 ((toLocaleTimeString (outside d) +:+ ": " +:+ msg) :: kxLog d) |}).

(** The branch of a [KEY_INIT]: this side answers as the responder. *)
Definition handle_key_init (username : string) (msg : KxMessage) : Eff Dash () :=
  body ← lift (get_prop (kx_payload msg) "body");
  signature ← lift (get_prop (kx_payload msg) "signature");
  _ ← addLog ("Received KEY_INIT from " +:+ kx_from msg);
  initiatorInfo ← call (getPublicKey (kx_from msg));
  publicKey ← lift (get_prop initiatorInfo "publicKey");
  resp ← call (processKeyInitAndCreateResp body signature publicKey username);
  respBody ← lift (get_prop resp "body");
  respSig ← lift (get_prop resp "signature");
  sessionContext ← lift (get_prop resp "sessionContext");
  sessionId ← lift (get_prop body "sessionId");
  aesKey ← lift (get_prop sessionContext "aesKey");
  transcriptHash ← lift (get_prop sessionContext "transcriptHash");
  nonceA ← lift (get_prop sessionContext "nonceA");
  nonceB ← lift (get_prop sessionContext "nonceB");
  _ ← setKxContext
        {| ctx_role := "responder"; ctx_peer := kx_from msg; ctx_keyInitBody := body;
           ctx_initContext := JUndefined; ctx_sessionId := sessionId;
           ctx_aesKey := aesKey; ctx_transcriptHash := transcriptHash;
           ctx_nonceA := nonceA; ctx_nonceB := nonceB |};
  _ ← call (sendMessage (kx_from msg) "KEY_RESP"
              (JObj [("body", respBody); ("signature", respSig)]));
  addLog "Processed KEY_INIT, sent KEY_RESP".

(** The branch of a [KEY_RESP] while the context is an initiator's. *)
Definition handle_key_resp (username : string) (ctx : KxContext) (msg : KxMessage)
    : Eff Dash () :=
  body ← lift (get_prop (kx_payload msg) "body");
  signature ← lift (get_prop (kx_payload msg) "signature");
  _ ← addLog ("Received KEY_RESP from " +:+ kx_from msg);
  responderInfo ← call (getPublicKey (kx_from msg));
  publicKey ← lift (get_prop responderInfo "publicKey");
  derived ← call (processKeyRespAndDeriveKey body signature publicKey
                    (ctx_keyInitBody ctx) (ctx_initContext ctx));
  aesKey ← lift (get_prop derived "aesKey");
  sessionId ← lift (get_prop derived "sessionId");
  transcriptHash ← lift (get_prop derived "transcriptHash");
  _ ← setKxContext
        {| ctx_role := ctx_role ctx; ctx_peer := ctx_peer ctx;
           ctx_keyInitBody := ctx_keyInitBody ctx; ctx_initContext := ctx_initContext ctx;
           ctx_sessionId := sessionId; ctx_aesKey := aesKey;
           ctx_transcriptHash := transcriptHash;
           ctx_nonceA := ctx_nonceA ctx; ctx_nonceB := ctx_nonceB ctx |};
  confirmMsg ← call (createKeyConfirm "KEY_CONFIRM_A" sessionId username (kx_from msg)
                       aesKey transcriptHash);
  _ ← call (sendMessage (kx_from msg) "KEY_CONFIRM_A" confirmMsg);
  addLog "Derived session key and sent KEY_CONFIRM_A".

(** The branch of a [KEY_CONFIRM_A] while the context is a responder's. *)
Definition handle_key_confirm_a (username : string) (ctx : KxContext) (msg : KxMessage)
    : Eff Dash () :=
  _ ← addLog ("Received KEY_CONFIRM_A from " +:+ kx_from msg);
  _ ← call (decryptAndVerifyKeyConfirm (kx_payload msg) (ctx_aesKey ctx)
              (ctx_transcriptHash ctx));
  _ ← addLog "KEY_CONFIRM_A verified, sending KEY_CONFIRM_B";
  confirmB ← call (createKeyConfirm "KEY_CONFIRM_B" (ctx_sessionId ctx) username
                     (kx_from msg) (ctx_aesKey ctx) (ctx_transcriptHash ctx));
  _ ← call (sendMessage (kx_from msg) "KEY_CONFIRM_B" confirmB);
  mret ().

(** The branch of a [KEY_CONFIRM_B] while the context is an initiator's. *)
Definition handle_key_confirm_b (ctx : KxContext) (msg : KxMessage) : Eff Dash () :=
  _ ← addLog ("Received KEY_CONFIRM_B from " +:+ kx_from msg);
  _ ← call (decryptAndVerifyKeyConfirm (kx_payload msg) (ctx_aesKey ctx)
              (ctx_transcriptHash ctx));
  addLog "KEY_CONFIRM_B verified. Secure session established!".

(** The last branch. *)
Definition handle_unrelated (msg : KxMessage) : Eff Dash () :=
  addLog ("Received unrelated KX message of type " +:+ js_to_string (kx_messageType msg)).

(** [kxContext && kxContext.role === role] *)
Definition has_role (kxContext : option KxContext) (role : string) : option KxContext :=
  match kxContext with
  | Some ctx => if decide (ctx_role ctx = role) then Some ctx else None
  | None => None
  end.

(** The body of the loop: the chain of [if] and [else if]. *)
Definition handle_message (username : string) (kxContext : option KxContext)
    (msg : KxMessage) : Eff Dash () :=
  if is_str (kx_messageType msg) "KEY_INIT" then handle_key_init username msg
  else
    match is_str (kx_messageType msg) "KEY_RESP", has_role kxContext "initiator" with
    | true, Some ctx => handle_key_resp username ctx msg
    | _, _ =>
        match is_str (kx_messageType msg) "KEY_CONFIRM_A", has_role kxContext "responder" with
        | true, Some ctx => handle_key_confirm_a username ctx msg
        | _, _ =>
            match is_str (kx_messageType msg) "KEY_CONFIRM_B",
                  has_role kxContext "initiator" with
            | true, Some ctx => handle_key_confirm_b ctx msg
            | _, _ => handle_unrelated msg
            end
        end
    end.

(** [for (const msg of messages) { ... }] *)
Fixpoint process_messages (username : string) (kxContext : option KxContext)
    (messages : list KxMessage) : Eff Dash () :=
  match messages with
  | [] => mret ()
  | msg :: rest =>
      _ ← handle_message username kxContext msg;
      process_messages username kxContext rest
  end.

(** [handleCheckInbox], made in a render that shows [username] and the
    [kxContext] of the state. *)
Definition handleCheckInbox (username : string) : Eff Dash () := λ d,
  let attempt : Eff Dash () :=
    messages ← call getInbox;
    match messages with
    | [] => addLog "No key-exchange messages in inbox"
    | _ :: _ => process_messages username (kxContext d) messages
    end in
  match attempt d with
  | (Ok _, d') => (Ok (), d')
  | (Throw error, d') => addLog ("Error checking inbox: " +:+ exn_message error) d'
  end.

End Component.
End Dashboard.


(** *** The claims about the dispatcher *)

Module DashboardClaims.
Import KxRoutes Dashboard.

(** A message that no branch of the chain takes up: it is no [KEY_INIT],
    and for its type there is no context of the role the branch asks. *)
Definition unmatched (kxContext : option KxContext) (msg : KxMessage) : Prop :=
  is_str (kx_messageType msg) "KEY_INIT" = false
  ∧ (is_str (kx_messageType msg) "KEY_RESP" = true → has_role kxContext "initiator" = None)
  ∧ (is_str (kx_messageType msg) "KEY_CONFIRM_A" = true
     → has_role kxContext "responder" = None)
  ∧ (is_str (kx_messageType msg) "KEY_CONFIRM_B" = true
     → has_role kxContext "initiator" = None).

(** An initiator's context for the session [session-1] with [bob], as
    [handleStartKeyExchange] sets it. *)
Definition ctx1 : KxContext :=
  {| ctx_role := "initiator"; ctx_peer := "bob";
     ctx_keyInitBody :=
       JObj [("sessionId", JStr "session-1"); ("from", JStr "alice"); ("to", JStr "bob")];
     ctx_initContext := JHandle 1;
     ctx_sessionId := JStr "session-1";
     ctx_aesKey := JNull; ctx_transcriptHash := JNull;
     ctx_nonceA := JUndefined; ctx_nonceB := JUndefined |}.

(** A [KEY_RESP] of [bob] for another session, [session-2]. *)
Definition resp2_body : JSValue :=
  JObj [("sessionId", JStr "session-2"); ("from", JStr "bob"); ("to", JStr "alice")].

Definition resp2 : KxMessage :=
  {| kx_id := "1700000000000a1"; kx_from := "bob"; kx_to := JStr "alice";
     kx_messageType := JStr "KEY_RESP";
     kx_payload := JObj [("body", resp2_body); ("signature", JStr "c2ln")];
     kx_createdAt := "2023-11-14T22:13:20.000Z" |}.

Section Component.
Variable Outside : Type.
Variable toLocaleTimeString : Outside → string.
Variable getInbox : Eff Outside (list KxMessage).
Variable sendMessage : string → string → JSValue → Eff Outside JSValue.
Variable getPublicKey : string → Eff Outside JSValue.
Variable processKeyInitAndCreateResp :
  JSValue → JSValue → JSValue → string → Eff Outside JSValue.
Variable processKeyRespAndDeriveKey :
  JSValue → JSValue → JSValue → JSValue → JSValue → Eff Outside JSValue.
Variable createKeyConfirm :
  string → JSValue → string → string → JSValue → JSValue → Eff Outside JSValue.
Variable decryptAndVerifyKeyConfirm : JSValue → JSValue → JSValue → Eff Outside JSValue.

#[local] Abbreviation handle := (handle_message Outside toLocaleTimeString sendMessage
  getPublicKey processKeyInitAndCreateResp processKeyRespAndDeriveKey createKeyConfirm
  decryptAndVerifyKeyConfirm).
#[local] Abbreviation handle_resp := (handle_key_resp Outside toLocaleTimeString sendMessage
  getPublicKey processKeyRespAndDeriveKey createKeyConfirm).
#[local] Abbreviation process := (process_messages Outside toLocaleTimeString sendMessage
  getPublicKey processKeyInitAndCreateResp processKeyRespAndDeriveKey createKeyConfirm
  decryptAndVerifyKeyConfirm).
#[local] Abbreviation check := (handleCheckInbox Outside toLocaleTimeString getInbox sendMessage
  getPublicKey processKeyInitAndCreateResp processKeyRespAndDeriveKey createKeyConfirm
  decryptAndVerifyKeyConfirm).

(** The state after the log line of the last branch, and nothing else. *)
Definition logged_unrelated (msg : KxMessage) (d : Dash Outside) : Dash Outside :=
  {| outside := outside _ d; kxContext := kxContext _ d;
     kxLog :=
       take 20
         ((toLocaleTimeString (outside _ d)
           +:+ ": " +:+ "Received unrelated KX message of type "
           +:+ js_to_string (kx_messageType msg)) :: kxLog _ d) |}.

Lemma handle_unmatched (username : string) kxContext (msg : KxMessage) (d : Dash Outside) :
  unmatched kxContext msg →
  handle username kxContext msg d = (Ok (), logged_unrelated msg d).
Proof.
  intros (Hinit & Hresp & Ha & Hb). unfold handle_message. rewrite Hinit.
  destruct (is_str _ "KEY_RESP"), (is_str _ "KEY_CONFIRM_A"), (is_str _ "KEY_CONFIRM_B");
    try rewrite (Hresp eq_refl); try rewrite (Ha eq_refl); try rewrite (Hb eq_refl);
    repeat (destruct (has_role _ _)); reflexivity.
Qed.

Lemma process_app (username : string) kxContext (l1 l2 : list KxMessage) (d : Dash Outside) :
  process username kxContext (l1 ++ l2) d
  = match process username kxContext l1 d with
    | (Ok _, d1) => process username kxContext l2 d1
    | (Throw e, d1) => (Throw e, d1)
    end.
Proof.
  revert d. induction l1 as [| msg l1 IH]; intros d; [done |].
  cbn [app process_messages]. unfold mbind, Eff_bind.
  destruct (handle_message _ _ _ _ _ _ _ _ _ _ msg d) as [[[] | e] d1]; [apply IH | done].
Qed.

Lemma check_returns (username : string) (d : Dash Outside) :
  ∃ d', check username d = (Ok (), d').
Proof.
  unfold handleCheckInbox.
  match goal with |- context [match ?a d with _ => _ end] => destruct (a d) as [[[] | e] d'] end;
    by eexists.
Qed.

(** When the branch of a [KEY_RESP] runs to its end, the context holds what
    the key-exchange module derived from the message. *)
Lemma handle_resp_ok (username : string) (ctx : KxContext) (msg : KxMessage)
    (d d1 : Dash Outside) :
  handle_resp username ctx msg d = (Ok (), d1) →
  ∃ aesKey sessionId transcriptHash,
    kxContext _ d1
    = Some {| ctx_role := ctx_role ctx; ctx_peer := ctx_peer ctx;
              ctx_keyInitBody := ctx_keyInitBody ctx;
              ctx_initContext := ctx_initContext ctx;
              ctx_sessionId := sessionId; ctx_aesKey := aesKey;
              ctx_transcriptHash := transcriptHash;
              ctx_nonceA := ctx_nonceA ctx; ctx_nonceB := ctx_nonceB ctx |}.
Proof.
  unfold handle_key_resp, mbind, Eff_bind, lift, call, addLog, setKxContext, mret, Eff_ret.
  intros Hrun. repeat case_match; simplify_eq; cbn; eauto.
Qed.

(** C6, as amended.  A message of the inbox that no branch takes up (a
    [KEY_RESP] or a [KEY_CONFIRM_B] without an initiator's context, a
    [KEY_CONFIRM_A] without a responder's, a type that is none of the four)
    costs a line of the log and nothing else: nothing outside is called, the
    context stays, no exception is thrown, and the loop goes on with the
    messages after it as if it had not been there.  [handleCheckInbox]
    itself never throws. *)
Theorem unmatched_message_is_skipped (username : string)
    (captured : option KxContext) (before after : list KxMessage)
    (msg : KxMessage) (d : Dash Outside) :
  unmatched captured msg →
  let skipped (d : Dash Outside) : Dash Outside :=
    {| outside := outside _ d; kxContext := kxContext _ d;
       kxLog :=
         take 20
           ((toLocaleTimeString (outside _ d)
             +:+ ": " +:+ "Received unrelated KX message of type "
             +:+ js_to_string (kx_messageType msg)) :: kxLog _ d) |} in
  handle username captured msg d = (Ok (), skipped d)
  ∧ process username captured (before ++ msg :: after) d
    = match process username captured before d with
      | (Ok _, d1) => process username captured after (skipped d1)
      | (Throw e, d1) => (Throw e, d1)
      end
  ∧ ∃ d', check username d = (Ok (), d').
Proof.
  intros Hun skipped. split_and!.
  - by apply handle_unmatched.
  - rewrite process_app.
    destruct (process username captured before d) as [[[] | e] d1]; [| done].
    cbn [process_messages]. unfold mbind, Eff_bind.
    by rewrite handle_unmatched.
  - apply check_returns.
Qed.

End Component.

(** C6 as stated fails where the session of the message is not the one of
    the context: with the initiator's context of [session-1], the [KEY_RESP]
    of [session-2] is taken up by the branch of a [KEY_RESP], whatever the
    outside does; and then either the branch throws, and the messages after
    it are not processed, or it runs to its end, and the context now holds
    what was derived from that message. *)
Lemma response_of_other_session_is_processed :
  ctx_sessionId ctx1 = JStr "session-1"
  ∧ (body ← get_prop (kx_payload resp2) "body"; get_prop body "sessionId")
    = Ok (JStr "session-2")
  ∧ ∀ (Outside : Type) (toLocaleTimeString : Outside → string)
      (sendMessage : string → string → JSValue → Eff Outside JSValue)
      (getPublicKey : string → Eff Outside JSValue)
      (processKeyInitAndCreateResp :
         JSValue → JSValue → JSValue → string → Eff Outside JSValue)
      (processKeyRespAndDeriveKey :
         JSValue → JSValue → JSValue → JSValue → JSValue → Eff Outside JSValue)
      (createKeyConfirm :
         string → JSValue → string → string → JSValue → JSValue → Eff Outside JSValue)
      (decryptAndVerifyKeyConfirm : JSValue → JSValue → JSValue → Eff Outside JSValue)
      (username : string) (rest : list KxMessage) (d : Dash Outside),
      let handle :=
        handle_message Outside toLocaleTimeString sendMessage getPublicKey
          processKeyInitAndCreateResp processKeyRespAndDeriveKey createKeyConfirm
          decryptAndVerifyKeyConfirm in
      let process :=
        process_messages Outside toLocaleTimeString sendMessage getPublicKey
          processKeyInitAndCreateResp processKeyRespAndDeriveKey createKeyConfirm
          decryptAndVerifyKeyConfirm in
      handle username (Some ctx1) resp2 d
      = handle_key_resp Outside toLocaleTimeString sendMessage getPublicKey
          processKeyRespAndDeriveKey createKeyConfirm username ctx1 resp2 d
      ∧ match handle username (Some ctx1) resp2 d with
        | (Throw e, d1) => process username (Some ctx1) (resp2 :: rest) d = (Throw e, d1)
        | (Ok _, d1) =>
            ∃ aesKey sessionId transcriptHash,
              kxContext _ d1
              = Some {| ctx_role := "initiator"; ctx_peer := "bob";
                        ctx_keyInitBody := ctx_keyInitBody ctx1;
                        ctx_initContext := ctx_initContext ctx1;
                        ctx_sessionId := sessionId; ctx_aesKey := aesKey;
                        ctx_transcriptHash := transcriptHash;
                        ctx_nonceA := JUndefined; ctx_nonceB := JUndefined |}
        end.
Proof.
  split_and!; [done | done |].
  intros Outside toLocaleTimeString sendMessage getPublicKey processKeyInitAndCreateResp
    processKeyRespAndDeriveKey createKeyConfirm decryptAndVerifyKeyConfirm
    username rest d handle process.
  subst handle process.
  assert (Hbranch : ∀ d0,
    handle_message Outside toLocaleTimeString sendMessage getPublicKey
      processKeyInitAndCreateResp processKeyRespAndDeriveKey createKeyConfirm
      decryptAndVerifyKeyConfirm username (Some ctx1) resp2 d0
    = handle_key_resp Outside toLocaleTimeString sendMessage getPublicKey
        processKeyRespAndDeriveKey createKeyConfirm username ctx1 resp2 d0) by done.
  split; [apply Hbranch |].
  cbn [process_messages]. unfold mbind at 1, Eff_bind at 1. rewrite !Hbranch.
  destruct (handle_key_resp _ _ _ _ _ _ username ctx1 resp2 d) as [[[] | e] d1] eqn:Hrun;
    [| done].
  by apply handle_resp_ok in Hrun.
Qed.

End DashboardClaims.


(** ** The backend and the dispatcher on concrete data *)

Module Runs.
Import KxRoutes KxInbox KxInboxClaims.

(** [toLowerCase] on the letters of ASCII. *)
Definition ascii_lower (c : ascii) : ascii :=
  let n := nat_of_ascii c in
  if (65 <=? n)%nat && (n <=? 90)%nat then ascii_of_nat (n + 32) else c.

Fixpoint lower (s : string) : string :=
  match s with
  | EmptyString => EmptyString
  | String c rest => String (ascii_lower c) (lower rest)
  end.

(** A verifier that knows two tokens. *)
Definition jwt0 (token : string) : option JwtPayload :=
  if decide (token = "tok-alice") then Some {| userId := "u1"; username := "Alice" |}
  else if decide (token = "tok-bob") then Some {| userId := "u2"; username := "bob" |}
  else None.

Definition as_alice (b : JSValue) : Request :=
  {| authorization := Some "Bearer tok-alice"; params := ∅; body := b |}.
Definition as_bob (b : JSValue) : Request :=
  {| authorization := Some "Bearer tok-bob"; params := ∅; body := b |}.

Definition env_at (now : Z) (random : string) : Env :=
  {| env_now := now; env_random := random;
     env_iso := "2023-11-14T22:13:20.000Z"; env_objectId := "6553f1a0" +:+ random |}.

Definition key_init_for (to : string) : JSValue :=
  JObj [("to", JStr to); ("messageType", JStr "KEY_INIT");
        ("payload", JObj [("body", JObj [("sessionId", JStr "session-1")]);
                          ("signature", JStr "c2ln")])].

(** Bob sends to [ALICE], Alice sends to [bob]; Alice fetches twice, Bob once. *)
Definition reqs0 : list (Route * Env * Request) :=
  [(PostSend, env_at 1700000000000 "a1", as_bob (key_init_for "ALICE"));
   (PostSend, env_at 1700000000000 "b2", as_alice (key_init_for "bob"));
   (GetInbox, env_at 1700000000001 "c3", as_alice JUndefined);
   (GetInbox, env_at 1700000000002 "d4", as_alice JUndefined);
   (GetInbox, env_at 1700000000003 "e5", as_bob JUndefined)].

Example run0_statuses :
  (λ r, status r.1) <$> (run lower jwt0 reqs0 []).1 = [200; 200; 200; 200; 200].
Proof. reflexivity. Qed.

Example run0_handed :
  (λ r, ids r.2) <$> (run lower jwt0 reqs0 []).1
  = [[]; []; ["1700000000000a1"]; []; ["1700000000000b2"]]
  ∧ (run lower jwt0 reqs0 []).2 = [].
Proof. split; reflexivity. Qed.

Example inbox_no_token :
  serve lower jwt0 GetInbox (env_at 0 "")
    {| authorization := None; params := ∅; body := JUndefined |} []
  = ({| status := 401; json := error_body "Missing Authorization header" |}, []).
Proof. reflexivity. Qed.

(** Where two messages of the store bear one id, the loop removes the first
    of them for the second: the message for Alice stays and is handed over
    again. *)
Definition twins : Store :=
  [{| kx_id := "7"; kx_from := "carol"; kx_to := JStr "bob";
      kx_messageType := JStr "KEY_INIT"; kx_payload := JNum 1; kx_createdAt := "" |};
   {| kx_id := "7"; kx_from := "bob"; kx_to := JStr "alice";
      kx_messageType := JStr "KEY_INIT"; kx_payload := JNum 2; kx_createdAt := "" |}].

Example inbox_with_one_id_twice :
  let user := {| userId := "u1"; username := "Alice" |} in
  kx_from <$> delivered lower user twins = ["bob"]
  ∧ kx_from <$> (inbox_handler lower user twins).2 = ["bob"].
Proof. split; reflexivity. Qed.

Definition store0 : Store :=
  [{| kx_id := "5"; kx_from := "carol"; kx_to := JStr "Bob";
      kx_messageType := JStr "KEY_INIT"; kx_payload := JNum 1; kx_createdAt := "" |};
   {| kx_id := "6"; kx_from := "bob"; kx_to := JStr "alice";
      kx_messageType := JStr "KEY_RESP"; kx_payload := JNum 2; kx_createdAt := "" |}].

Example run0_from_store0 :
  (λ r, ids r.2) <$> (run lower jwt0 reqs0 store0).1
  = [[]; []; ["6"; "1700000000000a1"]; []; ["5"; "1700000000000b2"]].
Proof. reflexivity. Qed.


(** *** The stored ciphertexts *)

Import MessagesRoutes MessagesClaims.

(** [new Date(v)] on a number of milliseconds. *)
Definition date0 (v : JSValue) : option Z :=
  match v with JNum n => Some n | _ => None end.

Definition envelope_body (sessionId to : string) (msgSeq timestamp : Z) : JSValue :=
  JObj [("sessionId", JStr sessionId); ("to", JStr to);
        ("ciphertext", JStr "Y2lwaGVy"); ("iv", JStr "AwoRGB8mLTQ7QklQ");
        ("msgSeq", JNum msgSeq); ("timestamp", JNum timestamp)].

(** Alice's request, whose body claims to come from [mallory]. *)
Definition forged : Request :=
  as_alice
    (JObj [("from", JStr "mallory"); ("sessionId", JStr "session-1"); ("to", JStr "bob");
           ("ciphertext", JStr "Y2lwaGVy"); ("iv", JStr "AwoRGB8mLTQ7QklQ");
           ("msgSeq", JNum 1); ("timestamp", JNum 1700000000000)]).

Example forged_is_stored_as_alice :
  let '(resp, messages) := post_send jwt0 date0 (env_at 1700000000005 "f6") forged [] in
  status resp = 201 ∧ doc_from <$> messages = ["Alice"].
Proof. split; reflexivity. Qed.

Example send_without_iv :
  post_send jwt0 date0 (env_at 1700000000005 "f6")
    (as_alice (JObj [("sessionId", JStr "session-1"); ("to", JStr "bob");
                     ("ciphertext", JStr "Y2lwaGVy"); ("msgSeq", JNum 1)])) []
  = ({| status := 400;
        json := error_body "sessionId, to, ciphertext, iv and numeric msgSeq are required" |},
     []).
Proof. reflexivity. Qed.

Example send_with_text_msgSeq :
  status (post_send jwt0 date0 (env_at 1700000000005 "f6")
            (as_alice (JObj [("sessionId", JStr "session-1"); ("to", JStr "bob");
                             ("ciphertext", JStr "Y2lwaGVy"); ("iv", JStr "AwoR");
                             ("msgSeq", JStr "1")])) []).1
  = 400.
Proof. reflexivity. Qed.


(** A collection of four messages: three of the conversation of Alice and
    bob in [session-1], out of order, and one of another session. *)
Definition doc (n : Z) (sessionId from to : string) (msgSeq timestamp : Z) : MessageDoc :=
  {| doc_id := number_to_string n; doc_sessionId := sessionId; doc_from := from;
     doc_to := to; doc_ciphertext := "Y2lwaGVy"; doc_iv := "AwoRGB8mLTQ7QklQ";
     doc_msgSeq := msgSeq; doc_timestamp := timestamp;
     doc_createdAt := timestamp; doc_updatedAt := timestamp; doc_v := 0 |}.

Definition collection0 : Collection :=
  [doc 1 "session-1" "Alice" "bob" 2 1700000000300;
   doc 2 "session-1" "bob" "Alice" 1 1700000000200;
   doc 3 "session-9" "Alice" "bob" 1 1700000000100;
   doc 4 "session-1" "Alice" "bob" 1 1700000000150].

Definition conversation_request : Request :=
  {| authorization := Some "Bearer tok-alice";
     params := {[ "peerUsername" := "bob"; "sessionId" := "session-1" ]};
     body := JUndefined |}.

Example conversation0 :
  get_conversation jwt0 conversation_request collection0
  = {| status := 200;
       json := JArr (safe_message <$>
                       [doc 4 "session-1" "Alice" "bob" 1 1700000000150;
                        doc 2 "session-1" "bob" "Alice" 1 1700000000200;
                        doc 1 "session-1" "Alice" "bob" 2 1700000000300]) |}.
Proof. vm_compute. reflexivity. Qed.

Lemma conversation_is_sorted_selection_witness :
  authenticateToken jwt0 conversation_request = inr {| userId := "u1"; username := "Alice" |}
  ∧ ∃ found,
      get_conversation jwt0 conversation_request collection0
        = {| status := 200; json := JArr (safe_message <$> found) |}
      ∧ found ≡ₚ filter (λ m, doc_sessionId m = "session-1"
                              ∧ ((doc_from m = "Alice" ∧ doc_to m = "bob")
                                 ∨ (doc_from m = "bob" ∧ doc_to m = "Alice")))
                   collection0
      ∧ StronglySorted
          (λ a b, doc_msgSeq a < doc_msgSeq b
                  ∨ (doc_msgSeq a = doc_msgSeq b ∧ doc_timestamp a <= doc_timestamp b))
          found
      ∧ Forall (λ obj, keys obj
                       = ["from"; "to"; "sessionId"; "ciphertext"; "iv"; "msgSeq"; "timestamp"])
          (safe_message <$> found)
      ∧ Forall2 (λ obj m,
                   obj = JObj [("from", JStr (doc_from m)); ("to", JStr (doc_to m));
                               ("sessionId", JStr (doc_sessionId m));
                               ("ciphertext", JStr (doc_ciphertext m));
                               ("iv", JStr (doc_iv m)); ("msgSeq", JNum (doc_msgSeq m));
                               ("timestamp", JNum (doc_timestamp m))])
          (safe_message <$> found) found.
Proof.
  split; [reflexivity |].
  exact (conversation_is_sorted_selection jwt0 conversation_request collection0
           {| userId := "u1"; username := "Alice" |} "bob" "session-1"
           eq_refl eq_refl eq_refl ltac:(discriminate) ltac:(discriminate)).
Defined.

(** *** The dispatcher against the inbox of the server *)

Import Dashboard DashboardClaims.

Definition time0 (_ : Store) : string := "22:13:20".

Definition alice : JwtPayload := {| userId := "u1"; username := "alice" |}.

(** The transport: the two routes of the server, called as [alice]. *)
Definition getInbox0 : Eff Store (list KxMessage) := λ kxMessages,
  (Ok (delivered lower alice kxMessages), (inbox_handler lower alice kxMessages).2).

Definition sendMessage0 (to messageType : string) (payload : JSValue)
    : Eff Store JSValue := λ kxMessages,
  let '(resp, kxMessages') :=
    KxRoutes.send_handler (env_at 1700000000009 "ff") alice
      {| authorization := None; params := ∅;
         body := JObj [("to", JStr to); ("messageType", JStr messageType);
                       ("payload", payload)] |} kxMessages in
  (Ok (json resp), kxMessages').

Definition getPublicKey0 (name : string) : Eff Store JSValue :=
  lift (Ok (JObj [("username", JStr name); ("publicKey", JStr ("spki:" +:+ name))])).

Definition processKeyInit0 (body signature publicKey : JSValue) (self : string)
    : Eff Store JSValue :=
  lift (Ok (JObj [("body", JObj [("sessionId", default JUndefined
                                                (returned (get_prop body "sessionId")))]);
                  ("signature", JStr "cmVzcA");
                  ("sessionContext",
                   JObj [("aesKey", JHandle 8); ("transcriptHash", JStr "dGg");
                         ("nonceA", JStr "bkE"); ("nonceB", JStr "bkI")])])).

(** A key-exchange module that derives a key from every response. *)
Definition processKeyResp_accepting (body signature publicKey initBody initContext : JSValue)
    : Eff Store JSValue :=
  lift (Ok (JObj [("aesKey", JHandle 7);
                  ("sessionId", default JUndefined (returned (get_prop body "sessionId")));
                  ("transcriptHash", JStr "dGg")])).

(** One that refuses a response whose session is not that of the [KEY_INIT]. *)
Definition processKeyResp_checking (body signature publicKey initBody initContext : JSValue)
    : Eff Store JSValue :=
  lift (match get_prop body "sessionId", get_prop initBody "sessionId" with
        | Ok (JStr a), Ok (JStr b) =>
            if decide (a = b)
            then Ok (JObj [("aesKey", JHandle 7); ("sessionId", JStr a);
                           ("transcriptHash", JStr "dGg")])
            else Throw (HostError "Session mismatch")
        | _, _ => Throw (HostError "Session mismatch")
        end).

Definition createKeyConfirm0 (messageType : string) (sessionId : JSValue)
    (self peer : string) (aesKey transcriptHash : JSValue) : Eff Store JSValue :=
  lift (Ok (JObj [("sessionId", sessionId); ("ciphertext", JStr "Y29uZmlybQ")])).

Definition verifyKeyConfirm0 (payload aesKey transcriptHash : JSValue) : Eff Store JSValue :=
  lift (Ok JUndefined).

Definition check0 processKeyResp : string → Eff (Dash Store) () :=
  handleCheckInbox Store time0 getInbox0 sendMessage0 getPublicKey0 processKeyInit0
    processKeyResp createKeyConfirm0 verifyKeyConfirm0.

Definition state_of {A} (r : Outcome A * Dash Store) : Dash Store := r.2.

(** With no context, a [KEY_RESP] leaves the server, costs a line of the
    log, and is not there at the next check, context or not. *)
Example key_resp_without_context :
  let d0 := {| outside := [resp2]; kxContext := None; kxLog := [] |} in
  let d1 := state_of (check0 processKeyResp_checking "alice" d0) in
  d1 = {| outside := []; kxContext := None;
          kxLog := ["22:13:20: Received unrelated KX message of type KEY_RESP"] |}
  ∧ let d1' := {| outside := outside _ d1; kxContext := Some ctx1; kxLog := kxLog _ d1 |} in
    state_of (check0 processKeyResp_checking "alice" d1')
    = {| outside := []; kxContext := Some ctx1;
         kxLog := ["22:13:20: No key-exchange messages in inbox";
                   "22:13:20: Received unrelated KX message of type KEY_RESP"] |}.
Proof. split; reflexivity. Qed.

Definition init_from_carol : KxMessage :=
  {| kx_id := "1700000000000c3"; kx_from := "carol"; kx_to := JStr "alice";
     kx_messageType := JStr "KEY_INIT";
     kx_payload := JObj [("body", JObj [("sessionId", JStr "session-3")]);
                         ("signature", JStr "c2ln")];
     kx_createdAt := "2023-11-14T22:13:21.000Z" |}.

(** With the context of [session-1], the [KEY_RESP] of [session-2] and a
    module that accepts it: the context is now that of [session-2]. *)
Example other_session_accepted :
  let d0 := {| outside := [resp2]; kxContext := Some ctx1; kxLog := [] |} in
  let d1 := state_of (check0 processKeyResp_accepting "alice" d0) in
  (ctx_sessionId <$> kxContext _ d1) = Some (JStr "session-2")
  ∧ (ctx_aesKey <$> kxContext _ d1) = Some (JHandle 7)
  ∧ (λ m, (kx_to m, kx_messageType m)) <$> outside _ d1
    = [(JStr "bob", JStr "KEY_CONFIRM_A")].
Proof. split_and!; reflexivity. Qed.

(** With a module that refuses it: the loop ends there, and the [KEY_INIT]
    of carol, fetched with it, is neither processed nor on the server. *)
Example other_session_refused :
  let d0 := {| outside := [resp2; init_from_carol]; kxContext := Some ctx1; kxLog := [] |} in
  state_of (check0 processKeyResp_checking "alice" d0)
  = {| outside := []; kxContext := Some ctx1;
       kxLog := ["22:13:20: Error checking inbox: Session mismatch";
                 "22:13:20: Received KEY_RESP from bob"] |}.
Proof. reflexivity. Qed.

Lemma unmatched_message_is_skipped_witness :
  unmatched None resp2
  ∧ let d := {| outside := [resp2]; kxContext := None; kxLog := [] |} in
    let handle :=
      handle_message Store time0 sendMessage0 getPublicKey0 processKeyInit0
        processKeyResp_checking createKeyConfirm0 verifyKeyConfirm0 in
    let process :=
      process_messages Store time0 sendMessage0 getPublicKey0 processKeyInit0
        processKeyResp_checking createKeyConfirm0 verifyKeyConfirm0 in
    let skipped (d : Dash Store) : Dash Store :=
      {| outside := outside _ d; kxContext := kxContext _ d;
         kxLog :=
           take 20
             ((time0 (outside _ d)
               +:+ ": " +:+ "Received unrelated KX message of type "
               +:+ js_to_string (kx_messageType resp2)) :: kxLog _ d) |} in
    handle "alice" None resp2 d = (Ok (), skipped d)
    ∧ process "alice" None ([init_from_carol] ++ resp2 :: [init_from_carol]) d
      = match process "alice" None [init_from_carol] d with
        | (Ok _, d1) => process "alice" None [init_from_carol] (skipped d1)
        | (Throw e, d1) => (Throw e, d1)
        end
    ∧ ∃ d', check0 processKeyResp_checking "alice" d = (Ok (), d').
Proof.
  assert (Hun : unmatched None resp2) by (by split_and!).
  split; [exact Hun |].
  exact (unmatched_message_is_skipped Store time0 getInbox0 sendMessage0 getPublicKey0
           processKeyInit0 processKeyResp_checking createKeyConfirm0 verifyKeyConfirm0
           "alice" None [init_from_carol] [init_from_carol] resp2
           {| outside := [resp2]; kxContext := None; kxLog := [] |} Hun).
Defined.

End Runs.


(** ** [services/api.js]: the client of the routers *)

Module Api.
Import KxRoutes MessagesRoutes.

(** The request interceptor: the [Authorization] header it sets where
    [localStorage] holds an [authToken]. *)
Definition request_header (authToken : option string) : option string :=
  match authToken with
  | Some token => if decide (token = "") then None else Some ("Bearer " +:+ token)
  | None => None
  end.

(** What [await api.post(...)] and [await api.get(...)] give for a response:
    the [data] of one in the 200s, and for any other the error axios
    throws. *)
Definition response_data (resp : Response) : Outcome JSValue :=
  if decide (200 <= status resp < 300) then Ok (json resp)
  else
    Throw (HostError ("Request failed with status code " +:+ number_to_string (status resp))).

(** A path segment that the URL does not keep, or that is empty: the path
    built from it is not one of the conversation route. *)
Definition unroutable (segment : string) : Prop :=
  segment = "" ∨ segment = "." ∨ segment = "..".

#[export] Instance unroutable_dec segment : Decision (unroutable segment).
Proof. unfold unroutable. apply _. Defined.


Section Client.
Variable toLowerCase : string → string.
Variable jwt_verify : string → option JwtPayload.
Variable Date_of_value : JSValue → option Z.
(** The answer of the application to a path that no route matches. *)
Variable not_found : Response.



(** [messagesAPI.sendEncrypted] *)
Definition sendEncrypted (authToken : option string) (env : Env) (payload : JSValue)
    : Eff Collection JSValue := λ messages,
  let req := {| authorization := request_header authToken; params := ∅; body := payload |} in
  let '(resp, messages') := post_send jwt_verify Date_of_value env req messages in
  (response_data resp, messages').

(** [messagesAPI.getConversation] *)
Definition getConversation (authToken : option string) (peerUsername sessionId : string)
    : Eff Collection JSValue := λ messages,
  let req :=
    {| authorization := request_header authToken;
       params := {[ "peerUsername" := peerUsername; "sessionId" := sessionId ]};
       body := JUndefined |} in
  let resp :=
    if decide (unroutable peerUsername ∨ unroutable sessionId) then not_found
    else get_conversation jwt_verify req messages in
  (response_data resp, messages).

End Client.
End Api.


(** *** The token on its way from [localStorage] to [req.user] *)

Lemma split_on_no_sep (sep : ascii) (s : string) :
  sep ∉ list_ascii_of_string s → split_on sep s = [s].
Proof.
  induction s as [| c s IH]; cbn [split_on list_ascii_of_string]; [done |].
  rewrite not_elem_of_cons. intros [Hc Hs].
  destruct (decide (c = sep)); [done |]. by rewrite IH.
Qed.

Lemma split_on_app (sep : ascii) (a b : string) :
  sep ∉ list_ascii_of_string a →
  split_on sep (a +:+ String sep b) = a :: split_on sep b.
Proof.
  induction a as [| c a IH]; cbn [list_ascii_of_string].
  - intros _. change ("" +:+ String sep b) with (String sep b). cbn [split_on].
    by destruct (decide (sep = sep)).
  - rewrite not_elem_of_cons. intros [Hc Ha].
    change (String c a +:+ String sep b) with (String c (a +:+ String sep b)).
    cbn [split_on]. destruct (decide (c = sep)); [done |]. by rewrite IH.
Qed.

Module Guard.
Import KxRoutes MessagesRoutes Api.

Section Routes.
Variable toLowerCase : string → string.
Variable jwt_verify : string → option JwtPayload.
Variable Date_of_value : JSValue → option Z.

Lemma authenticateToken_accepts (req : Request) (user : JwtPayload) :
  authenticateToken jwt_verify req = inr user
  ↔ ∃ header token,
      authorization req = Some header ∧ split_on " " header !! 1%nat = Some token
      ∧ token ≠ "" ∧ jwt_verify token = Some user.
Proof.
  unfold authenticateToken. split.
  - destruct (authorization req) as [header |]; [| done].
    destruct (decide (header = "")); [done |].
    destruct (split_on " " header !! 1%nat) as [token |] eqn:Htoken; [| done].
    destruct (decide (token = "")); [done |].
    destruct (jwt_verify token) as [decoded |] eqn:Hverify; [| done].
    intros [= <-]. by exists header, token.
  - intros (header & token & -> & Htoken & Hne & Hverify).
    destruct (decide (header = "")) as [-> | _]; [done |].
    rewrite Htoken. destruct (decide (token = "")); [done |]. by rewrite Hverify.
Qed.

Lemma authenticateToken_refusal (req : Request) (refused : Response) :
  authenticateToken jwt_verify req = inl refused → status refused = 401.
Proof.
  unfold authenticateToken. intros Hauth.
  repeat case_match; by simplify_eq.
Qed.

Lemma bearer_header (token : string) :
  token ≠ "" → " "%char ∉ list_ascii_of_string token →
  ∀ params body,
    authenticateToken jwt_verify
      {| authorization := request_header (Some token); params := params; body := body |}
    = match jwt_verify token with
      | Some user => inr user
      | None => inl {| status := 401; json := error_body "Invalid or expired token" |}
      end.
Proof.
  intros Hne Hspace params body. unfold authenticateToken, request_header.
  cbn [authorization]. rewrite decide_False by done.
  rewrite decide_False by done.
  change ("Bearer " +:+ token) with ("Bearer" +:+ String " " token).
  rewrite split_on_app by (by apply (bool_decide_unpack _)).
  rewrite split_on_no_sep by done. cbn [lookup list_lookup].
  by rewrite decide_False by done.
Qed.

(** X4.  The middleware lets a request through exactly when its
    [Authorization] header has a second word, between the first and the
    second space, that [jwt.verify] accepts; the word before it is not looked
    at.  The user it hands on is the payload of that token.  Every refusal
    is a 401, and on a refusal each of the four routes behind the middleware
    answers with it and leaves the store and the collection as they were. *)
Theorem routes_refuse_without_token (req : Request) :
  (∀ user,
     authenticateToken jwt_verify req = inr user
     ↔ ∃ header token,
         authorization req = Some header ∧ split_on " " header !! 1%nat = Some token
         ∧ token ≠ "" ∧ jwt_verify token = Some user)
  ∧ ∀ refused,
      authenticateToken jwt_verify req = inl refused →
      status refused = 401
      ∧ (∀ route env kxMessages,
           serve toLowerCase jwt_verify route env req kxMessages = (refused, kxMessages))
      ∧ (∀ env messages,
           post_send jwt_verify Date_of_value env req messages = (refused, messages))
      ∧ (∀ messages, get_conversation jwt_verify req messages = refused).
Proof.
  split; [apply authenticateToken_accepts |].
  intros refused Hauth. split_and!.
  - by eapply authenticateToken_refusal.
  - intros route env kxMessages. unfold serve. by rewrite Hauth.
  - intros env messages. unfold post_send. by rewrite Hauth.
  - intros messages. unfold get_conversation. by rewrite Hauth.
Qed.

(** X5.  The header that the request interceptor of the client builds from
    a stored token is read back by the middleware as that token: the
    request goes through as the user [jwt.verify] gives for the token, and
    is refused as invalid or expired where [jwt.verify] throws.  With no
    token stored, or an empty one, no header is set and the answer is the
    401 of a missing header. *)
Theorem stored_token_reaches_verify (token : string) (params : gmap string string)
    (body : JSValue) :
  token ≠ "" → " "%char ∉ list_ascii_of_string token →
  authenticateToken jwt_verify
    {| authorization := request_header (Some token); params := params; body := body |}
  = match jwt_verify token with
    | Some user => inr user
    | None => inl {| status := 401; json := error_body "Invalid or expired token" |}
    end
  ∧ ∀ absent, absent = None ∨ absent = Some "" →
      authenticateToken jwt_verify
        {| authorization := request_header absent; params := params; body := body |}
      = inl {| status := 401; json := error_body "Missing Authorization header" |}.
Proof.
  intros Hne Hspace. split; [by apply bearer_header |].
  by intros absent [-> | ->].
Qed.

End Routes.
End Guard.


(** *** What the inbox keeps, and what it hands over *)

Module KxDelivery.
Import KxRoutes KxInbox Api.



Section Inbox.
Variable toLowerCase : string → string.
Variable jwt_verify : string → option JwtPayload.

#[local] Abbreviation serve := (KxRoutes.serve toLowerCase jwt_verify).
#[local] Abbreviation run := (KxRoutes.run toLowerCase jwt_verify).

(** The message that [POST /kx/send] makes of a request of [user]. *)
Definition sent_by (r : Route * Env * Request) (m : KxMessage) : Prop :=
  r.1.1 = PostSend
  ∧ ∃ user,
      authenticateToken jwt_verify r.2 = inr user
      ∧ kx_from m = username user
      ∧ kx_id m = fresh_id r.1.2 ∧ kx_createdAt m = env_iso r.1.2
      ∧ get_prop (body r.2) "to" = Ok (kx_to m)
      ∧ get_prop (body r.2) "messageType" = Ok (kx_messageType m)
      ∧ get_prop (body r.2) "payload" = Ok (kx_payload m)
      ∧ truthy (kx_to m) = true ∧ truthy (kx_messageType m) = true
      ∧ truthy (kx_payload m) = true.

(** The lowered names under which the fetches of a run were made. *)
Definition fetchers (reqs : list (Route * Env * Request)) : list string :=
  omap (λ r, match r.1.1, authenticateToken jwt_verify r.2 with
             | GetInbox, inr user => Some (toLowerCase (username user))
             | _, _ => None
             end) reqs.

Lemma serve_send (env : Env) (req : Request) (kxMessages : Store) :
  let store' := (serve PostSend env req kxMessages).2 in
  store' = kxMessages
  ∨ ∃ msg, store' = kxMessages ++ [msg] ∧ sent_by (PostSend, env, req) msg.
Proof.
  unfold KxRoutes.serve.
  destruct (authenticateToken jwt_verify req) as [refused | user] eqn:Hauth; [by left |].
  unfold send_handler.
  destruct (get_prop (body req) "to") as [to |] eqn:Hto; cbn; [| by left].
  destruct (get_prop (body req) "messageType") as [messageType |] eqn:Htype; cbn; [| by left].
  destruct (get_prop (body req) "payload") as [payload |] eqn:Hpayload; cbn; [| by left].
  destruct (falsy to || falsy messageType || falsy payload) eqn:Hfalsy; cbn; [by left |].
  apply orb_false_elim in Hfalsy as [[Hf1 Hf2]%orb_false_elim Hf3].
  right. eexists. split; [done |]. unfold sent_by, truthy. cbn.
  split; [done |]. exists user. rewrite Hauth, Hf1, Hf2, Hf3. by split_and!.
Qed.

(** A fetch under distinct ids leaves what is not addressed to the user. *)
Lemma inbox_handler_filter (user : JwtPayload) (kxMessages : Store) :
  NoDup (ids kxMessages) →
  (inbox_handler toLowerCase user kxMessages).2
  = filter (λ m, ¬ addressed_to toLowerCase (toLowerCase (username user)) m) kxMessages.
Proof. intros Hnd. unfold inbox_handler. cbn [snd]. by apply remove_delivered. Qed.

Lemma send_ids_cons (route : Route) (env : Env) (req : Request)
    (rest : list (Route * Env * Request)) :
  send_ids ((route, env, req) :: rest)
  = match route with
    | PostSend => fresh_id env :: send_ids rest
    | GetInbox => send_ids rest
    end.
Proof. by destruct route. Qed.

(** One request keeps the ids of the store, and those still to come,
    distinct. *)
Lemma serve_NoDup (route : Route) (env : Env) (req : Request)
    (rest : list (Route * Env * Request)) (kxMessages : Store) :
  NoDup (ids kxMessages ++ send_ids ((route, env, req) :: rest)) →
  NoDup (ids (serve route env req kxMessages).2 ++ send_ids rest).
Proof.
  rewrite send_ids_cons. intros Hnd. destruct route.
  - destruct (serve_send env req kxMessages) as [-> | (msg & -> & _ & user & _ & _ & Hid & _)].
    + eapply sublist_NoDup; [exact Hnd |]. apply sublist_app; [done | by apply sublist_cons].
    + unfold ids. rewrite fmap_app, <- app_assoc. cbn. by rewrite Hid.
  - unfold KxRoutes.serve.
    destruct (authenticateToken jwt_verify req) as [refused | user]; [done |].
    rewrite inbox_handler_filter by (by apply NoDup_app in Hnd as [? _]).
    eapply sublist_NoDup; [exact Hnd |].
    apply sublist_app; [| done]. apply fmap_sublist, sublist_filter.
Qed.

Lemma run_cons (route : Route) (env : Env) (req : Request)
    (rest : list (Route * Env * Request)) (kxMessages : Store) :
  run ((route, env, req) :: rest) kxMessages
  = let handed :=
      match route, authenticateToken jwt_verify req with
      | GetInbox, inr user => delivered toLowerCase user kxMessages
      | _, _ => []
      end in
    (((serve route env req kxMessages).1, handed)
       :: (run rest (serve route env req kxMessages).2).1,
     (run rest (serve route env req kxMessages).2).2).
Proof.
  cbn [KxRoutes.run]. destruct (serve route env req kxMessages) as [resp store'].
  cbn [fst snd]. by destruct (run rest store').
Qed.

Lemma run_app (l1 l2 : list (Route * Env * Request)) (kxMessages : Store) :
  run (l1 ++ l2) kxMessages
  = ((run l1 kxMessages).1 ++ (run l2 (run l1 kxMessages).2).1,
     (run l2 (run l1 kxMessages).2).2).
Proof.
  revert kxMessages. induction l1 as [| [[route env] req] l1 IH]; intros store.
  - cbn. by destruct (KxRoutes.run _ _ l2 store).
  - rewrite <- app_comm_cons, !run_cons. cbn zeta. by rewrite IH.
Qed.


(** One request keeps a message that it does not hand over. *)
Lemma serve_keeps (route : Route) (env : Env) (req : Request) (kxMessages : Store)
    (m : KxMessage) :
  NoDup (ids kxMessages) → m ∈ kxMessages →
  (∀ u, u ∈ fetchers [(route, env, req)] → ¬ addressed_to toLowerCase u m) →
  m ∈ (serve route env req kxMessages).2.
Proof.
  intros Hnd Hm Hfetch. unfold fetchers in Hfetch. cbn in Hfetch.
  destruct route.
  - destruct (serve_send env req kxMessages) as [-> | (msg & -> & _)]; [done |].
    apply elem_of_app. by left.
  - unfold KxRoutes.serve.
    destruct (authenticateToken jwt_verify req) as [refused | user]; [done |].
    rewrite inbox_handler_filter by done. apply list_elem_of_filter. split; [| done].
    apply Hfetch. cbn. by left.
Qed.

Lemma fetchers_cons (r : Route * Env * Request) (rest : list (Route * Env * Request))
    (u : string) :
  u ∈ fetchers [r] ∨ u ∈ fetchers rest → u ∈ fetchers (r :: rest).
Proof.
  unfold fetchers. cbn.
  destruct (match r.1.1 with PostSend => _ | GetInbox => _ end); cbn.
  - rewrite !elem_of_cons. intros [[-> | ?%elem_of_nil] | ?]; [by left | done | by right].
  - by intros [?%elem_of_nil | ?].
Qed.

End Inbox.
End KxDelivery.


Module KxDeliveryFacts.
Import KxRoutes KxInbox Api KxDelivery Guard.

Section Inbox.
Variable toLowerCase : string → string.
Variable jwt_verify : string → option JwtPayload.

#[local] Abbreviation serve := (KxRoutes.serve toLowerCase jwt_verify).
#[local] Abbreviation run := (KxRoutes.run toLowerCase jwt_verify).
#[local] Abbreviation sent_by := (KxDelivery.sent_by jwt_verify).
#[local] Abbreviation fetchers := (KxDelivery.fetchers toLowerCase jwt_verify).

Lemma serve_elem (route : Route) (env : Env) (req : Request) (kxMessages : Store)
    (m : KxMessage) :
  m ∈ (serve route env req kxMessages).2 →
  m ∈ kxMessages ∨ sent_by (route, env, req) m.
Proof.
  destruct route.
  - destruct (serve_send toLowerCase jwt_verify env req kxMessages)
      as [-> | (msg & -> & Hsent)]; [by left |].
    intros [Hm | ->%list_elem_of_singleton]%elem_of_app; [by left | by right].
  - unfold KxRoutes.serve.
    destruct (authenticateToken jwt_verify req) as [refused | user]; [by left |].
    intros Hm. left. by eapply inbox_handler_store_elem.
Qed.

(** What a run hands over at a step was in the store before that step. *)
Lemma handed_elem (route : Route) (env : Env) (req : Request) (kxMessages : Store)
    (m : KxMessage) :
  m ∈ match route, authenticateToken jwt_verify req with
      | GetInbox, inr user => delivered toLowerCase user kxMessages
      | _, _ => []
      end →
  m ∈ kxMessages
  ∧ ∃ u, u ∈ fetchers [(route, env, req)] ∧ addressed_to toLowerCase u m.
Proof.
  unfold KxDelivery.fetchers. cbn.
  destruct route; [by intros ?%elem_of_nil |].
  destruct (authenticateToken jwt_verify req) as [refused | user]; [by intros ?%elem_of_nil |].
  unfold delivered. intros [Hyes Hm]%list_elem_of_filter. split; [done |].
  eexists. split; [by left | done].
Qed.

(** X6.  The inbox holds and hands over nothing but what was sent through
    the route: along any run of requests, every message that is in the
    store at the end, or was handed over by a fetch, either was in the store
    at the start or was made by a [POST /kx/send] of the run that passed the
    middleware; and then its [from] is the name in the token of that
    request, whatever the body said, its [to], [messageType] and [payload]
    are those of the body, none of them falsy, and its id and date those of
    the request. *)
Theorem handed_messages_were_sent (reqs : list (Route * Env * Request))
    (kxMessages : Store) :
  Forall (λ m, m ∈ kxMessages
               ∨ ∃ r, r ∈ reqs
                      ∧ r.1.1 = PostSend
                      ∧ ∃ user,
                          authenticateToken jwt_verify r.2 = inr user
                          ∧ kx_from m = username user
                          ∧ kx_id m = fresh_id r.1.2 ∧ kx_createdAt m = env_iso r.1.2
                          ∧ get_prop (body r.2) "to" = Ok (kx_to m)
                          ∧ get_prop (body r.2) "messageType" = Ok (kx_messageType m)
                          ∧ get_prop (body r.2) "payload" = Ok (kx_payload m)
                          ∧ truthy (kx_to m) = true ∧ truthy (kx_messageType m) = true
                          ∧ truthy (kx_payload m) = true)
    ((run reqs kxMessages).2 ++ ((run reqs kxMessages).1 ≫= snd)).
Proof.
  change (Forall (λ m, m ∈ kxMessages ∨ ∃ r, r ∈ reqs ∧ sent_by r m)
            ((run reqs kxMessages).2 ++ ((run reqs kxMessages).1 ≫= snd))).
  revert kxMessages. induction reqs as [| [[route env] req] rest IH]; intros store.
  { cbn. rewrite app_nil_r. apply Forall_forall. by left. }
  rewrite run_cons. cbn [fst snd]. rewrite bind_cons. cbn [snd].
  specialize (IH ((serve route env req store).2)).
  rewrite Forall_app in IH. destruct IH as [IHfinal IHhanded].
  assert (Hstep : ∀ m,
    (m ∈ (serve route env req store).2 ∨ ∃ r, r ∈ rest ∧ sent_by r m) →
    m ∈ store ∨ ∃ r, r ∈ (route, env, req) :: rest ∧ sent_by r m).
  { intros m [[Hm | Hm]%serve_elem | (r & Hr & Hm)].
    - by left.
    - right. eexists. split; [by left | done].
    - right. exists r. split; [by right | done]. }
  rewrite !Forall_app. split_and!.
  - eapply Forall_impl; [exact IHfinal | exact Hstep].
  - apply Forall_forall. intros m [Hm _]%(handed_elem route env). by left.
  - eapply Forall_impl; [exact IHhanded | exact Hstep].
Qed.

Lemma run_keeps (reqs : list (Route * Env * Request)) (kxMessages : Store) (m : KxMessage) :
  NoDup (ids kxMessages ++ send_ids reqs) → m ∈ kxMessages →
  (∀ u, u ∈ fetchers reqs → ¬ addressed_to toLowerCase u m) →
  m ∈ (run reqs kxMessages).2 ∧ ∀ r, r ∈ (run reqs kxMessages).1 → m ∉ r.2.
Proof.
  revert kxMessages. induction reqs as [| [[route env] req] rest IH]; intros store Hnd Hm Hfetch.
  { cbn. split; [done |]. by intros r ?%elem_of_nil. }
  rewrite run_cons. cbn [fst snd].
  assert (Hstore : NoDup (ids store)) by (by apply NoDup_app in Hnd as [? _]).
  destruct (IH (serve route env req store).2) as [IHfinal IHhanded].
  - by apply serve_NoDup.
  - apply serve_keeps; [done | done |].
    intros u Hu. apply Hfetch, fetchers_cons. by left.
  - intros u Hu. apply Hfetch, fetchers_cons. by right.
  - split; [done |]. intros r [-> | Hr]%elem_of_cons; [| by apply IHhanded].
    cbn [snd]. intros (_ & u & Hu & Hyes)%(handed_elem route env).
    apply (Hfetch u); [| done]. apply fetchers_cons. by left.
Qed.

(** X7.  A fetch takes nothing away from other users: with distinct ids,
    along any run of requests a message of the store stays in the store,
    and is in no answer, as long as no fetch is made under a name that its
    [to] equals up to case.  So a message whose [to] is no string, which
    [POST /kx/send] accepts, is never handed over and never removed. *)
Theorem unfetched_message_stays (reqs : list (Route * Env * Request))
    (kxMessages : Store) (m : KxMessage) :
  NoDup (ids kxMessages ++ send_ids reqs) → m ∈ kxMessages →
  (∀ to, kx_to m = JStr to → to ≠ "" → toLowerCase to ∉ fetchers reqs) →
  m ∈ (run reqs kxMessages).2 ∧ ∀ r, r ∈ (run reqs kxMessages).1 → m ∉ r.2.
Proof.
  intros Hnd Hm Hto. apply run_keeps; [done | done |].
  intros u Hu. unfold addressed_to.
  destruct (kx_to m) as [| | | | to | | |]; try tauto.
  intros [Hne <-]. by eapply Hto.
Qed.

End Inbox.
End KxDeliveryFacts.


(** *** From [kxAPI.sendMessage] to the [kxAPI.getInbox] of the peer *)

Module KxTransport.
Import KxRoutes KxInbox Api KxDelivery Guard KxDeliveryFacts.

Section Client.
Variable toLowerCase : string → string.
Variable jwt_verify : string → option JwtPayload.

(** [localStorage] holds a token, and the server verifies it as [user]. *)
Definition signed_in (token : string) (user : JwtPayload) : Prop :=
  token ≠ "" ∧ (" "%char ∉ list_ascii_of_string token) ∧ jwt_verify token = Some user.




End Client.
End KxTransport.


(** *** From [messagesAPI.sendEncrypted] to [messagesAPI.getConversation] *)

Module MessagesTransport.
Import MessagesRoutes MessagesClaims Api Guard KxTransport.

Section Client.
Variable jwt_verify : string → option JwtPayload.
Variable Date_of_value : JSValue → option Z.
Variable not_found : Response.

#[local] Abbreviation signed_in := (KxTransport.signed_in jwt_verify).
#[local] Abbreviation sendEncrypted := (Api.sendEncrypted jwt_verify Date_of_value).
#[local] Abbreviation getConversation := (Api.getConversation jwt_verify not_found).

(** The only answer of the send route in the 200s is the 201 of a stored
    document, whose [from] is the name in the token. *)
Lemma send_handler_stored (env : Env) (user : JwtPayload) (req : Request)
    (messages : Collection) :
  let '(resp, messages') := send_handler Date_of_value env user req messages in
  200 <= status resp < 300 →
  resp = {| status := 201; json := JObj [("message", JStr "Encrypted message stored")] |}
  ∧ ∃ doc, messages' = messages ++ [doc] ∧ doc_from doc = username user
           ∧ doc_id doc = env_objectId env
           ∧ (get_prop (body req) "sessionId" ≫= of_option TypeError ∘ castString)
             = Ok (doc_sessionId doc)
           ∧ (get_prop (body req) "to" ≫= of_option TypeError ∘ castString)
             = Ok (doc_to doc)
           ∧ (get_prop (body req) "ciphertext" ≫= of_option TypeError ∘ castString)
             = Ok (doc_ciphertext doc)
           ∧ (get_prop (body req) "iv" ≫= of_option TypeError ∘ castString)
             = Ok (doc_iv doc)
           ∧ get_prop (body req) "msgSeq" = Ok (JNum (doc_msgSeq doc)).
Proof.
  unfold send_handler.
  destruct (get_prop (body req) "sessionId") as [sessionId |] eqn:E1; cbn; [| lia].
  destruct (get_prop (body req) "to") as [to |] eqn:E2; cbn; [| lia].
  destruct (get_prop (body req) "ciphertext") as [ciphertext |] eqn:E3; cbn; [| lia].
  destruct (get_prop (body req) "iv") as [ivText |] eqn:E4; cbn; [| lia].
  destruct (get_prop (body req) "msgSeq") as [msgSeq |] eqn:E5; cbn; [| lia].
  destruct (get_prop (body req) "timestamp") as [timestamp |] eqn:E6; cbn; [| lia].
  destruct (falsy sessionId || falsy to || falsy ciphertext || falsy ivText
            || negb (is_number msgSeq)); cbn; [lia |].
  match goal with |- context [new_document env ?i] => set (input := i) end.
  destruct (new_document env input) as [doc |] eqn:Hdoc; cbn; [| lia].
  intros _. split; [done |]. exists doc.
  unfold new_document in Hdoc. subst input. cbn [in_sessionId in_from in_to
    in_ciphertext in_iv in_msgSeq in_timestamp] in Hdoc.
  destruct (required_string sessionId) as [s1 |] eqn:H1; [| done].
  destruct (required_string (JStr (username user))) as [s0 |] eqn:H0; [| done].
  destruct (required_string to) as [s2 |] eqn:H2; [| done].
  destruct (required_string ciphertext) as [s3 |] eqn:H3; [| done].
  destruct (required_string ivText) as [s4 |] eqn:H4; [| done].
  destruct (required_number msgSeq) as [n |] eqn:H5; [| done].
  cbn [mbind option_bind] in Hdoc.
  destruct (if truthy timestamp then _ else _) as [t |]; [| done].
  cbn [mbind option_bind] in Hdoc. injection Hdoc as <-.
  cbn [doc_from doc_id doc_sessionId doc_to doc_ciphertext doc_iv doc_msgSeq].
  apply required_string_cast in H0, H1, H2, H3, H4. cbn in H0.
  apply required_number_is in H5. subst msgSeq. injection H0 as <-.
  cbn [mbind Outcome_bind compose]. rewrite H1, H2, H3, H4. by split_and!.
Qed.

Lemma getConversation_as (token : string) (user : JwtPayload) (peer sessionId : string)
    (messages : Collection) :
  signed_in token user → ¬ unroutable peer → ¬ unroutable sessionId →
  getConversation (Some token) peer sessionId messages
  = (Ok (JArr (safe_message <$> find_sorted (username user) peer sessionId messages)),
     messages).
Proof.
  intros (Hne & Hspace & Hverify) Hpeer Hsession. unfold Api.getConversation.
  rewrite decide_False by tauto.
  unfold get_conversation. rewrite bearer_header, Hverify by done.
  unfold conversation_handler. cbn [params].
  assert (Hp : ({[ "peerUsername" := peer; "sessionId" := sessionId ]} : gmap string string)
               !! "peerUsername" = Some peer) by (by simplify_map_eq).
  assert (Hs : ({[ "peerUsername" := peer; "sessionId" := sessionId ]} : gmap string string)
               !! "sessionId" = Some sessionId) by (by simplify_map_eq).
  rewrite Hp, Hs.
  rewrite decide_False by (unfold unroutable in *; tauto).
  unfold response_data. cbn [status json]. by rewrite decide_True by lia.
Qed.

Lemma find_sorted_snoc (me peer sessionId : string) (messages : Collection)
    (doc : MessageDoc) :
  (in_conversation me peer sessionId doc →
   find_sorted me peer sessionId (messages ++ [doc])
   ≡ₚ doc :: find_sorted me peer sessionId messages)
  ∧ (¬ in_conversation me peer sessionId doc →
     find_sorted me peer sessionId (messages ++ [doc])
     = find_sorted me peer sessionId messages).
Proof.
  unfold find_sorted. rewrite filter_app, filter_cons, filter_nil. split; intros Hdoc.
  - rewrite decide_True by done. rewrite !merge_sort_Permutation.
    by rewrite Permutation_app_comm.
  - rewrite decide_False by done. by rewrite app_nil_r.
Qed.

Lemma sendEncrypted_as (token : string) (user : JwtPayload) (env : Env)
    (payload : JSValue) (messages : Collection) :
  signed_in token user →
  sendEncrypted (Some token) env payload messages
  = let sent :=
      send_handler Date_of_value env user
        {| authorization := request_header (Some token); params := ∅; body := payload |}
        messages in
    (response_data sent.1, sent.2).
Proof.
  intros (Hne & Hspace & Hverify). unfold Api.sendEncrypted, post_send.
  rewrite bearer_header, Hverify by done. cbn zeta.
  by destruct (send_handler _ _ _ _ _).
Qed.

Lemma response_data_ok (resp : Response) (data : JSValue) :
  response_data resp = Ok data → 200 <= status resp < 300 ∧ data = json resp.
Proof. unfold response_data. destruct (decide _); [| done]. by intros [= <-]. Qed.

(** X9.  What [messagesAPI.sendEncrypted] got stored is what the two sides
    of the conversation get from [messagesAPI.getConversation], and nobody
    else: when the send returns, the collection has one document more, sent
    by the name in the token; and for every signed-in reader, peer and
    session, the conversation route answers after the send with the
    documents it answered with before, and with the new one besides exactly
    when the session is the document's and reader and peer are its sender
    and its recipient, in one order or the other. *)
Theorem stored_message_reaches_both_sides (tokenA : string) (sender : JwtPayload)
    (env : Env) (payload data : JSValue) (messages messages' : Collection) :
  signed_in tokenA sender →
  sendEncrypted (Some tokenA) env payload messages = (Ok data, messages') →
  ∃ doc,
    messages' = messages ++ [doc] ∧ doc_from doc = username sender
    ∧ ∀ token reader peer sessionId,
        signed_in token reader → ¬ unroutable peer → ¬ unroutable sessionId →
        let concerned :=
          doc_sessionId doc = sessionId
          ∧ ((username sender = username reader ∧ doc_to doc = peer)
             ∨ (username sender = peer ∧ doc_to doc = username reader)) in
        ∃ before after,
          getConversation (Some token) peer sessionId messages
            = (Ok (JArr (safe_message <$> before)), messages)
          ∧ getConversation (Some token) peer sessionId messages'
            = (Ok (JArr (safe_message <$> after)), messages')
          ∧ (concerned → after ≡ₚ doc :: before)
          ∧ (¬ concerned → after = before).
Proof.
  intros HA Hsend. rewrite (sendEncrypted_as _ _ _ _ _ HA) in Hsend. cbn zeta in Hsend.
  match type of Hsend with context [send_handler _ _ _ ?r _] => set (req := r) in * end.
  pose proof (send_handler_stored env sender req messages) as Hstored.
  destruct (send_handler Date_of_value env sender req messages) as [resp stored].
  cbn [fst snd] in Hsend. injection Hsend as Hdata <-.
  apply response_data_ok in Hdata as [Hstatus _].
  destruct (Hstored Hstatus) as (_ & doc & -> & Hfrom & _).
  exists doc. split_and!; [done | done |].
  intros token reader peer sessionId Hreader Hpeer Hsession concerned.
  eexists _, _. split_and!.
  - by apply getConversation_as.
  - by apply getConversation_as.
  - intros Hyes. apply find_sorted_snoc. unfold in_conversation. by rewrite Hfrom.
  - intros Hno. apply find_sorted_snoc. unfold in_conversation. by rewrite Hfrom.
Qed.

End Client.
End MessagesTransport.


(** ** [components/Dashboard]: the chat under the session key *)

(** A byte [10xxxxxx] of UTF-8 continues the code point before it. *)
Definition is_continuation (c : ascii) : bool :=
  let n := nat_of_ascii c in (128 <=? n)%nat && (n <? 192)%nat.

(** The code points of a string from its end: those complete so far, and
    the continuation bytes still waiting for their first byte. *)
Fixpoint split_points (s : string) : string * list string :=
  match s with
  | EmptyString => (EmptyString, [])
  | String c rest =>
      let '(pending, done) := split_points rest in
      if is_continuation c then (String c pending, done)
      else (EmptyString, String c pending :: done)
  end.

Definition code_points (s : string) : list string :=
  let '(pending, done) := split_points s in
  if decide (pending = "") then done else pending :: done.

(** [for (const x of v)]: what the loop goes through, for an array the
    items and for a string the code points; another value of this
    development is not iterable. *)
Definition iterate (v : JSValue) : Outcome (list JSValue) :=
  match v with
  | JArr items => Ok items
  | JStr s => Ok (JStr <$> code_points s)
  | _ => Throw TypeError
  end.

Module Chat.
Import Base64 MessageCrypto MessagesRoutes Api.

(** An entry of [chatMessages]; [c_timestamp] is the argument of
    [new Date]. *)
Record ChatEntry : Type := {
  c_from : JSValue;
  c_to : JSValue;
  c_content : JSValue;
  c_timestamp : JSValue;
}.

(** What [decryptMessage] returns for a message that is any value. *)
Record Plain : Type := {
  p_from : JSValue;
  p_to : JSValue;
  p_sessionId : JSValue;
  p_msgSeq : JSValue;
  p_timestamp : JSValue;
  p_content : JSValue;
}.

Definition plain_of (d : Decrypted) : Plain :=
  {| p_from := JStr (d_from d); p_to := JStr (d_to d);
     p_sessionId := JStr (d_sessionId d); p_msgSeq := JNum (d_msgSeq d);
     p_timestamp := d_timestamp d; p_content := d_content d |}.

(** The envelope that a stored document is for [decryptMessage]. *)
Definition envelope_of (doc : MessageDoc) : Envelope :=
  {| m_from := doc_from doc; m_to := doc_to doc; m_sessionId := doc_sessionId doc;
     m_ciphertext := doc_ciphertext doc; m_iv := doc_iv doc;
     m_msgSeq := doc_msgSeq doc; m_timestamp := JNum (doc_timestamp doc) |}.

Section Component.
Context {P : Platform}.
Variable jwt_verify : string → option JwtPayload.
Variable Date_of_value : JSValue → option Z.
Variable not_found : Response.
(** [String.prototype.trim] *)
Variable trim : string → string.
(** [new Date(now).toLocaleTimeString()] *)
Variable toLocaleTimeString : Z → string.

(** What the chat handlers read of [kxContext]: the peer and the session,
    which are strings, and the key once there is one. *)
Record ChatContext : Type := {
  chat_peer : string;
  chat_sessionId : string;
  chat_aesKey : option CryptoKey;
}.

(** [decryptMessage] of [utils/messageCrypto] on a message as the server
    sends it, a value of JSON: [atob] and the template literal take the
    string of what they are given. *)
Definition decryptMessage_value (aesKey : CryptoKey) (message : JSValue) : JS Plain :=
  from ← lift (get_prop message "from");
  to ← lift (get_prop message "to");
  sessionId ← lift (get_prop message "sessionId");
  ciphertext ← lift (get_prop message "ciphertext");
  ivText ← lift (get_prop message "iv");
  msgSeq ← lift (get_prop message "msgSeq");
  timestamp ← lift (get_prop message "timestamp");
  ivBytes ← lift (fromBase64 (js_to_string ivText));
  cipherBytes ← lift (fromBase64 (js_to_string ciphertext));
  let aad :=
    TextEncoder_encode
      (js_to_string sessionId +:+ "|" +:+ js_to_string from +:+ "|" +:+ js_to_string to
       +:+ "|" +:+ js_to_string msgSeq) in
  plaintext ← crypto_subtle_decrypt
    {| name := "AES-GCM"; iv := ivBytes; additionalData := aad |}
    aesKey cipherBytes;
  obj ← lift (of_option SyntaxError (JSON_parse (TextDecoder_decode plaintext)));
  obj_timestamp ← lift (get_prop obj "timestamp");
  obj_content ← lift (get_prop obj "content");
  mret {| p_from := from; p_to := to; p_sessionId := sessionId; p_msgSeq := msgSeq;
          p_timestamp := js_or obj_timestamp timestamp; p_content := obj_content |}.

(** The state the chat handlers run on: the browser's world, the collection
    of the server, and the pieces of React state they write. *)
Record Scene : Type := {
  world : World;
  server : Collection;
  chatMessages : list ChatEntry;
  newMessage : string;
  msgSeq : Z;
  kxLog : list string;
}.

Definition on_world {A} (m : JS A) : Eff Scene A := λ s,
  let '(o, w) := m (world s) in
  (o, {| world := w; server := server s; chatMessages := chatMessages s;
         newMessage := newMessage s; msgSeq := msgSeq s; kxLog := kxLog s |}).

Definition on_server {A} (m : Eff Collection A) : Eff Scene A := λ s,
  let '(o, messages) := m (server s) in
  (o, {| world := world s; server := messages; chatMessages := chatMessages s;
         newMessage := newMessage s; msgSeq := msgSeq s; kxLog := kxLog s |}).

Definition setChatMessages (f : list ChatEntry → list ChatEntry) : Eff Scene () := λ s,
  (Ok (), {| world := world s; server := server s; chatMessages := f (chatMessages s);
             newMessage := newMessage s; msgSeq := msgSeq s; kxLog := kxLog s |}).

Definition setMsgSeq (n : Z) : Eff Scene () := λ s,
  (Ok (), {| world := world s; server := server s; chatMessages := chatMessages s;
             newMessage := newMessage s; msgSeq := n; kxLog := kxLog s |}).

Definition setNewMessage (text : string) : Eff Scene () := λ s,
  (Ok (), {| world := world s; server := server s; chatMessages := chatMessages s;
             newMessage := text; msgSeq := msgSeq s; kxLog := kxLog s |}).

(** [setKxLog((prev) => [`${time}: ${msg}`, ...prev].slice(0, 20))] *)
Definition addLog (msg : string) : Eff Scene () := λ s,
  (Ok (), {| world := world s; server := server s; chatMessages := chatMessages s;
             newMessage := newMessage s; msgSeq := msgSeq s;
             kxLog := take 20 ((toLocaleTimeString (clock (world s)) +:+ ": " +:+ msg)
                               :: kxLog s) |}).

(** [canChat = kxContext && kxContext.aesKey && kxContext.peer] *)
Definition canChat (kxContext : option ChatContext) : option (CryptoKey * ChatContext) :=
  ctx ← kxContext;
  aesKey ← chat_aesKey ctx;
  if decide (chat_peer ctx = "") then None else Some (aesKey, ctx).

(** [handleSendMessage], made in a render that shows [username], the
    [kxContext], the [newMessage] and the [msgSeq] of the state. *)
Definition handleSendMessage (username : string) (authToken : option string)
    (kxContext : option ChatContext) (env : Env) : Eff Scene () := λ s,
  match canChat kxContext with
  | None => (Ok (), s)
  | Some (aesKey, ctx) =>
      let text := trim (newMessage s) in
      if decide (text = "") then (Ok (), s)
      else
        let attempt : Eff Scene () :=
          let peer := chat_peer ctx in
          let sessionId := chat_sessionId ctx in
          let currentSeq := msgSeq s in
          encrypted ← on_world (encryptMessage aesKey sessionId username peer currentSeq text);
          _ ← on_server
                (sendEncrypted jwt_verify Date_of_value authToken env
                   (JObj [("sessionId", JStr sessionId); ("to", JStr peer);
                          ("ciphertext", JStr (e_ciphertext encrypted));
                          ("iv", JStr (e_iv encrypted)); ("msgSeq", JNum currentSeq);
                          ("timestamp", JNum (e_timestamp encrypted))]));
          _ ← setChatMessages
                (λ prev, prev ++ [{| c_from := JStr username; c_to := JStr peer;
                                     c_content := JStr text;
                                     c_timestamp := JNum (e_timestamp encrypted) |}]);
          _ ← setMsgSeq (currentSeq + 1);
          setNewMessage "" in
        match attempt s with
        | (Ok _, s') => (Ok (), s')
        | (Throw error, s') =>
            addLog ("Error sending encrypted message: " +:+ exn_message error) s'
        end
  end.

(** The loop of [handleLoadMessages] with its [try] and [catch]. *)
Fixpoint decrypt_each (aesKey : CryptoKey) (encryptedMessages : list JSValue)
    (decrypted : list ChatEntry) : Eff Scene (list ChatEntry) :=
  match encryptedMessages with
  | [] => mret decrypted
  | msg :: rest => λ s,
      match on_world (decryptMessage_value aesKey msg) s with
      | (Ok plain, s') =>
          decrypt_each aesKey rest
            (decrypted ++ [{| c_from := p_from plain; c_to := p_to plain;
                              c_content := p_content plain;
                              c_timestamp := p_timestamp plain |}]) s'
      | (Throw _, s') =>
          (_ ← addLog "Failed to decrypt one message (possible tampering or wrong key).";
           decrypt_each aesKey rest decrypted) s'
      end
  end.

(** [handleLoadMessages], made in a render that shows the [kxContext]. *)
Definition handleLoadMessages (authToken : option string)
    (kxContext : option ChatContext) : Eff Scene () := λ s,
  match canChat kxContext with
  | None => (Ok (), s)
  | Some (aesKey, ctx) =>
      let attempt : Eff Scene () :=
        let peer := chat_peer ctx in
        let sessionId := chat_sessionId ctx in
        encryptedMessages ← on_server (getConversation jwt_verify not_found authToken
                                         peer sessionId);
        items ← lift (iterate encryptedMessages);
        decrypted ← decrypt_each aesKey items [];
        setChatMessages (λ _, decrypted) in
      match attempt s with
      | (Ok _, s') => (Ok (), s')
      | (Throw error, s') =>
          addLog ("Error loading messages: " +:+ exn_message error) s'
      end
  end.

End Component.
End Chat.


(** *** Facts about the chat handlers *)

Module ChatFacts.
Import Base64 Base64Facts MessageCrypto MessageCryptoFacts MessageCipher MessageCipherClaims.
Import MessagesRoutes MessagesClaims Api Guard KxTransport MessagesTransport Chat.

(** The entry that the loop of [handleLoadMessages] pushes. *)
Definition entry_of (d : Decrypted) : ChatEntry :=
  {| c_from := JStr (d_from d); c_to := JStr (d_to d); c_content := d_content d;
     c_timestamp := d_timestamp d |}.

Definition thrown {A} (o : Outcome A) : option Exn :=
  match o with Ok _ => None | Throw e => Some e end.

Lemma take_cons_take {A} (n : nat) (x : A) (l : list A) :
  take n (x :: take n l) = take n (x :: l).
Proof.
  destruct n as [| n]; [done |]. cbn. f_equal.
  rewrite take_take. f_equal. lia.
Qed.


Section Component.
Context {P : Platform}.
Variable jwt_verify : string → option JwtPayload.
Variable Date_of_value : JSValue → option Z.
Variable not_found : Response.
Variable trim : string → string.
Variable toLocaleTimeString : Z → string.

#[local] Abbreviation signed_in := (KxTransport.signed_in jwt_verify).
#[local] Abbreviation handleSendMessage :=
  (Chat.handleSendMessage jwt_verify Date_of_value trim toLocaleTimeString).
#[local] Abbreviation handleLoadMessages :=
  (Chat.handleLoadMessages jwt_verify not_found toLocaleTimeString).
#[local] Abbreviation decrypt_each := (Chat.decrypt_each toLocaleTimeString).

(** On a message of the conversation route, the two readings of
    [decryptMessage] agree. *)
Lemma decryptMessage_value_safe (aesKey : CryptoKey) (doc : MessageDoc) (w : World) :
  decryptMessage_value aesKey (safe_message doc) w
  = (match (decryptMessage aesKey (envelope_of doc) w).1 with
     | Ok d => Ok (plain_of d)
     | Throw e => Throw e
     end,
     (decryptMessage aesKey (envelope_of doc) w).2).
Proof.
  unfold decryptMessage_value, decryptMessage.
  change (get_prop (safe_message doc) "from") with (Ok (JStr (doc_from doc))).
  change (get_prop (safe_message doc) "to") with (Ok (JStr (doc_to doc))).
  change (get_prop (safe_message doc) "sessionId") with (Ok (JStr (doc_sessionId doc))).
  change (get_prop (safe_message doc) "ciphertext") with (Ok (JStr (doc_ciphertext doc))).
  change (get_prop (safe_message doc) "iv") with (Ok (JStr (doc_iv doc))).
  change (get_prop (safe_message doc) "msgSeq") with (Ok (JNum (doc_msgSeq doc))).
  change (get_prop (safe_message doc) "timestamp") with (Ok (JNum (doc_timestamp doc))).
  cbn [envelope_of m_from m_to m_sessionId m_ciphertext m_iv m_msgSeq m_timestamp].
  js_unfold. cbn [js_to_string].
  destruct (fromBase64 (doc_iv doc)) as [ivBytes |]; [| done].
  destruct (fromBase64 (doc_ciphertext doc)) as [cipherBytes |]; [| done].
  cbn [fst snd]. destruct (subtle_decrypt _ _ _) as [plaintext |]; [| done].
  cbn [of_option]. destruct (JSON_parse _) as [obj |]; [| done].
  cbn [of_option]. destruct (get_prop obj "timestamp"); [| done].
  by destruct (get_prop obj "content").
Qed.

(** The outcomes of the loop are those of its messages one by one. *)
Lemma decryptAll_each (aesKey : CryptoKey) (messages : list Envelope) (w w0 : World) :
  (decryptAll aesKey messages w).1 = (λ msg, (decryptMessage aesKey msg w0).1) <$> messages.
Proof.
  revert w. induction messages as [| msg rest IH]; intros w; [done |].
  cbn [decryptAll]. destruct (decryptMessage aesKey msg w) as [plain w1] eqn:Hd.
  specialize (IH w1). destruct (decryptAll aesKey rest w1) as [plains w2].
  cbn [fst] in *. rewrite fmap_cons, IH. f_equal.
  by rewrite (decryptMessage_world aesKey msg w0 w), Hd.
Qed.

Lemma decryptAll_clock (aesKey : CryptoKey) (messages : list Envelope) (w : World) :
  clock (decryptAll aesKey messages w).2 = clock w.
Proof.
  revert w. induction messages as [| msg rest IH]; intros w; [done |].
  cbn [decryptAll]. pose proof (decryptMessage_keeps aesKey msg w) as [Hclock _].
  destruct (decryptMessage aesKey msg w) as [plain w1].
  specialize (IH w1). destruct (decryptAll aesKey rest w1) as [plains w2].
  cbn [snd] in *. congruence.
Qed.

(** The loop of [handleLoadMessages] on what the conversation route sent. *)
Lemma decrypt_each_safe (aesKey : CryptoKey) (found : list MessageDoc)
    (decrypted : list ChatEntry) (s : Scene) :
  let outcomes := (decryptAll aesKey (envelope_of <$> found) (world s)).1 in
  let line :=
    toLocaleTimeString (clock (world s)) +:+ ": "
    +:+ "Failed to decrypt one message (possible tampering or wrong key)." in
  decrypt_each aesKey (safe_message <$> found) decrypted s
  = (Ok (decrypted ++ omap (λ o, entry_of <$> returned o) outcomes),
     {| world := (decryptAll aesKey (envelope_of <$> found) (world s)).2;
        server := server s; chatMessages := chatMessages s;
        newMessage := newMessage s; msgSeq := msgSeq s;
        kxLog := Nat.iter (length (omap thrown outcomes))
                   (λ log, take 20 (line :: log)) (kxLog s) |}).
Proof.
  revert decrypted s. induction found as [| doc found IH]; intros decrypted s.
  { cbn. rewrite app_nil_r. by destruct s. }
  rewrite !fmap_cons. cbn [Chat.decrypt_each decryptAll]. unfold on_world at 1.
  rewrite decryptMessage_value_safe.
  pose proof (decryptMessage_keeps aesKey (envelope_of doc) (world s)) as [Hclock _].
  destruct (decryptMessage aesKey (envelope_of doc) (world s)) as [[d | e] w1];
    cbn [fst snd] in *.
  - rewrite IH. cbn [world server chatMessages newMessage msgSeq kxLog].
    destruct (decryptAll aesKey (envelope_of <$> found) w1) as [outcomes w2].
    cbn [fst snd omap list_omap returned fmap option_fmap option_map thrown].
    rewrite Hclock. unfold entry_of, plain_of.
    cbn [p_from p_to p_content p_timestamp]. by rewrite <- app_assoc.
  - unfold mbind, Eff_bind, addLog. rewrite IH.
    cbn [world server chatMessages newMessage msgSeq kxLog].
    destruct (decryptAll aesKey (envelope_of <$> found) w1) as [outcomes w2].
    cbn [fst snd omap list_omap returned fmap option_fmap option_map thrown length].
    rewrite Hclock. by rewrite Nat.iter_succ_r.
Qed.

(** What [handleLoadMessages] does for a signed-in user who can chat. *)
Lemma handleLoadMessages_run (token : string) (user : JwtPayload)
    (kxContext : option ChatContext) (aesKey : CryptoKey) (ctx : ChatContext) (s : Scene) :
  canChat kxContext = Some (aesKey, ctx) → signed_in token user →
  ¬ unroutable (chat_peer ctx) → ¬ unroutable (chat_sessionId ctx) →
  let found :=
    find_sorted (username user) (chat_peer ctx) (chat_sessionId ctx) (server s) in
  let outcomes := (decryptAll aesKey (envelope_of <$> found) (world s)).1 in
  let line :=
    toLocaleTimeString (clock (world s)) +:+ ": "
    +:+ "Failed to decrypt one message (possible tampering or wrong key)." in
  handleLoadMessages (Some token) kxContext s
  = (Ok (),
     {| world := (decryptAll aesKey (envelope_of <$> found) (world s)).2;
        server := server s;
        chatMessages := omap (λ o, entry_of <$> returned o) outcomes;
        newMessage := newMessage s; msgSeq := msgSeq s;
        kxLog := Nat.iter (length (omap thrown outcomes))
                   (λ log, take 20 (line :: log)) (kxLog s) |}).
Proof.
  intros Hcan Htoken Hpeer Hsession found outcomes line.
  unfold Chat.handleLoadMessages. rewrite Hcan.
  unfold mbind, Eff_bind, on_server.
  rewrite (getConversation_as jwt_verify not_found token user _ _ _ Htoken Hpeer Hsession).
  cbn [lift iterate]. fold found.
  rewrite decrypt_each_safe. cbn [world server chatMessages newMessage msgSeq kxLog].
  unfold setChatMessages. cbn [world server chatMessages newMessage msgSeq kxLog].
  by rewrite app_nil_l.
Qed.






End Component.
End ChatFacts.


(** *** What the chat handlers do *)

Module ChatProperties.
Import Base64 Base64Facts MessageCrypto MessageCryptoFacts MessageCipher MessageCipherClaims.
Import MessagesRoutes MessagesClaims Api Guard KxTransport MessagesTransport Chat ChatFacts.

Section Component.
Context {P : Platform}.
Variable jwt_verify : string → option JwtPayload.
Variable Date_of_value : JSValue → option Z.
Variable not_found : Response.
Variable trim : string → string.
Variable toLocaleTimeString : Z → string.

#[local] Abbreviation signed_in := (KxTransport.signed_in jwt_verify).
#[local] Abbreviation handleSendMessage :=
  (Chat.handleSendMessage jwt_verify Date_of_value trim toLocaleTimeString).
#[local] Abbreviation handleLoadMessages :=
  (Chat.handleLoadMessages jwt_verify not_found toLocaleTimeString).

(** X10.  For a signed-in user who can chat, [handleLoadMessages] returns
    and the chat then shows, in the order of the conversation route, exactly
    the stored messages of the conversation that [decryptMessage] accepts
    under the key of the context, each with the [from] and [to] of its
    envelope and the decrypted content; what was shown before is replaced.
    Every message that is rejected is left out and costs one line of the
    log, which stays within twenty lines; the server, the input and
    [msgSeq] are as they were.  Loading again shows the same chat. *)
Theorem loaded_chat_is_what_decrypts (token : string) (user : JwtPayload)
    (kxContext : option ChatContext) (aesKey : CryptoKey) (ctx : ChatContext) (s : Scene) :
  canChat kxContext = Some (aesKey, ctx) → signed_in token user →
  ¬ unroutable (chat_peer ctx) → ¬ unroutable (chat_sessionId ctx) →
  let found :=
    find_sorted (username user) (chat_peer ctx) (chat_sessionId ctx) (server s) in
  let outcomes := (λ doc, (decryptMessage aesKey (envelope_of doc) (world s)).1) <$> found in
  let line :=
    toLocaleTimeString (clock (world s)) +:+ ": "
    +:+ "Failed to decrypt one message (possible tampering or wrong key)." in
  ∃ s',
    handleLoadMessages (Some token) kxContext s = (Ok (), s')
    ∧ chatMessages s'
      = omap (λ o, (λ d, {| c_from := JStr (d_from d); c_to := JStr (d_to d);
                            c_content := d_content d; c_timestamp := d_timestamp d |})
                   <$> returned o) outcomes
    ∧ kxLog s'
      = Nat.iter (length (omap thrown outcomes)) (λ log, take 20 (line :: log)) (kxLog s)
    ∧ server s' = server s ∧ newMessage s' = newMessage s ∧ msgSeq s' = msgSeq s
    ∧ chatMessages (handleLoadMessages (Some token) kxContext s').2 = chatMessages s'.
Proof.
  intros Hcan Htoken Hpeer Hsession found outcomes line.
  eexists. split; [by apply handleLoadMessages_run |].
  cbn [world server chatMessages newMessage msgSeq kxLog]. fold found.
  rewrite (decryptAll_each aesKey _ _ (world s)), <- list_fmap_compose.
  split_and!; try done.
  rewrite (handleLoadMessages_run _ _ _ token user kxContext aesKey ctx) by done.
  cbn [snd world server chatMessages]. fold found.
  by rewrite (decryptAll_each aesKey _ _ (world s)), <- list_fmap_compose.
Qed.




Section WithLaws.
Context {L : PlatformLaws P}.


End WithLaws.
End Component.
End ChatProperties.


(** ** [components/Dashboard]: starting a key exchange, and the log *)

Module DashboardStart.
Import KxRoutes Dashboard.

Section Component.
Variable Outside : Type.
Variable toLocaleTimeString : Outside → string.
Variable sendMessage : string → string → JSValue → Eff Outside JSValue.
(** [createKeyInit] of [utils/keyExchange] *)
Variable createKeyInit : string → string → Eff Outside JSValue.

#[local] Abbreviation Dash := (Dashboard.Dash Outside).
#[local] Abbreviation addLog := (Dashboard.addLog Outside toLocaleTimeString).
#[local] Abbreviation call := (Dashboard.call Outside).
#[local] Abbreviation setKxContext := (Dashboard.setKxContext Outside).

(** The context of an initiator who has sent, or is about to send, the
    [KEY_INIT] made of [body]. *)
Definition initiator_context (peerUsername : string) (body context sessionId : JSValue)
    : KxContext :=
  {| ctx_role := "initiator"; ctx_peer := peerUsername; ctx_keyInitBody := body;
     ctx_initContext := context; ctx_sessionId := sessionId;
     ctx_aesKey := JNull; ctx_transcriptHash := JNull;
     ctx_nonceA := JUndefined; ctx_nonceB := JUndefined |}.

(** [handleStartKeyExchange], made in a render that shows [username] and
    the [peerUsername] of the input. *)
Definition handleStartKeyExchange (username peerUsername : string) : Eff Dash () := λ d,
  if decide (peerUsername = "") then addLog "Please enter peer username" d
  else
    let attempt : Eff Dash () :=
      _ ← addLog ("Starting key exchange with " +:+ peerUsername +:+ " as initiator");
      init ← call (createKeyInit username peerUsername);
      body ← lift (get_prop init "body");
      signature ← lift (get_prop init "signature");
      context ← lift (get_prop init "context");
      sessionId ← lift (get_prop body "sessionId");
      _ ← setKxContext (initiator_context peerUsername body context sessionId);
      _ ← call (sendMessage peerUsername "KEY_INIT"
                  (JObj [("body", body); ("signature", signature)]));
      addLog "KEY_INIT sent to server" in
    match attempt d with
    | (Ok _, d') => (Ok (), d')
    | (Throw error, d') => addLog ("Error starting key exchange: " +:+ exn_message error) d'
    end.

End Component.
End DashboardStart.


(** *** The log stays within twenty lines *)

Module DashboardLog.
Import KxRoutes Dashboard DashboardStart.

Section Component.
Variable Outside : Type.
Variable toLocaleTimeString : Outside → string.
Variable getInbox : Eff Outside (list KxMessage).
Variable sendMessage : string → string → JSValue → Eff Outside JSValue.
Variable getPublicKey : string → Eff Outside JSValue.
Variable createKeyInit : string → string → Eff Outside JSValue.
Variable processKeyInitAndCreateResp :
  JSValue → JSValue → JSValue → string → Eff Outside JSValue.
Variable processKeyRespAndDeriveKey :
  JSValue → JSValue → JSValue → JSValue → JSValue → Eff Outside JSValue.
Variable createKeyConfirm :
  string → JSValue → string → string → JSValue → JSValue → Eff Outside JSValue.
Variable decryptAndVerifyKeyConfirm : JSValue → JSValue → JSValue → Eff Outside JSValue.

#[local] Abbreviation Dash := (Dashboard.Dash Outside).
#[local] Abbreviation addLog := (Dashboard.addLog Outside toLocaleTimeString).
#[local] Abbreviation call := (Dashboard.call Outside).
#[local] Abbreviation setKxContext := (Dashboard.setKxContext Outside).
#[local] Abbreviation kxLog := (Dashboard.kxLog Outside).
#[local] Abbreviation kxContext := (Dashboard.kxContext Outside).
#[local] Abbreviation outside := (Dashboard.outside Outside).
#[local] Abbreviation handle := (handle_message Outside toLocaleTimeString sendMessage
  getPublicKey processKeyInitAndCreateResp processKeyRespAndDeriveKey createKeyConfirm
  decryptAndVerifyKeyConfirm).
#[local] Abbreviation process := (process_messages Outside toLocaleTimeString sendMessage
  getPublicKey processKeyInitAndCreateResp processKeyRespAndDeriveKey createKeyConfirm
  decryptAndVerifyKeyConfirm).
#[local] Abbreviation check := (handleCheckInbox Outside toLocaleTimeString getInbox
  sendMessage getPublicKey processKeyInitAndCreateResp processKeyRespAndDeriveKey
  createKeyConfirm decryptAndVerifyKeyConfirm).
#[local] Abbreviation start :=
  (handleStartKeyExchange Outside toLocaleTimeString sendMessage createKeyInit).

(** A computation that, from a log within twenty lines, leaves one. *)
Definition bounded {A} (m : Eff Dash A) : Prop :=
  ∀ d, (length (kxLog d) ≤ 20)%nat → (length (kxLog (m d).2) ≤ 20)%nat.

Lemma bounded_bind {A B} (m : Eff Dash A) (f : A → Eff Dash B) :
  bounded m → (∀ a, bounded (f a)) → bounded (m ≫= f).
Proof.
  intros Hm Hf d Hd. unfold mbind, Eff_bind. specialize (Hm d Hd).
  destruct (m d) as [[a | e] d1]; [| done]. by apply Hf.
Qed.

Lemma bounded_lift {A} (o : Outcome A) : bounded (lift o).
Proof. by intros d Hd. Qed.

Lemma bounded_ret {A} (a : A) : bounded (mret a).
Proof. by intros d Hd. Qed.

Lemma bounded_call {A} (m : Eff Outside A) : bounded (call m).
Proof. intros d Hd. unfold Dashboard.call. by destruct (m (outside d)). Qed.

Lemma bounded_setKxContext (c : KxContext) : bounded (setKxContext c).
Proof. by intros d Hd. Qed.

Lemma bounded_addLog (msg : string) : bounded (addLog msg).
Proof. intros d _. cbn. rewrite length_take. lia. Qed.

Lemma bounded_catch (attempt : Eff Dash ()) (report : Exn → string) :
  bounded attempt →
  bounded (λ d, match attempt d with
                | (Ok _, d') => (Ok (), d')
                | (Throw error, d') => addLog (report error) d'
                end).
Proof.
  intros Hm d Hd. specialize (Hm d Hd).
  destruct (attempt d) as [[[] | e] d1]; [done |]. by apply bounded_addLog.
Qed.

Ltac bounded_steps :=
  repeat first
    [ apply bounded_addLog | apply bounded_call | apply bounded_lift
    | apply bounded_setKxContext | apply bounded_ret
    | apply bounded_bind; [| intros ?] ].

Lemma bounded_handle (username : string) (captured : option KxContext) (msg : KxMessage) :
  bounded (handle username captured msg).
Proof.
  unfold handle_message, handle_key_init, handle_key_resp, handle_key_confirm_a,
    handle_key_confirm_b, handle_unrelated.
  repeat case_match; bounded_steps.
Qed.

Lemma bounded_process (username : string) (captured : option KxContext)
    (messages : list KxMessage) :
  bounded (process username captured messages).
Proof.
  induction messages as [| msg rest IH]; cbn [process_messages]; [apply bounded_ret |].
  apply bounded_bind; [apply bounded_handle | done].
Qed.

(** X13.  [handleStartKeyExchange] never throws.  With no peer name it
    writes a line of the log and nothing else.  Otherwise it calls
    [createKeyInit]; when that throws, or returns something without a body,
    the context is as it was; when it returns, the context is replaced by
    the initiator's for that peer, with no key yet, before the [KEY_INIT] is
    sent, and stays so whether the send returns or throws. *)
Theorem start_sets_context_before_sending (username peerUsername : string) (d : Dash) :
  let '(result, d') := start username peerUsername d in
  result = Ok ()
  ∧ (peerUsername = "" → outside d' = outside d ∧ kxContext d' = kxContext d)
  ∧ (peerUsername ≠ "" →
     let '(made, o1) := createKeyInit username peerUsername (outside d) in
     match
       init ← made;
       body ← get_prop init "body";
       signature ← get_prop init "signature";
       context ← get_prop init "context";
       sessionId ← get_prop body "sessionId";
       mret (body, signature, context, sessionId)
     with
     | Throw _ => kxContext d' = kxContext d ∧ outside d' = o1
     | Ok (body, signature, context, sessionId) =>
         kxContext d' = Some (initiator_context peerUsername body context sessionId)
         ∧ ctx_aesKey <$> kxContext d' = Some JNull
         ∧ outside d'
           = (sendMessage peerUsername "KEY_INIT"
                (JObj [("body", body); ("signature", signature)]) o1).2
     end).
Proof.
  unfold handleStartKeyExchange.
  destruct (decide (peerUsername = "")) as [-> | Hpeer].
  { cbn. by split_and!. }
  unfold mbind at 1 2, Eff_bind at 1 2, Dashboard.addLog at 1, Dashboard.call at 1.
  cbn [Dashboard.outside Dashboard.kxContext Dashboard.kxLog].
  destruct (createKeyInit username peerUsername (outside d)) as [[init | e] o1];
    [| cbn; by split_and!].
  cbn [mbind Outcome_bind]. unfold mbind at 1, Eff_bind at 1, lift at 1.
  destruct (get_prop init "body") as [body | e]; [| cbn; by split_and!].
  cbn [mbind Outcome_bind]. unfold mbind at 1, Eff_bind at 1, lift at 1.
  destruct (get_prop init "signature") as [signature | e]; [| cbn; by split_and!].
  cbn [mbind Outcome_bind]. unfold mbind at 1, Eff_bind at 1, lift at 1.
  destruct (get_prop init "context") as [context | e]; [| cbn; by split_and!].
  cbn [mbind Outcome_bind]. unfold mbind at 1, Eff_bind at 1, lift at 1.
  destruct (get_prop body "sessionId") as [sessionId | e]; [| cbn; by split_and!].
  cbn [mbind Outcome_bind mret Outcome_ret].
  unfold mbind, Eff_bind, Dashboard.setKxContext, Dashboard.call, Dashboard.addLog.
  cbn [Dashboard.outside Dashboard.kxContext Dashboard.kxLog].
  destruct (sendMessage peerUsername "KEY_INIT" _ o1) as [[sent | e] o2]; cbn; by split_and!.
Qed.

(** X14.  The log never grows beyond twenty lines: from a log within
    twenty lines, [handleCheckInbox] and [handleStartKeyExchange] leave one,
    whatever the inbox holds and whatever the server and the key-exchange
    module do. *)
Theorem log_stays_within_twenty_lines (username peerUsername : string) (d : Dash) :
  (length (kxLog d) ≤ 20)%nat →
  (length (kxLog (check username d).2) ≤ 20)%nat
  ∧ (length (kxLog (start username peerUsername d).2) ≤ 20)%nat.
Proof.
  intros Hd. split.
  - unfold handleCheckInbox.
    match goal with |- context [match ?a d with _ => _ end] => set (attempt := a) end.
    assert (Hattempt : bounded attempt).
    { subst attempt. apply bounded_bind; [apply bounded_call |].
      intros [| msg rest]; [apply bounded_addLog | apply bounded_process]. }
    by apply (bounded_catch attempt (λ e, "Error checking inbox: " +:+ exn_message e)).
  - unfold handleStartKeyExchange.
    destruct (decide (peerUsername = "")); [by apply bounded_addLog |].
    match goal with |- context [match ?a d with _ => _ end] => set (attempt := a) end.
    assert (Hattempt : bounded attempt) by (subst attempt; bounded_steps).
    by apply (bounded_catch attempt (λ e, "Error starting key exchange: " +:+ exn_message e)).
Qed.

End Component.
End DashboardLog.


(** ** The client and the server together, on concrete data *)

Module TransportRuns.
Import KxRoutes KxInbox Api Guard KxDelivery KxDeliveryFacts KxTransport.
Import MessagesRoutes MessagesTransport Runs.

Definition payload_of (u : string) : JwtPayload :=
  if decide (u = "Alice") then {| userId := "u1"; username := "Alice" |}
  else {| userId := "u2"; username := "bob" |}.

Lemma alice_signed_in : signed_in jwt0 "tok-alice" (payload_of "Alice").
Proof. split_and!; [done | by apply (bool_decide_unpack _) | done]. Qed.


Lemma stored_token_reaches_verify_witness :
  authenticateToken jwt0
    {| authorization := request_header (Some "tok-alice"); params := ∅;
       body := JUndefined |}
  = match jwt0 "tok-alice" with
    | Some user => inr user
    | None => inl {| status := 401; json := error_body "Invalid or expired token" |}
    end
  ∧ ∀ absent, absent = None ∨ absent = Some "" →
      authenticateToken jwt0
        {| authorization := request_header absent; params := ∅; body := JUndefined |}
      = inl {| status := 401; json := error_body "Missing Authorization header" |}.
Proof.
  exact (stored_token_reaches_verify jwt0 "tok-alice" ∅ JUndefined
           ltac:(discriminate) ltac:(by apply (bool_decide_unpack _))).
Defined.

(** A scheme other than [Bearer] goes through, a token that holds a space
    is cut at it. *)
Example any_scheme_goes_through :
  authenticateToken jwt0
    {| authorization := Some "Basic tok-alice"; params := ∅; body := JUndefined |}
  = inr {| userId := "u1"; username := "Alice" |}
  ∧ authenticateToken jwt0
      {| authorization := request_header (Some "tok-alice and more"); params := ∅;
         body := JUndefined |}
    = inr {| userId := "u1"; username := "Alice" |}.
Proof. split; reflexivity. Qed.

(** A message whose [to] is a number: the send route takes it. *)
Definition to_a_number : JSValue :=
  JObj [("to", JNum 5); ("messageType", JStr "KEY_INIT"); ("payload", JStr "x")].

Definition stuck : KxMessage :=
  {| kx_id := "1699999999999ee"; kx_from := "bob"; kx_to := JNum 5;
     kx_messageType := JStr "KEY_INIT"; kx_payload := JStr "x";
     kx_createdAt := "2023-11-14T22:13:20.000Z" |}.

Example number_recipient_is_taken :
  serve lower jwt0 PostSend (env_at 1699999999999 "ee") (as_bob to_a_number) []
  = ({| status := 200;
        json := JObj [("message", JStr "Message sent"); ("id", JStr "1699999999999ee")] |},
     [stuck]).
Proof. reflexivity. Qed.

Lemma unfetched_message_stays_witness :
  NoDup (ids (stuck :: store0) ++ send_ids reqs0)
  ∧ stuck ∈ (run lower jwt0 reqs0 (stuck :: store0)).2
  ∧ ∀ r, r ∈ (run lower jwt0 reqs0 (stuck :: store0)).1 → stuck ∉ r.2.
Proof.
  assert (Hnd : NoDup (ids (stuck :: store0) ++ send_ids reqs0))
    by (by apply (bool_decide_unpack _)).
  split; [exact Hnd |].
  exact (unfetched_message_stays lower jwt0 reqs0 (stuck :: store0) stuck Hnd
           ltac:(by left) ltac:(discriminate)).
Defined.



Definition not_found0 : Response := {| status := 404; json := JStr "Not Found" |}.

Lemma stored_message_reaches_both_sides_witness :
  ∃ doc,
    (post_send jwt0 date0 (env_at 1700000000005 "f6") forged collection0).2
    = collection0 ++ [doc]
    ∧ doc_from doc = "Alice"
    ∧ ∀ token reader peer sessionId,
        signed_in jwt0 token reader → ¬ unroutable peer → ¬ unroutable sessionId →
        let concerned :=
          doc_sessionId doc = sessionId
          ∧ (("Alice" = username reader ∧ doc_to doc = peer)
             ∨ ("Alice" = peer ∧ doc_to doc = username reader)) in
        ∃ before after,
          getConversation jwt0 not_found0 (Some token) peer sessionId collection0
            = (Ok (JArr (safe_message <$> before)), collection0)
          ∧ getConversation jwt0 not_found0 (Some token) peer sessionId
              (post_send jwt0 date0 (env_at 1700000000005 "f6") forged collection0).2
            = (Ok (JArr (safe_message <$> after)),
               (post_send jwt0 date0 (env_at 1700000000005 "f6") forged collection0).2)
          ∧ (concerned → after ≡ₚ doc :: before)
          ∧ (¬ concerned → after = before).
Proof.
  exact (stored_message_reaches_both_sides jwt0 date0 not_found0 "tok-alice"
           (payload_of "Alice") (env_at 1700000000005 "f6") (body forged)
           (JObj [("message", JStr "Encrypted message stored")]) collection0
           (post_send jwt0 date0 (env_at 1700000000005 "f6") forged collection0).2
           alice_signed_in eq_refl).
Defined.

End TransportRuns.


(** ** The chat on the model platform *)

Module ChatRuns.
Import Base64 MessageCrypto MessageCryptoFacts MessageCipherRuns.
Import ModelPlatform ModelPlatformFacts.
Import MessagesRoutes Api KxTransport Chat ChatFacts ChatProperties.
Import Runs TransportRuns.

(** [trim] on the spaces of ASCII. *)
Fixpoint drop_spaces (l : list ascii) : list ascii :=
  match l with
  | c :: rest => if decide (c = " "%char) then drop_spaces rest else l
  | [] => []
  end.

Definition trim0 (s : string) : string :=
  string_of_list_ascii (rev (drop_spaces (rev (drop_spaces (list_ascii_of_string s))))).

Definition clock0 (now : Z) : string := "22:13:20".

(** A verifier for two users whose names are in lower case. *)
Definition jwt1 (token : string) : option JwtPayload :=
  if decide (token = "tok-a") then Some {| userId := "u1"; username := "alice" |}
  else if decide (token = "tok-b") then Some {| userId := "u2"; username := "bob" |}
  else None.

Definition bob1 : JwtPayload := {| userId := "u2"; username := "bob" |}.


Lemma bob1_signed_in : signed_in jwt1 "tok-b" bob1.
Proof. split_and!; [done | by apply (bool_decide_unpack _) | done]. Qed.


Definition context_with (peer : string) : option (ChatContext (P := model)) :=
  Some {| chat_peer := peer; chat_sessionId := "s1"; chat_aesKey := Some key0 |}.

(** Alice's browser, with a message typed in, and an empty server. *)
Definition alice_scene : Scene :=
  {| world := world0; server := []; chatMessages := []; newMessage := "  hello ";
     msgSeq := 1; kxLog := [] |}.

Definition sent_scene : Scene :=
  (handleSendMessage jwt1 date0 trim0 clock0 "alice" (Some "tok-a") (context_with "bob")
     (env_at 1700000000005 "f6") alice_scene).2.

Example alice_sends :
  doc_ciphertext <$> server sent_scene = [e_ciphertext sealed_hello]
  ∧ chatMessages sent_scene
    = [{| c_from := JStr "alice"; c_to := JStr "bob"; c_content := JStr "hello";
          c_timestamp := JNum 1700000000000 |}]
  ∧ msgSeq sent_scene = 2 ∧ newMessage sent_scene = "" ∧ kxLog sent_scene = [].
Proof. vm_compute. by split_and!. Qed.

(** Without a token the server refuses: the number is not used up. *)
Example alice_sends_signed_out :
  let s :=
    (handleSendMessage jwt1 date0 trim0 clock0 "alice" None (context_with "bob")
       (env_at 1700000000005 "f6") alice_scene).2 in
  server s = [] ∧ chatMessages s = [] ∧ msgSeq s = 1 ∧ newMessage s = "  hello "
  ∧ kxLog s
    = ["22:13:20: Error sending encrypted message: Request failed with status code 401"].
Proof. vm_compute. by split_and!. Qed.

(** Bob's browser, looking at the server Alice sent to, where a copy of
    the message under another sequence number was stored besides. *)
Definition bob_scene : Scene :=
  {| world := world0;
     server :=
       server sent_scene
       ++ [{| doc_id := "6553f1a0g7"; doc_sessionId := "s1"; doc_from := "alice";
              doc_to := "bob"; doc_ciphertext := e_ciphertext sealed_hello;
              doc_iv := e_iv sealed_hello; doc_msgSeq := 2;
              doc_timestamp := 1700000000001; doc_createdAt := 1700000000001;
              doc_updatedAt := 1700000000001; doc_v := 0 |}];
     chatMessages := []; newMessage := ""; msgSeq := 1; kxLog := [] |}.

Example bob_loads :
  let s := (handleLoadMessages jwt1 not_found0 clock0 (Some "tok-b")
              (context_with "alice") bob_scene).2 in
  chatMessages s
  = [{| c_from := JStr "alice"; c_to := JStr "bob"; c_content := JStr "hello";
        c_timestamp := JNum 1700000000000 |}]
  ∧ kxLog s
    = ["22:13:20: Failed to decrypt one message (possible tampering or wrong key)."].
Proof. vm_compute. by split_and!. Qed.

Lemma loaded_chat_is_what_decrypts_witness :
  let found := find_sorted "bob" "alice" "s1" (server bob_scene) in
  let outcomes :=
    (λ doc, (decryptMessage (P := model) key0 (envelope_of doc) world0).1) <$> found in
  let line :=
    "22:13:20" +:+ ": "
    +:+ "Failed to decrypt one message (possible tampering or wrong key)." in
  ∃ s',
    handleLoadMessages jwt1 not_found0 clock0 (Some "tok-b") (context_with "alice")
      bob_scene = (Ok (), s')
    ∧ chatMessages s'
      = omap (λ o, (λ d, {| c_from := JStr (d_from d); c_to := JStr (d_to d);
                            c_content := d_content d; c_timestamp := d_timestamp d |})
                   <$> returned o) outcomes
    ∧ kxLog s'
      = Nat.iter (length (omap thrown outcomes)) (λ log, take 20 (line :: log)) []
    ∧ server s' = server bob_scene ∧ newMessage s' = "" ∧ msgSeq s' = 1
    ∧ chatMessages (handleLoadMessages jwt1 not_found0 clock0 (Some "tok-b")
                      (context_with "alice") s').2
      = chatMessages s'.
Proof.
  exact (loaded_chat_is_what_decrypts (P := model) jwt1 not_found0 clock0 "tok-b" bob1
           (context_with "alice") key0
           {| chat_peer := "alice"; chat_sessionId := "s1"; chat_aesKey := Some key0 |}
           bob_scene eq_refl bob1_signed_in
           ltac:(by apply (bool_decide_unpack _)) ltac:(by apply (bool_decide_unpack _))).
Defined.


End ChatRuns.


(** ** Starting a key exchange against the inbox of the server *)

Module StartRuns.
Import KxRoutes KxInbox Dashboard DashboardClaims DashboardStart DashboardLog Runs.

(** A key-exchange module whose [createKeyInit] makes the [KEY_INIT] of
    [session-1]. *)
Definition createKeyInit0 (self peer : string) : Eff Store JSValue :=
  lift (Ok (JObj [("body", JObj [("sessionId", JStr "session-1"); ("from", JStr self);
                                 ("to", JStr peer)]);
                  ("signature", JStr "c2ln"); ("context", JHandle 1)])).

(** A transport that is down. *)
Definition sendMessage_down (to messageType : string) (payload : JSValue)
    : Eff Store JSValue :=
  lift (Throw (HostError "Network Error")).

Definition start0 sendMessage : string → string → Eff (Dash Store) () :=
  handleStartKeyExchange Store time0 sendMessage createKeyInit0.

(** Alice starts with bob: the context is [ctx1], and the [KEY_INIT] is
    in the store of the server, from [alice] to [bob]. *)
Example alice_starts :
  let d := state_of (start0 sendMessage0 "alice" "bob"
                       {| outside := []; kxContext := None; kxLog := [] |}) in
  kxContext _ d = Some ctx1
  ∧ (λ m, (kx_from m, kx_to m, kx_messageType m)) <$> outside _ d
    = [("alice", JStr "bob", JStr "KEY_INIT")]
  ∧ kxLog _ d = ["22:13:20: KEY_INIT sent to server";
                 "22:13:20: Starting key exchange with bob as initiator"].
Proof. split_and!; reflexivity. Qed.

(** With the transport down, the context is replaced all the same. *)
Example alice_starts_offline :
  let d := state_of (start0 sendMessage_down "alice" "bob"
                       {| outside := []; kxContext := None; kxLog := [] |}) in
  kxContext _ d = Some ctx1 ∧ outside _ d = []
  ∧ kxLog _ d = ["22:13:20: Error starting key exchange: Network Error";
                 "22:13:20: Starting key exchange with bob as initiator"].
Proof. split_and!; reflexivity. Qed.

Lemma log_stays_within_twenty_lines_witness :
  let d := {| outside := [resp2; init_from_carol]; kxContext := Some ctx1; kxLog := [] |} in
  (length (kxLog _ (check0 processKeyResp_checking "alice" d).2) ≤ 20)%nat
  ∧ (length (kxLog _ (start0 sendMessage0 "alice" "bob" d).2) ≤ 20)%nat.
Proof.
  exact (log_stays_within_twenty_lines Store time0 getInbox0 sendMessage0 getPublicKey0
           createKeyInit0 processKeyInit0 processKeyResp_checking createKeyConfirm0
           verifyKeyConfirm0 "alice" "bob"
           {| outside := [resp2; init_from_carol]; kxContext := Some ctx1; kxLog := [] |}
           (Nat.le_0_l 20)).
Defined.

End StartRuns.


(** ** [components/Dashboard]: what a [KEY_INIT] and a failed confirmation do to
    the context *)

Module DashboardContext.
Import KxRoutes Dashboard DashboardClaims.

Lemma is_str_eq (v : JSValue) (s : string) : is_str v s = true → v = JStr s.
Proof.
  destruct v as [| | | | s' | | |]; cbn; try done.
  by destruct (decide (s' = s)) as [-> |].
Qed.

Section Component.
Variable Outside : Type.
Variable toLocaleTimeString : Outside → string.
Variable getInbox : Eff Outside (list KxMessage).
Variable sendMessage : string → string → JSValue → Eff Outside JSValue.
Variable getPublicKey : string → Eff Outside JSValue.
Variable processKeyInitAndCreateResp :
  JSValue → JSValue → JSValue → string → Eff Outside JSValue.
Variable processKeyRespAndDeriveKey :
  JSValue → JSValue → JSValue → JSValue → JSValue → Eff Outside JSValue.
Variable createKeyConfirm :
  string → JSValue → string → string → JSValue → JSValue → Eff Outside JSValue.
Variable decryptAndVerifyKeyConfirm : JSValue → JSValue → JSValue → Eff Outside JSValue.

#[local] Abbreviation Dash := (Dashboard.Dash Outside).
#[local] Abbreviation handle := (handle_message Outside toLocaleTimeString sendMessage
  getPublicKey processKeyInitAndCreateResp processKeyRespAndDeriveKey createKeyConfirm
  decryptAndVerifyKeyConfirm).
#[local] Abbreviation handle_init := (handle_key_init Outside toLocaleTimeString sendMessage
  getPublicKey processKeyInitAndCreateResp).
#[local] Abbreviation process := (process_messages Outside toLocaleTimeString sendMessage
  getPublicKey processKeyInitAndCreateResp processKeyRespAndDeriveKey createKeyConfirm
  decryptAndVerifyKeyConfirm).
#[local] Abbreviation check := (handleCheckInbox Outside toLocaleTimeString getInbox
  sendMessage getPublicKey processKeyInitAndCreateResp processKeyRespAndDeriveKey
  createKeyConfirm decryptAndVerifyKeyConfirm).



(** X16.  A key confirmation that fails does not cost the key.  When the
    branch of a [KEY_CONFIRM_A] (the context being a responder's) or of a
    [KEY_CONFIRM_B] (an initiator's) is taken and
    [decryptAndVerifyKeyConfirm] throws, the loop ends there with one line
    in the log: nothing is sent, the messages after it are not processed,
    and the context, with the key it holds, is as it was; so it is after
    [handleCheckInbox]. *)
Theorem failed_confirmation_keeps_context (username : string) (ctx : KxContext)
    (msg : KxMessage) (rest : list KxMessage) (d : Dash) (e : Exn) (o0 o1 : Outside) :
  (is_str (kx_messageType msg) "KEY_CONFIRM_A" = true
   ∧ has_role (kxContext _ d) "responder" = Some ctx)
  ∨ (is_str (kx_messageType msg) "KEY_CONFIRM_B" = true
     ∧ has_role (kxContext _ d) "initiator" = Some ctx) →
  getInbox (outside _ d) = (Ok (msg :: rest), o0) →
  decryptAndVerifyKeyConfirm (kx_payload msg) (ctx_aesKey ctx) (ctx_transcriptHash ctx) o0
  = (Throw e, o1) →
  let received :=
    toLocaleTimeString o0 +:+ ": " +:+ "Received " +:+ js_to_string (kx_messageType msg)
    +:+ " from " +:+ kx_from msg in
  process username (kxContext _ d) (msg :: rest)
    {| outside := o0; kxContext := kxContext _ d; kxLog := kxLog _ d |}
  = (Throw e,
     {| outside := o1; kxContext := kxContext _ d;
        kxLog := take 20 (received :: kxLog _ d) |})
  ∧ check username d
    = (Ok (),
       {| outside := o1; kxContext := kxContext _ d;
          kxLog := take 20 ((toLocaleTimeString o1 +:+ ": " +:+ "Error checking inbox: "
                             +:+ exn_message e)
                            :: take 20 (received :: kxLog _ d)) |}).
Proof.
  intros Hbranch Hinbox Hverify received.
  assert (Hprocess :
    process username (kxContext _ d) (msg :: rest)
      {| outside := o0; kxContext := kxContext _ d; kxLog := kxLog _ d |}
    = (Throw e,
       {| outside := o1; kxContext := kxContext _ d;
          kxLog := take 20 (received :: kxLog _ d) |})).
  { subst received. cbn [process_messages]. unfold mbind at 1, Eff_bind at 1.
    unfold handle_message.
    destruct Hbranch as [[Htype Hrole] | [Htype Hrole]];
      apply is_str_eq in Htype; rewrite Htype, Hrole; cbn [is_str].
    - rewrite !decide_False by done. rewrite decide_True by done.
      destruct (has_role (kxContext _ d) "initiator"); unfold handle_key_confirm_a;
        unfold mbind, Eff_bind, addLog, call; cbn [Dashboard.outside Dashboard.kxContext
          Dashboard.kxLog]; by rewrite Hverify.
    - rewrite !decide_False by done. rewrite decide_True by done.
      destruct (has_role (kxContext _ d) "responder"); unfold handle_key_confirm_b;
        unfold mbind, Eff_bind, addLog, call; cbn [Dashboard.outside Dashboard.kxContext
          Dashboard.kxLog]; by rewrite Hverify. }
  split; [exact Hprocess |].
  unfold handleCheckInbox. unfold mbind at 1, Eff_bind at 1, call at 1.
  rewrite Hinbox, Hprocess. reflexivity.
Qed.

End Component.
End DashboardContext.


Module ContextRuns.
Import KxRoutes KxInbox Dashboard DashboardClaims DashboardContext Runs.

(** The context of a responder who holds the key of [session-1] with bob. *)
Definition responder1 : KxContext :=
  {| ctx_role := "responder"; ctx_peer := "bob";
     ctx_keyInitBody := JObj [("sessionId", JStr "session-1")];
     ctx_initContext := JUndefined; ctx_sessionId := JStr "session-1";
     ctx_aesKey := JHandle 8; ctx_transcriptHash := JStr "dGg";
     ctx_nonceA := JStr "bkE"; ctx_nonceB := JStr "bkI" |}.

Definition confirm_a : KxMessage :=
  {| kx_id := "1700000000000d4"; kx_from := "bob"; kx_to := JStr "alice";
     kx_messageType := JStr "KEY_CONFIRM_A";
     kx_payload := JObj [("sessionId", JStr "session-1"); ("ciphertext", JStr "eA")];
     kx_createdAt := "2023-11-14T22:13:22.000Z" |}.

(** A key-exchange module that rejects every confirmation. *)
Definition verifyKeyConfirm_failing (payload aesKey transcriptHash : JSValue)
    : Eff Store JSValue :=
  lift (Throw OperationError).

(** With the key of the session with bob in the context, the [KEY_INIT] of
    carol makes the context the responder's for carol. *)
Example carol_takes_over :
  let d := {| outside := [init_from_carol]; kxContext := Some responder1; kxLog := [] |} in
  let d1 := state_of (check0 processKeyResp_checking "alice" d) in
  (ctx_peer <$> kxContext _ d1) = Some "carol"
  ∧ (ctx_sessionId <$> kxContext _ d1) = Some (JStr "session-3")
  ∧ (λ m, (kx_to m, kx_messageType m)) <$> outside _ d1
    = [(JStr "carol", JStr "KEY_RESP")].
Proof. split_and!; reflexivity. Qed.


Lemma failed_confirmation_keeps_context_witness :
  let d := {| outside := [confirm_a; init_from_carol]; kxContext := Some responder1;
              kxLog := [] |} in
  let received := "22:13:20: Received KEY_CONFIRM_A from bob" in
  process_messages Store time0 sendMessage0 getPublicKey0 processKeyInit0
    processKeyResp_checking createKeyConfirm0 verifyKeyConfirm_failing
    "alice" (Some responder1) [confirm_a; init_from_carol]
    {| outside := []; kxContext := Some responder1; kxLog := [] |}
  = (Throw OperationError,
     {| outside := []; kxContext := Some responder1; kxLog := take 20 [received] |})
  ∧ handleCheckInbox Store time0 getInbox0 sendMessage0 getPublicKey0 processKeyInit0
      processKeyResp_checking createKeyConfirm0 verifyKeyConfirm_failing "alice" d
    = (Ok (),
       {| outside := []; kxContext := Some responder1;
          kxLog :=
            take 20 (("22:13:20" +:+ ": " +:+ "Error checking inbox: "
                      +:+ exn_message OperationError) :: take 20 [received]) |}).
Proof.
  exact (failed_confirmation_keeps_context Store time0 getInbox0 sendMessage0 getPublicKey0
           processKeyInit0 processKeyResp_checking createKeyConfirm0
           verifyKeyConfirm_failing "alice" responder1 confirm_a [init_from_carol]
           {| outside := [confirm_a; init_from_carol]; kxContext := Some responder1;
              kxLog := [] |}
           OperationError [] [] (or_introl (conj eq_refl eq_refl)) eq_refl eq_refl).
Defined.

End ContextRuns.


(** *** The inbox keeps the order of sending *)

Module KxOrder.
Import KxRoutes KxInbox KxDelivery.

Lemma remove_first_sublist (id : string) (kxMessages : Store) :
  remove_first id kxMessages `sublist_of` kxMessages.
Proof.
  induction kxMessages as [| m rest IH]; cbn; [done |].
  destruct (decide (kx_id m = id)); [by apply sublist_cons | by apply sublist_skip].
Qed.

Lemma remove_all_sublist (gone kxMessages : Store) :
  foldl (λ store msg, remove_first (kx_id msg) store) kxMessages gone
  `sublist_of` kxMessages.
Proof.
  revert kxMessages. induction gone as [| x gone IH]; intros store; cbn [foldl]; [done |].
  etrans; [apply IH | apply remove_first_sublist].
Qed.

Section Inbox.
Variable toLowerCase : string → string.
Variable jwt_verify : string → option JwtPayload.

#[local] Abbreviation serve := (KxRoutes.serve toLowerCase jwt_verify).
#[local] Abbreviation run := (KxRoutes.run toLowerCase jwt_verify).

(** What a request adds to the store: the message of a send that is
    accepted, and nothing else. *)
Definition made (r : Route * Env * Request) : list KxMessage :=
  match r.1.1 with
  | PostSend => (serve PostSend r.1.2 r.2 []).2
  | GetInbox => []
  end.

Lemma serve_send_made (env : Env) (req : Request) (kxMessages : Store) :
  (serve PostSend env req kxMessages).2 = kxMessages ++ made (PostSend, env, req).
Proof.
  unfold made, KxRoutes.serve. cbn [fst snd].
  destruct (authenticateToken jwt_verify req) as [refused | user];
    [by rewrite app_nil_r |].
  unfold send_handler.
  destruct (get_prop (body req) "to") as [to |]; cbn; [| by rewrite app_nil_r].
  destruct (get_prop (body req) "messageType") as [messageType |]; cbn;
    [| by rewrite app_nil_r].
  destruct (get_prop (body req) "payload") as [payload |]; cbn; [| by rewrite app_nil_r].
  destruct (falsy to || falsy messageType || falsy payload); cbn; [by rewrite app_nil_r |].
  done.
Qed.

Lemma serve_fetch_sublist (env : Env) (req : Request) (kxMessages : Store) :
  (serve GetInbox env req kxMessages).2 `sublist_of` kxMessages.
Proof.
  unfold KxRoutes.serve.
  destruct (authenticateToken jwt_verify req) as [refused | user]; [done |].
  apply remove_all_sublist.
Qed.

(** X17.  The inbox keeps the order of sending.  Along any run of
    requests, the messages of every answer of [GET /kx/inbox], and those
    left in the store at the end, are in the order in which they were
    queued: first those of the store at the start, in its order, then those
    that the accepted [POST /kx/send] requests of the run made, in the order
    of the requests. *)
Theorem inbox_keeps_order_of_sending (reqs : list (Route * Env * Request))
    (kxMessages : Store) :
  (run reqs kxMessages).2 `sublist_of` kxMessages ++ (reqs ≫= made)
  ∧ Forall (λ r, r.2 `sublist_of` kxMessages ++ (reqs ≫= made)) (run reqs kxMessages).1.
Proof.
  revert kxMessages. induction reqs as [| [[route env] req] rest IH]; intros store.
  { cbn. rewrite app_nil_r. by split. }
  rewrite run_cons, bind_cons. cbn [fst snd].
  destruct (IH (serve route env req store).2) as [IHfinal IHhanded].
  assert (Hstep : (serve route env req store).2 ++ (rest ≫= made)
                  `sublist_of` store ++ made (route, env, req) ++ (rest ≫= made)).
  { destruct route.
    - by rewrite serve_send_made, <- app_assoc.
    - apply sublist_app; [apply serve_fetch_sublist | done]. }
  split; [by etrans |]. constructor.
  - cbn [snd]. destruct route; [apply sublist_nil_l |].
    destruct (authenticateToken jwt_verify req) as [refused | user]; [apply sublist_nil_l |].
    unfold delivered. etrans; [apply sublist_filter | by apply sublist_inserts_r].
  - eapply Forall_impl; [exact IHhanded |]. intros r Hr. cbn beta in *.
    etrans; [exact Hr | exact Hstep].
Qed.

End Inbox.
End KxOrder.
